(** * MPICH error utilities (src/mpi/errhan/errutil.c): a shallow embedding

    The development follows the structure of errutil.c:

    - the bit-packed error code and its accessors;
    - the error message ring ([ErrorRing]) and the routines that decode a
      code into ring indexes;
    - the static message tables and their lookup routines;
    - a byte-level model of the C buffers the rendering routines write to
      ([c_snprintf], [MPL_strncpy], [c_strlen]);
    - the format renderer [vsnprintf_mpi];
    - [MPIR_Err_create_code_valist], [MPIR_Err_combine_codes];
    - the error-handler dispatch [MPIR_Err_return_comm];
    - the stack/instance string routines and [MPIR_Err_get_string].

    C [int] values are integers of [Z]; the bit operators [&], [|], [~] are
    [Z.land], [Z.lor], [Z.lnot] (two's complement, so they agree with C on
    every [int]), and arithmetic that can leave the [int] range is wrapped
    with [wrap32].  [size_t] arithmetic is wrapped with [wrap_size].

    Loops that follow [prev_error] through the ring need not end (a ring can
    hold a cycle); they take a bound on the number of iterations and return
    [None] when it is reached.  [None] is also the result of an access the
    model gives no meaning to: a byte outside the modelled memory region, an
    index outside a generated table, a [va_arg] of the wrong type.

    What [checkValidErrcode] prints through MPL_error_printf is part of its
    result; the notices the other routines print while they decode a code
    change no value and are not recorded.  The ring mutex is not modelled:
    the routines run one at a time. *)

From Stdlib Require Import ZArith List String Ascii Lia Bool.
From Stdlib Require Import DecimalString HexadecimalString.
From stdpp Require Import base list.

Local Open Scope string_scope.
Local Open Scope Z_scope.

(** ** Machine integers *)

Definition wrap32 (z : Z) : Z := (z + 2 ^ 31) mod 2 ^ 32 - 2 ^ 31.

Definition wrap_u32 (z : Z) : Z := z mod 2 ^ 32.

Definition wrap_size (z : Z) : Z := z mod 2 ^ 64.

(** ** The error-code layout (mpir_errcodes.h) and the MPI constants (mpi.h)

    Neither header is part of errutil.c.  Their constants are taken as the
    fields of a class, so every routine below is written against an arbitrary
    layout; [LayoutOk] collects the facts about the layout that the proofs
    rely on.  The field order is the one documented at the top of errutil.c:
    is-dynamic, specific sequence number, specific index, generic code,
    is-fatal, class. *)

Class ErrLayout := {
  ERROR_CLASS_MASK : Z;
  ERROR_FATAL_MASK : Z;
  ERROR_GENERIC_MASK : Z;
  ERROR_GENERIC_SHIFT : Z;
  ERROR_SPECIFIC_INDEX_MASK : Z;
  ERROR_SPECIFIC_INDEX_SIZE : Z;
  ERROR_SPECIFIC_INDEX_SHIFT : Z;
  ERROR_SPECIFIC_SEQ_MASK : Z;
  ERROR_SPECIFIC_SEQ_SIZE : Z;
  ERROR_SPECIFIC_SEQ_SHIFT : Z;
  ERROR_DYN_MASK : Z;
  MPI_ERR_UNKNOWN : Z;
  MPI_ERR_OTHER : Z;
  MPI_ERR_INTERN : Z;
  MPI_ERR_IN_STATUS : Z;
  MPICH_ERR_LAST_CLASS : Z;
  MPICH_ERR_FIRST_MPIX : Z;
  MPICH_ERR_LAST_MPIX : Z
}.

Definition MPI_SUCCESS : Z := 0.

Section Codes.
Context {L : ErrLayout}.

(** Modelled from the spec: the class accessor macros ERROR_GET_CLASS and
    MPIR_ERR_GET_CLASS of mpir_errcodes.h, which is absent; the class is the
    lowest field of a code, the bits under ERROR_CLASS_MASK, as errutil.c
    itself extracts it in MPIR_Err_get_string. *)
Definition MPIR_ERR_GET_CLASS (mpi_errno : Z) : Z := Z.land mpi_errno ERROR_CLASS_MASK.

Definition ERROR_GET_CLASS (mpi_errno : Z) : Z := MPIR_ERR_GET_CLASS mpi_errno.

(** [#define is_valid_error_class(errcode)] *)
Definition is_valid_error_class (errcode : Z) : bool :=
  ((0 <=? errcode) && (errcode <=? MPICH_ERR_LAST_CLASS))
  || ((MPICH_ERR_FIRST_MPIX <? errcode) && (errcode <=? MPICH_ERR_LAST_MPIX)).

(** [int MPIR_Err_is_fatal(int errcode)] *)
Definition MPIR_Err_is_fatal (errcode : Z) : bool :=
  if negb (Z.land errcode ERROR_DYN_MASK =? 0) then false
  else if negb (Z.land errcode ERROR_FATAL_MASK =? 0) then true else false.

(** The two messages [checkValidErrcode] sends to MPL_error_printf: both
    report the invalid class and the routine; the second adds that no error
    stack is available. *)
Inductive diagnostic :=
| Diag_invalid_class (error_class : Z) (fcname : string)
| Diag_invalid_class_no_stack (error_class : Z) (fcname : string).

(** [static int checkValidErrcode(int error_class, const char fcname[],
    int *errcode_p)]: the result is the return code [rc], the value left in
    [*errcode_p], and what was printed. *)
Definition checkValidErrcode (error_class : Z) (fcname : string) (errcode : Z)
  : Z * Z * list diagnostic :=
  if MPICH_ERR_LAST_MPIX <? error_class then
    let printed :=
      if negb (Z.land errcode (Z.lnot ERROR_CLASS_MASK) =? 0)
      then Diag_invalid_class error_class fcname
      else Diag_invalid_class_no_stack error_class fcname in
    (1, Z.lor (Z.land errcode (Z.lnot ERROR_CLASS_MASK)) MPI_ERR_UNKNOWN, [printed])
  else (0, errcode, []).

End Codes.

(** ** The error message ring *)

(** [MAX_LOCATION_LEN] and [MPIR_MAX_ERROR_LINE] *)
Definition MAX_LOCATION_LEN : Z := 63.

Definition MPIR_MAX_ERROR_LINE : Z := 256.

(** [typedef struct MPIR_Err_msg { ... } MPIR_Err_msg_t].  The two character
    arrays hold C strings; the model keeps their text.  The C field [id] is
    named [msg_id] here. *)
Record MPIR_Err_msg_t := {
  msg_id : Z;
  prev_error : Z;
  use_user_error_code : Z;
  user_error_code : Z;
  location : string;
  msg : string
}.

(** A ring slot after [memset(&ErrorRing[ring_idx], 0, ...)]; also the value
    of every slot of the static array at program start. *)
Definition zero_entry : MPIR_Err_msg_t :=
  {| msg_id := 0; prev_error := 0; use_user_error_code := 0;
     user_error_code := 0; location := ""; msg := "" |}.

(** The file-level variables [ErrorRing], [error_ring_loc] and
    [max_error_ring_loc]. *)
Record ring_state := {
  ErrorRing : list MPIR_Err_msg_t;
  error_ring_loc : Z;
  max_error_ring_loc : Z
}.

(** [ErrorRing[i]]; an index outside the list reads a zeroed slot. *)
Definition ring_get (r : list MPIR_Err_msg_t) (i : Z) : MPIR_Err_msg_t :=
  default zero_entry (r !! Z.to_nat i).

(** [ErrorRing[i] = e] *)
Definition ring_set (r : list MPIR_Err_msg_t) (i : Z) (e : MPIR_Err_msg_t)
  : list MPIR_Err_msg_t := <[Z.to_nat i := e]> r.

Definition set_prev_error (e : MPIR_Err_msg_t) (v : Z) : MPIR_Err_msg_t :=
  {| msg_id := msg_id e; prev_error := v;
     use_user_error_code := use_user_error_code e;
     user_error_code := user_error_code e;
     location := location e; msg := msg e |}.

Definition with_ring (st : ring_state) (r : list MPIR_Err_msg_t) : ring_state :=
  {| ErrorRing := r; error_ring_loc := error_ring_loc st;
     max_error_ring_loc := max_error_ring_loc st |}.

Section Ring.
Context {L : ErrLayout}.

(** [#define MAX_ERROR_RING ERROR_SPECIFIC_INDEX_SIZE] *)
Definition MAX_ERROR_RING : Z := ERROR_SPECIFIC_INDEX_SIZE.

(** The ring at program start: every slot zero, both cursors zero. *)
Definition initial_ring : ring_state :=
  {| ErrorRing := replicate (Z.to_nat MAX_ERROR_RING) zero_entry;
     error_ring_loc := 0; max_error_ring_loc := 0 |}.

(** The decoded indexes of a code, as [convertErrcodeToIndexes] stores them
    through its three pointer arguments. *)
Record indexes := { ix_ring_idx : Z; ix_ring_id : Z; ix_generic_idx : Z }.

(** [static int convertErrcodeToIndexes(int errcode, int *ring_idx,
    int *ring_id, int *generic_idx)]: the return value and the decoded
    indexes. *)
Definition convertErrcodeToIndexes (st : ring_state) (errcode : Z) : Z * indexes :=
  let ix :=
    {| ix_ring_idx := Z.shiftr (Z.land errcode ERROR_SPECIFIC_INDEX_MASK)
                            ERROR_SPECIFIC_INDEX_SHIFT;
       ix_ring_id := Z.land errcode
                    (Z.lor (Z.lor ERROR_CLASS_MASK ERROR_GENERIC_MASK)
                           ERROR_SPECIFIC_SEQ_MASK);
       ix_generic_idx := Z.shiftr (Z.land errcode ERROR_GENERIC_MASK)
                               ERROR_GENERIC_SHIFT - 1 |} in
  if (ix_ring_idx ix <? 0) || (MAX_ERROR_RING <=? ix_ring_idx ix)
     || (max_error_ring_loc st <? ix_ring_idx ix)
  then (1, ix) else (0, ix).

(** Plain [char] is a signed byte; [(unsigned int) msg[i]] converts it. *)
Definition char_to_int (c : ascii) : Z :=
  let n := Z.of_N (N_of_ascii c) in if n <? 128 then n else n - 256.

(** [static void ErrcodeCreateID(int error_class, int generic_idx,
    const char *msg, int *id, int *seq)]: returns [( *id, *seq )]. *)
Definition ErrcodeCreateID (error_class generic_idx : Z) (msg : string) : Z * Z :=
  let ring_seq :=
    fold_left (fun acc c => wrap32 (acc + wrap_u32 (char_to_int c)))
              (list_ascii_of_string msg) 0 in
  let ring_seq := Z.rem ring_seq ERROR_SPECIFIC_SEQ_SIZE in
  let ring_id :=
    Z.lor (Z.lor (Z.land error_class ERROR_CLASS_MASK)
                 (wrap32 (Z.shiftl (generic_idx + 1) ERROR_GENERIC_SHIFT)))
          (wrap32 (Z.shiftl ring_seq ERROR_SPECIFIC_SEQ_SHIFT)) in
  (ring_id, ring_seq).

(** [static int checkForUserErrcode(int errcode)] *)
Definition checkForUserErrcode (st : ring_state) (errcode : Z) : Z :=
  if negb (errcode =? MPI_SUCCESS) then
    let '(rc, ix) := convertErrcodeToIndexes st errcode in
    if negb (rc =? 0) then errcode
    else
      let e := ring_get (ErrorRing st) (ix_ring_idx ix) in
      if (0 <=? ix_generic_idx ix) && (msg_id e =? ix_ring_id ix)
         && negb (use_user_error_code e =? 0)
      then user_error_code e else errcode
  else errcode.

End Ring.

(** ** The static message tables (defmsg.h) *)

(** [typedef struct msgpair { ... } msgpair]; the name pointers of the
    generated tables are string literals, never NULL. *)
Record msgpair := {
  sentinal1 : Z;
  short_name : string;
  long_name : string;
  sentinal2 : Z
}.

(** defmsg.h is generated and absent; its arrays are the fields of a class.
    The lengths [generic_msgs_len] and [specific_msgs_len] it declares are the
    lengths of the arrays. *)
Class MsgTables := {
  generic_err_msgs : list msgpair;
  specific_err_msgs : list msgpair;
  class_to_index : list Z
}.

(** [strcmp]: the sign of the comparison of two C strings as unsigned
    bytes. *)
Definition strcmp (a b : string) : comparison := String.compare a b.

(** [strncmp]: the same over at most [n] characters. *)
Definition strncmp (a b : string) (n : nat) : comparison :=
  String.compare (String.substring 0 n a) (String.substring 0 n b).

Definition strlen (s : string) : Z := Z.of_nat (String.length s).

(** [tbl[i]]; an index outside the array has no value. *)
Definition table_get (tbl : list msgpair) (i : Z) : option msgpair :=
  if i <? 0 then None else tbl !! Z.to_nat i.

(** The loop shared by [FindSpecificMsgIndex] and [FindGenericMsgIndex]:
    [tbl] is the part of the array from index [i] on. *)
Fixpoint find_msg_from (tbl : list msgpair) (i : Z) (msg : string) : Z :=
  match tbl with
  | [] => -1
  | p :: tbl' =>
    if negb (sentinal1 p =? 0xacebad03) || negb (sentinal2 p =? 0xcb0bfa11)
    then -1
    else match strcmp (short_name p) msg with
         | Eq => i
         | Gt =>
           match strncmp (short_name p) msg (String.length msg) with
           | Eq => find_msg_from tbl' (i + 1) msg
           | _ => -1
           end
         | Lt => find_msg_from tbl' (i + 1) msg
         end
  end.

Section Tables.
Context {L : ErrLayout} {T : MsgTables}.

Definition generic_msgs_len : Z := Z.of_nat (length generic_err_msgs).

Definition specific_msgs_len : Z := Z.of_nat (length specific_err_msgs).

(** [static int FindSpecificMsgIndex(const char msg[])] *)
Definition FindSpecificMsgIndex (msg : string) : Z :=
  find_msg_from specific_err_msgs 0 msg.

(** [static int FindGenericMsgIndex(const char msg[])] *)
Definition FindGenericMsgIndex (msg : string) : Z :=
  find_msg_from generic_err_msgs 0 msg.

(** [static const char *get_class_msg(int error_class)]; [None] when the
    class indexes outside the generated arrays. *)
Definition get_class_msg (error_class : Z) : option string :=
  if is_valid_error_class error_class then
    match class_to_index !! Z.to_nat error_class with
    | Some i => option_map long_name (table_get generic_err_msgs i)
    | None => None
    end
  else Some "Unknown error class".

(** [static int checkErrcodeIsValid(int errcode)] *)
Definition checkErrcodeIsValid (st : ring_state) (errcode : Z) : Z :=
  if is_valid_error_class errcode then 0
  else
    let '(_, ix) := convertErrcodeToIndexes st errcode in
    if (ix_ring_idx ix <? 0) || (MAX_ERROR_RING <=? ix_ring_idx ix)
       || (max_error_ring_loc st <? ix_ring_idx ix)
    then 1
    else if negb (msg_id (ring_get (ErrorRing st) (ix_ring_idx ix)) =? ix_ring_id ix)
    then 2
    else if (ix_generic_idx ix <? -1) || (generic_msgs_len <? ix_generic_idx ix)
    then 3
    else 0.

End Tables.

(** ** C buffers

    A region of memory is a list of bytes; a pointer into it is an offset.
    An access outside the region has no result.  The region can extend past
    the buffer a routine is given, so that what the routine does beyond its
    bound is visible. *)

Definition NUL : ascii := Ascii.zero.

Definition is_nul (c : ascii) : bool := (N_of_ascii c =? 0)%N.

Definition mem_load (m : list ascii) (p : Z) : option ascii :=
  if p <? 0 then None else m !! Z.to_nat p.

(** [*p = c] *)
Definition mem_store (m : list ascii) (p : Z) (c : ascii) : option (list ascii) :=
  if (0 <=? p) && (p <? Z.of_nat (length m))
  then Some (<[Z.to_nat p := c]> m) else None.

(** Storing the bytes [cs] from [p] on. *)
Definition mem_write (m : list ascii) (p : Z) (cs : list ascii) : option (list ascii) :=
  match cs with
  | [] => Some m
  | _ =>
    if (0 <=? p) && (p + Z.of_nat (length cs) <=? Z.of_nat (length m))
    then Some (list_inserts (Z.to_nat p) cs m) else None
  end.

Fixpoint strlen_from (l : list ascii) : option Z :=
  match l with
  | [] => None
  | c :: l' => if is_nul c then Some 0 else option_map Z.succ (strlen_from l')
  end.

(** [strlen(p)] on a pointer into the region. *)
Definition c_strlen (m : list ascii) (p : Z) : option Z :=
  if p <? 0 then None else strlen_from (drop (Z.to_nat p) m).

Fixpoint string_from (l : list ascii) : option string :=
  match l with
  | [] => None
  | c :: l' => if is_nul c then Some ""
               else option_map (String c) (string_from l')
  end.

(** The C string that starts at [p]. *)
Definition c_string_at (m : list ascii) (p : Z) : option string :=
  if p <? 0 then None else string_from (drop (Z.to_nat p) m).

(** The first [n] characters of a text ([n] may be far larger than the
    text). *)
Definition text_prefix (n : Z) (s : string) : list ascii :=
  take (Z.to_nat (Z.min n (strlen s))) (list_ascii_of_string s).

(** libc [snprintf(str, n, ...)] once the formatted text is known: nothing
    is stored when [n] is 0, otherwise at most [n - 1] characters and the
    terminator.  [n] is a [size_t]. *)
Definition c_snprintf (m : list ascii) (str n : Z) (text : string) : option (list ascii) :=
  if n =? 0 then Some m
  else mem_write m str (text_prefix (n - 1) text ++ [NUL]).

(** Modelled from the spec: MPL_strncpy of the MPL string library, which is
    not part of errutil.c: a copy bounded by [n] that always leaves the
    destination terminated inside the bound, and returns nonzero when the
    source did not fit.  Nothing is stored when [n] is 0. *)
Definition MPL_strncpy (m : list ascii) (dest : Z) (src : string) (n : Z)
  : option (list ascii * Z) :=
  if n =? 0 then Some (m, 0)
  else if strlen src <? n
  then option_map (fun m' => (m', 0)) (mem_write m dest (list_ascii_of_string src ++ [NUL]))
  else option_map (fun m' => (m', 1)) (mem_write m dest (text_prefix (n - 1) src ++ [NUL])).

(** ** The values the format directives name (mpi.h, mpiimpl.h)

    The MPI handle and sentinel constants, the datatype routines and macros
    [GetDTypeString] calls, the text libc prints for [%p] (which the C
    standard leaves to the implementation) and the text libc's printf family
    produces for a caller-supplied format and one [int] ([libc_format_int])
    are outside errutil.c. *)

Class MpiConsts := {
  MPI_ANY_SOURCE : Z; MPI_PROC_NULL : Z; MPI_ROOT : Z; MPI_ANY_TAG : Z;
  MPI_IN_PLACE : Z;
  MPI_COMM_WORLD : Z; MPI_COMM_SELF : Z; MPI_COMM_NULL : Z;
  MPI_INFO_NULL : Z; MPI_WIN_NULL : Z; MPI_GROUP_NULL : Z;
  MPI_REQUEST_NULL : Z; MPI_ERRHANDLER_NULL : Z; MPI_SESSION_NULL : Z;
  MPI_DATATYPE_NULL : Z;
  HAVE_ROMIO : bool; MPI_FILE_NULL : Z;
  MPI_OP_NULL : Z; MPI_MAX : Z; MPI_MIN : Z; MPI_SUM : Z; MPI_PROD : Z;
  MPI_LAND : Z; MPI_BAND : Z; MPI_LOR : Z; MPI_BOR : Z; MPI_LXOR : Z;
  MPI_BXOR : Z; MPI_MINLOC : Z; MPI_MAXLOC : Z; MPI_REPLACE : Z;
  MPI_NO_OP : Z; MPIX_EQUAL : Z;
  MPI_KEYVAL_INVALID : Z; MPI_TAG_UB : Z; MPI_HOST : Z; MPI_IO : Z;
  MPI_WTIME_IS_GLOBAL : Z; MPI_UNIVERSE_SIZE : Z; MPI_LASTUSEDCODE : Z;
  MPI_APPNUM : Z; MPI_WIN_BASE : Z; MPI_WIN_SIZE : Z; MPI_WIN_DISP_UNIT : Z;
  MPI_WIN_CREATE_FLAVOR : Z; MPI_WIN_MODEL : Z;
  MPI_MODE_NOSTORE : Z; MPI_MODE_NOCHECK : Z; MPI_MODE_NOPUT : Z;
  MPI_MODE_NOPRECEDE : Z; MPI_MODE_NOSUCCEED : Z;
  HANDLE_GET_MPI_KIND : Z -> Z; MPIR_DATATYPE : Z;
  HANDLE_GET_KIND : Z -> Z; HANDLE_KIND_INVALID : Z;
  MPIR_Type_get_combiner : Z -> Z; MPI_COMBINER_NAMED : Z;
  MPIR_DATATYPE_GET_ORIG_BUILTIN : Z -> Z;
  MPIR_Datatype_builtin_to_string : Z -> option string;
  MPIR_Datatype_combiner_to_string : Z -> option string;
  fmt_p : Z -> string;
  libc_format_int : string -> Z -> string;
  MPI_ERRORS_ARE_FATAL : Z; MPI_ERRORS_RETURN : Z;
  MPIR_ERRORS_THROW_EXCEPTIONS : Z; MPI_ERRORS_ABORT : Z;
  MPICH_MPI_STATE__UNINITIALIZED : Z
}.

(** libc conversions: [%d] and [%lld]; [%x] of an [int]; [%llx] and [%lx];
    [%08x]. *)
Definition fmt_d (d : Z) : string :=
  DecimalString.NilZero.string_of_int (Z.to_int d).

Definition fmt_hex (n : Z) : string :=
  HexadecimalString.NilZero.string_of_uint (N.to_hex_uint (Z.to_N n)).

Definition fmt_x (d : Z) : string := fmt_hex (d mod 2 ^ 32).

Definition fmt_llx (ll : Z) : string := fmt_hex (ll mod 2 ^ 64).

Definition fmt_08x (d : Z) : string :=
  let s := fmt_x d in
  String.concat "" (repeat "0" (8 - String.length s)%nat) ++ s.

(** The text kept by [snprintf] into a local array of [size] bytes. *)
Definition truncated (size : Z) (s : string) : string :=
  string_of_list_ascii (text_prefix (size - 1) s).

(** A [switch] over named constants: the name of the first matching case. *)
Fixpoint switch_name (cases : list (Z * string)) (v : Z) : option string :=
  match cases with
  | [] => None
  | (k, name) :: cases' => if v =? k then Some name else switch_name cases' v
  end.

Section Describe.
Context {M : MpiConsts}.

(** One [if (d & FLAG) { ... d ^= FLAG; }] block of [GetAssertString]: the
    text written so far and what is left of [d].  [len < ASSERT_STR_MAXLEN]
    holds exactly when some text has been written. *)
Definition assert_flag (flag : Z) (name : string) (acc : string * Z) : string * Z :=
  let '(str, d) := acc in
  if negb (Z.land d flag =? 0)
  then ((if (String.length str =? 0)%nat then name else str ++ " | " ++ name),
        Z.lxor d flag)
  else acc.

(** [static const char *GetAssertString(int d)] *)
Definition GetAssertString (d : Z) : string :=
  if d =? 0 then "assert=0"
  else
    let acc := assert_flag MPI_MODE_NOSTORE "MPI_MODE_NOSTORE" ("", d) in
    let acc := assert_flag MPI_MODE_NOCHECK "MPI_MODE_NOCHECK" acc in
    let acc := assert_flag MPI_MODE_NOPUT "MPI_MODE_NOPUT" acc in
    let acc := assert_flag MPI_MODE_NOPRECEDE "MPI_MODE_NOPRECEDE" acc in
    let '(str, d) := assert_flag MPI_MODE_NOSUCCEED "MPI_MODE_NOSUCCEED" acc in
    if negb (d =? 0) then
      if (String.length str =? 0)%nat then "assert=0x" ++ fmt_x d
      else str ++ " | 0x" ++ fmt_x d
    else str.

(** [static const char *GetDTypeString(MPI_Datatype d)] *)
Definition GetDTypeString (d : Z) : string :=
  if negb (HANDLE_GET_MPI_KIND d =? MPIR_DATATYPE)
     || ((HANDLE_GET_KIND d =? HANDLE_KIND_INVALID) && negb (d =? MPI_DATATYPE_NULL))
  then "INVALID DATATYPE"
  else if d =? MPI_DATATYPE_NULL then "MPI_DATATYPE_NULL"
  else if d =? 0 then "dtype=0x0"
  else
    let combiner := MPIR_Type_get_combiner d in
    if combiner =? MPI_COMBINER_NAMED then
      let d := MPIR_DATATYPE_GET_ORIG_BUILTIN d in
      match MPIR_Datatype_builtin_to_string d with
      | None => truncated 64 ("dtype=0x" ++ fmt_08x d)
      | Some str => str
      end
    else
      match MPIR_Datatype_combiner_to_string combiner with
      | None => truncated 64 ("dtype=USER<0x" ++ fmt_08x d ++ ">")
      | Some str => truncated 64 ("dtype=USER<" ++ str ++ ">")
      end.

(** [static const char *GetMPIOpString(MPI_Op o)] *)
Definition GetMPIOpString (o : Z) : string :=
  match switch_name
          [(MPI_OP_NULL, "MPI_OP_NULL"); (MPI_MAX, "MPI_MAX"); (MPI_MIN, "MPI_MIN");
           (MPI_SUM, "MPI_SUM"); (MPI_PROD, "MPI_PROD"); (MPI_LAND, "MPI_LAND");
           (MPI_BAND, "MPI_BAND"); (MPI_LOR, "MPI_LOR"); (MPI_BOR, "MPI_BOR");
           (MPI_LXOR, "MPI_LXOR"); (MPI_BXOR, "MPI_BXOR");
           (MPI_MINLOC, "MPI_MINLOC"); (MPI_MAXLOC, "MPI_MAXLOC");
           (MPI_REPLACE, "MPI_REPLACE"); (MPI_NO_OP, "MPI_NO_OP");
           (MPIX_EQUAL, "MPIX_EQUAL")] o with
  | Some name => name
  | None => truncated 64 ("op=0x" ++ fmt_x o)
  end.

(** [static const char *get_keyval_string(int keyval)] *)
Definition get_keyval_string (keyval : Z) : string :=
  match switch_name
          [(MPI_KEYVAL_INVALID, "MPI_KEYVAL_INVALID"); (MPI_TAG_UB, "MPI_TAG_UB");
           (MPI_HOST, "MPI_HOST"); (MPI_IO, "MPI_IO");
           (MPI_WTIME_IS_GLOBAL, "MPI_WTIME_IS_GLOBAL");
           (MPI_UNIVERSE_SIZE, "MPI_UNIVERSE_SIZE");
           (MPI_LASTUSEDCODE, "MPI_LASTUSEDCODE"); (MPI_APPNUM, "MPI_APPNUM");
           (MPI_WIN_BASE, "MPI_WIN_BASE"); (MPI_WIN_SIZE, "MPI_WIN_SIZE");
           (MPI_WIN_DISP_UNIT, "MPI_WIN_DISP_UNIT");
           (MPI_WIN_CREATE_FLAVOR, "MPI_WIN_CREATE_FLAVOR");
           (MPI_WIN_MODEL, "MPI_WIN_MODEL")] keyval with
  | Some name => name
  | None => truncated 64 ("keyval=0x" ++ fmt_x keyval)
  end.

End Describe.

(** ** The format renderer *)

(** An argument of the [va_list]: what [va_arg] can fetch from it.  The C
    parameter [list] is called [ap] below. *)
Inductive va_value :=
| VA_int (v : Z)
| VA_long_long (v : Z)
| VA_char_ptr (s : option string)
| VA_void_ptr (p : Z).

(** How a directive stores its text: through [MPL_strncpy] or through
    [snprintf]. *)
Inductive rendered :=
| By_strncpy (text : string)
| By_snprintf (text : string).

(** The outcome of the [switch] on the directive character: a text and the
    rest of the argument list; the [default:] case; or a [va_arg] whose type
    the next argument does not have (undefined in C). *)
Inductive directive_result :=
| D_render (r : rendered) (rest : list va_value)
| D_unhandled
| D_bad_va_arg.

Definition va_arg_int (ap : list va_value) (k : Z -> rendered) : directive_result :=
  match ap with
  | VA_int v :: rest => D_render (k v) rest
  | _ => D_bad_va_arg
  end.

Definition va_arg_long_long (ap : list va_value) (k : Z -> rendered) : directive_result :=
  match ap with
  | VA_long_long v :: rest => D_render (k v) rest
  | _ => D_bad_va_arg
  end.

Definition null_or (null : Z) (name prefix : string) (h : Z) : rendered :=
  if h =? null then By_strncpy name else By_snprintf (prefix ++ fmt_x h).

Section Renderer.
Context {M : MpiConsts}.

(** The body of [switch ((int) ( *end ))] in [vsnprintf_mpi]. *)
Definition directive (c : ascii) (ap : list va_value) : directive_result :=
  match c with
  | "s"%char =>
    match ap with
    | VA_char_ptr (Some s) :: rest => D_render (By_strncpy s) rest
    | VA_char_ptr None :: rest => D_render (By_strncpy "<NULL>") rest
    | _ => D_bad_va_arg
    end
  | "d"%char => va_arg_int ap (fun d => By_snprintf (fmt_d d))
  | "L"%char => va_arg_long_long ap (fun ll => By_snprintf (fmt_d ll))
  | "x"%char => va_arg_int ap (fun d => By_snprintf (fmt_x d))
  | "X"%char => va_arg_long_long ap (fun ll => By_snprintf (fmt_llx ll))
  | "i"%char =>
    va_arg_int ap (fun i =>
      if i =? MPI_ANY_SOURCE then By_strncpy "MPI_ANY_SOURCE"
      else if i =? MPI_PROC_NULL then By_strncpy "MPI_PROC_NULL"
      else if i =? MPI_ROOT then By_strncpy "MPI_ROOT"
      else By_snprintf (fmt_d i))
  | "t"%char =>
    va_arg_int ap (fun t =>
      if t =? MPI_ANY_TAG then By_strncpy "MPI_ANY_TAG"
      else By_snprintf (fmt_d t))
  | "p"%char =>
    match ap with
    | VA_void_ptr p :: rest =>
      D_render (if p =? MPI_IN_PLACE then By_strncpy "MPI_IN_PLACE"
                else By_snprintf (fmt_p p)) rest
    | _ => D_bad_va_arg
    end
  | "C"%char =>
    va_arg_int ap (fun C =>
      if C =? MPI_COMM_WORLD then By_strncpy "MPI_COMM_WORLD"
      else if C =? MPI_COMM_SELF then By_strncpy "MPI_COMM_SELF"
      else if C =? MPI_COMM_NULL then By_strncpy "MPI_COMM_NULL"
      else By_snprintf ("comm=0x" ++ fmt_x C))
  | "I"%char => va_arg_int ap (null_or MPI_INFO_NULL "MPI_INFO_NULL" "info=0x")
  | "D"%char => va_arg_int ap (fun D => By_snprintf (GetDTypeString D))
  | "F"%char =>
    if HAVE_ROMIO then
      match ap with
      | VA_void_ptr F :: rest =>
        D_render (if F =? MPI_FILE_NULL then By_strncpy "MPI_FILE_NULL"
                  else By_snprintf ("file=0x" ++ fmt_llx F)) rest
      | _ => D_bad_va_arg
      end
    else D_unhandled
  | "W"%char => va_arg_int ap (null_or MPI_WIN_NULL "MPI_WIN_NULL" "win=0x")
  | "A"%char => va_arg_int ap (fun d => By_snprintf (GetAssertString d))
  | "G"%char => va_arg_int ap (null_or MPI_GROUP_NULL "MPI_GROUP_NULL" "group=0x")
  | "O"%char => va_arg_int ap (fun O => By_snprintf (GetMPIOpString O))
  | "R"%char => va_arg_int ap (null_or MPI_REQUEST_NULL "MPI_REQUEST_NULL" "req=0x")
  | "E"%char =>
    va_arg_int ap (null_or MPI_ERRHANDLER_NULL "MPI_ERRHANDLER_NULL" "errh=0x")
  | "S"%char =>
    va_arg_int ap (null_or MPI_SESSION_NULL "MPI_SESSION_NULL" "session=0x")
  | "K"%char => va_arg_int ap (fun d => By_snprintf (get_keyval_string d))
  | "c"%char => va_arg_long_long ap (fun c => By_snprintf (fmt_d c))
  | _ => D_unhandled
  end.

(** The store a directive performs at [str] with [maxlen] bytes left. *)
Definition store_rendered (m : list ascii) (str maxlen : Z) (r : rendered)
  : option (list ascii) :=
  match r with
  | By_strncpy text => option_map fst (MPL_strncpy m str text maxlen)
  | By_snprintf text => c_snprintf m str maxlen text
  end.

(** [MPL_strdup]; the allocation succeeds in the model. *)
Definition MPL_strdup (s : string) : option string := Some s.

(** The loop of [vsnprintf_mpi] from [begin] on.  [fmt] is the format still
    to scan for ['%'] and [lit] the literal text between [begin] and the
    scan position, so that at a ['%'] [lit] is the text from [begin] to
    [end].  [maxlen] is a [size_t]. *)
Fixpoint vsnprintf_mpi_from (fmt : string) (lit : string) (m : list ascii)
    (str maxlen : Z) (ap : list va_value) : option (list ascii * Z) :=
  match fmt with
  | EmptyString =>
    if negb (String.length lit =? 0)%nat
    then option_map (fun r => (fst r, MPI_SUCCESS)) (MPL_strncpy m str lit maxlen)
    else Some (m, MPI_SUCCESS)
  | String "%"%char after =>
    let len := if strlen lit <? maxlen then strlen lit else maxlen in
    match (if negb (len =? 0)
           then mem_write m str (text_prefix len lit) else Some m) with
    | None => None
    | Some m1 =>
      let str := str + len in
      let maxlen := wrap_size (maxlen - len) in
      match after with
      | EmptyString => Some (m1, 0)
      | String c begin =>
        match directive c ap with
        | D_unhandled => Some (m1, 0)
        | D_bad_va_arg => None
        | D_render r ap' =>
          match store_rendered m1 str maxlen r with
          | None => None
          | Some m2 =>
            match c_strlen m2 str with
            | None => None
            | Some len =>
              vsnprintf_mpi_from begin "" m2 (str + len)
                                 (wrap_size (maxlen - len)) ap'
            end
          end
        end
      end
    end
  | String c fmt' => vsnprintf_mpi_from fmt' (lit ++ String c "") m str maxlen ap
  end.

(** [static int vsnprintf_mpi(char *str, size_t maxlen, const char *fmt_orig,
    va_list list)]: the memory afterwards and the return value. *)
Definition vsnprintf_mpi (m : list ascii) (str maxlen : Z) (fmt_orig : string)
    (ap : list va_value) : option (list ascii * Z) :=
  match MPL_strdup fmt_orig with
  | None =>
    if 0 <? maxlen then option_map (fun m' => (m', 0)) (mem_store m str NUL)
    else Some (m, 0)
  | Some fmt => vsnprintf_mpi_from fmt "" m str maxlen ap
  end.

End Renderer.

(** ** Creating a code *)

Section Create.
Context {L : ErrLayout} {T : MsgTables} {M : MpiConsts}.

(** The check of [lastcode] at the top of [MPIR_Err_create_code_valist]: an
    invalid previous code is replaced by [MPI_SUCCESS]. *)
Definition checked_lastcode (st : ring_state) (lastcode : Z) : Z :=
  if negb (lastcode =? MPI_SUCCESS) then
    if negb (checkErrcodeIsValid st lastcode =? 0) then MPI_SUCCESS else lastcode
  else lastcode.

(** The [if (error_class == MPI_ERR_OTHER)] block: the class the new code is
    created with, given the (checked) previous code. *)
Definition effective_class (lastcode error_class : Z) : Z :=
  if error_class =? MPI_ERR_OTHER then
    if (MPI_SUCCESS <? MPIR_ERR_GET_CLASS lastcode)
       && (MPIR_ERR_GET_CLASS lastcode <=? MPICH_ERR_LAST_MPIX)
    then MPIR_ERR_GET_CLASS lastcode
    else MPI_ERR_OTHER
  else error_class.

(** The format of the instance-specific message: the long name of
    [specific_msg] in the table when it is there, otherwise [specific_msg]
    itself. *)
Definition specific_fmt_of (specific_msg : string) : option string :=
  let specific_idx := FindSpecificMsgIndex specific_msg in
  if 0 <=? specific_idx
  then option_map long_name (table_get specific_err_msgs specific_idx)
  else Some specific_msg.

(** The text left in [ring_msg] (an array of [MPIR_MAX_ERROR_LINE + 1] zero
    bytes) by a bounded copy of [src], once [ring_msg[MPIR_MAX_ERROR_LINE]]
    is set to 0. *)
Definition ring_msg_strncpy (src : string) : option string :=
  match MPL_strncpy (replicate (Z.to_nat (MPIR_MAX_ERROR_LINE + 1)) NUL) 0 src
                    MPIR_MAX_ERROR_LINE with
  | None => None
  | Some (m, _) =>
    match mem_store m MPIR_MAX_ERROR_LINE NUL with
    | None => None
    | Some m => c_string_at m 0
    end
  end.

(** The same for [vsnprintf_mpi(ring_msg, MPIR_MAX_ERROR_LINE, specific_fmt,
    Argp)]. *)
Definition ring_msg_vsnprintf (specific_fmt : string) (Argp : list va_value)
  : option string :=
  match vsnprintf_mpi (replicate (Z.to_nat (MPIR_MAX_ERROR_LINE + 1)) NUL) 0
                      MPIR_MAX_ERROR_LINE specific_fmt Argp with
  | None => None
  | Some (m, _) =>
    match mem_store m MPIR_MAX_ERROR_LINE NUL with
    | None => None
    | Some m => c_string_at m 0
    end
  end.

(** The [**user] special case: [use_user_error_code], [user_error_code] and
    the text of [user_ring_msg]. *)
Definition user_error_case (generic_idx : Z) (specific_msg : option string)
    (Argp : list va_value) : option (Z * Z * string) :=
  match (if 0 <=? generic_idx then table_get generic_err_msgs generic_idx else None) with
  | Some p =>
    match strcmp (short_name p) "**user" with
    | Eq =>
      match specific_msg with
      | Some specific_msg =>
        match Argp, specific_fmt_of specific_msg with
        | VA_int user_error_code :: _, Some specific_fmt =>
          Some (1, user_error_code,
                truncated (MPIR_MAX_ERROR_LINE + 1)
                          (libc_format_int specific_fmt user_error_code))
        | _, _ => None
        end
      | None => Some (1, -1, "")
      end
    | _ => Some (0, -1, "")
    end
  | None => if 0 <=? generic_idx then None else Some (0, -1, "")
  end.

(** [int MPIR_Err_create_code_valist(int lastcode, int fatal,
    const char fcname[], int line, int error_class, const char generic_msg[],
    const char specific_msg[], va_list Argp)]: the code returned and the ring
    afterwards.  [fcname] and [specific_msg] can be NULL. *)
Definition MPIR_Err_create_code_valist (st : ring_state) (lastcode fatal : Z)
    (fcname : option string) (line : Z) (error_class : Z) (generic_msg : string)
    (specific_msg : option string) (Argp : list va_value)
  : option (Z * ring_state) :=
  let lastcode := checked_lastcode st lastcode in
  let error_class := effective_class lastcode error_class in
  if error_class =? MPI_ERR_IN_STATUS then Some (MPI_ERR_IN_STATUS, st)
  else
    let err_code := error_class in
    let generic_idx := FindGenericMsgIndex generic_msg in
    match user_error_case generic_idx specific_msg Argp with
    | None => None
    | Some (use_user, user_code, user_ring_msg) =>
      let err_code :=
        if 0 <=? generic_idx
        then Z.lor err_code (wrap32 (Z.shiftl (generic_idx + 1) ERROR_GENERIC_SHIFT))
        else Z.land err_code (Z.lnot ERROR_GENERIC_MASK) in
      (* the next entry of the ring *)
      let ring_idx := error_ring_loc st in
      let loc := wrap_u32 (error_ring_loc st + 1) in
      let loc := if MAX_ERROR_RING <=? loc then loc mod MAX_ERROR_RING else loc in
      let max_loc := if max_error_ring_loc st <? loc then loc
                     else max_error_ring_loc st in
      let ring_msg :=
        match specific_msg with
        | Some specific_msg =>
          match specific_fmt_of specific_msg with
          | None => None
          | Some specific_fmt =>
            if use_user =? 0 then ring_msg_vsnprintf specific_fmt Argp
            else ring_msg_strncpy user_ring_msg
          end
        | None =>
          if 0 <=? generic_idx
          then match table_get generic_err_msgs generic_idx with
               | Some p => ring_msg_strncpy (long_name p)
               | None => None
               end
          else ring_msg_strncpy generic_msg
        end in
      match ring_msg with
      | None => None
      | Some ring_msg =>
        let '(id, ring_seq) := ErrcodeCreateID error_class generic_idx ring_msg in
        let entry := {| msg_id := id; prev_error := lastcode;
                        use_user_error_code := 0; user_error_code := 0;
                        location := ""; msg := ring_msg |} in
        let st1 := {| ErrorRing := ring_set (ErrorRing st) ring_idx entry;
                      error_ring_loc := loc; max_error_ring_loc := max_loc |} in
        let '(use_user', user_code') :=
          if negb (use_user =? 0) then (1, user_code)
          else if negb (lastcode =? MPI_SUCCESS) then
            let '(rc, last) := convertErrcodeToIndexes st1 lastcode in
            let last_entry := ring_get (ErrorRing st1) (ix_ring_idx last) in
            if (rc =? 0) && (0 <=? ix_generic_idx last)
               && (msg_id last_entry =? ix_ring_id last)
               && negb (use_user_error_code last_entry =? 0)
            then (1, user_error_code last_entry) else (0, 0)
          else (0, 0) in
        let loc_text :=
          match fcname with
          | Some fcname =>
            truncated MAX_LOCATION_LEN (fcname ++ "(" ++ fmt_d line ++ ")")
          | None => ""
          end in
        let entry := {| msg_id := id; prev_error := lastcode;
                        use_user_error_code := use_user';
                        user_error_code := user_code';
                        location := loc_text; msg := ring_msg |} in
        let st2 := with_ring st1 (ring_set (ErrorRing st1) ring_idx entry) in
        let err_code :=
          Z.lor err_code (wrap32 (Z.shiftl ring_idx ERROR_SPECIFIC_INDEX_SHIFT)) in
        let err_code :=
          Z.lor err_code (wrap32 (Z.shiftl ring_seq ERROR_SPECIFIC_SEQ_SHIFT)) in
        let err_code :=
          if negb (fatal =? 0) || MPIR_Err_is_fatal lastcode
          then Z.lor err_code ERROR_FATAL_MASK else err_code in
        Some (err_code, st2)
      end
    end.

End Create.

(** ** Combining two codes *)

Section Combine.
Context {L : ErrLayout}.

(** The code with its class bits replaced by [cls]:
    [(code & ~ERROR_CLASS_MASK) | cls]. *)
Definition replace_class (code cls : Z) : Z :=
  Z.lor (Z.land code (Z.lnot ERROR_CLASS_MASK)) cls.

(** The [for (;;)] loop of [CombineSpecificCodes], entered with
    [error_code]; [fuel] bounds the number of iterations, and [None] means
    the bound was reached before the loop left. *)
Fixpoint CombineSpecificCodes_loop (fuel : nat) (st : ring_state)
    (error_code error2_code error2_class : Z) : option ring_state :=
  match fuel with
  | O => None
  | S fuel =>
    let '(rc, ix) := convertErrcodeToIndexes st error_code in
    if negb (rc =? 0) || (ix_generic_idx ix <? 0)
       || negb (msg_id (ring_get (ErrorRing st) (ix_ring_idx ix)) =? ix_ring_id ix)
    then Some st
    else
      let e := ring_get (ErrorRing st) (ix_ring_idx ix) in
      let error_code := prev_error e in
      if error_code =? MPI_SUCCESS then
        Some (with_ring st (ring_set (ErrorRing st) (ix_ring_idx ix)
                                     (set_prev_error e error2_code)))
      else
        let error_class := MPIR_ERR_GET_CLASS error_code in
        let st :=
          if error_class =? MPI_ERR_OTHER then
            with_ring st (ring_set (ErrorRing st) (ix_ring_idx ix)
                            (set_prev_error e (replace_class (prev_error e) error2_class)))
          else st in
        CombineSpecificCodes_loop fuel st error_code error2_code error2_class
  end.

(** [static void CombineSpecificCodes(int error1_code, int error2_code,
    int error2_class)] *)
Definition CombineSpecificCodes (fuel : nat) (st : ring_state)
    (error1_code error2_code error2_class : Z) : option ring_state :=
  CombineSpecificCodes_loop fuel st error1_code error2_code error2_class.

(** The class of [error2] that [MPIR_Err_combine_codes] passes on. *)
Definition combine_class (error2_code : Z) : Z :=
  let error2_class := MPIR_ERR_GET_CLASS error2_code in
  if (error2_class <? MPI_SUCCESS) || (MPICH_ERR_LAST_MPIX <? error2_class)
  then MPI_ERR_OTHER else error2_class.

(** [int MPIR_Err_combine_codes(int error1, int error2)]: the code returned
    and the ring afterwards. *)
Definition MPIR_Err_combine_codes (fuel : nat) (st : ring_state)
    (error1 error2 : Z) : option (Z * ring_state) :=
  let error1_code := error1 in
  let error2_code := error2 in
  if error1_code =? MPI_SUCCESS then Some (error2_code, st)
  else if error2_code =? MPI_SUCCESS then Some (error1_code, st)
  else if negb (Z.land error1_code ERROR_DYN_MASK =? 0) then Some (error1_code, st)
  else if negb (Z.land error2_code ERROR_DYN_MASK =? 0) then Some (error2_code, st)
  else
    let error2_class := combine_class error2_code in
    match CombineSpecificCodes fuel st error1_code error2_code error2_class with
    | None => None
    | Some st' =>
      let error1_code :=
        if MPIR_ERR_GET_CLASS error1_code =? MPI_ERR_OTHER
        then replace_class error1_code error2_class else error1_code in
      Some (error1_code, st')
    end.

End Combine.

(** ** Error handlers and dispatch *)

(** The languages [MPIR_call_errhandler] switches on; any other value of the
    enumeration takes the [default:] branch. *)
Inductive MPIR_Lang_t := MPIR_LANG__C | MPIR_LANG__X | MPIR_LANG__unhandled.

(** [MPIR_Errhandler]: the fields errutil.c reads.  [errfn] names the user
    function. *)
Record MPIR_Errhandler := {
  handle : Z;
  language : MPIR_Lang_t;
  errfn : Z;
  extra_state : Z
}.

(** [MPIR_Comm]: its handle and its error handler, which can be NULL. *)
Record MPIR_Comm := {
  comm_handle : Z;
  errhandler : option MPIR_Errhandler
}.

Inductive MPIR_handle_kind := MPIR_COMM | MPIR_WIN | MPIR_FILE | MPIR_SESSION.

(** [MPIR_handle]: the kind and the handle (or file handle) in the union. *)
Record MPIR_handle := { kind : MPIR_handle_kind; u_handle : Z }.

(** [MPIR_Process]: the fields errutil.c reads. *)
Record MPIR_Process_t := {
  mpich_state : Z;
  comm_self : option MPIR_Comm;
  comm_world : option MPIR_Comm;
  errcode_to_string : option (Z -> string)
}.

(** A call of a user error-handler function, with the values it is passed
    (the C conventions pass the first two by address). *)
Inductive handler_call :=
| C_File_Handler_function (fn fh errorcode : Z)
| C_Comm_Handler_function (fn h errorcode zero : Z)
| X_File_Handler_function (fn fh errorcode extra : Z)
| X_Comm_Handler_function (fn h errorcode extra : Z).

(** What a dispatch routine does: it returns a code after the listed user
    calls; or it calls [MPIR_Handle_fatal_error], which ends in [MPID_Abort]
    and does not return; or an [MPIR_Assert] fails. *)
Inductive outcome :=
| Returned (mpi_errno : Z) (calls : list handler_call)
| Fatal_error (comm_ptr : option MPIR_Comm) (fcname : string) (errcode : Z)
| Assert_failed.

Section Dispatch.
Context {L : ErrLayout} {M : MpiConsts}.

(** [int MPIR_Errutil_is_initialized(void)] *)
Definition MPIR_Errutil_is_initialized (P : MPIR_Process_t) : bool :=
  negb (mpich_state P =? MPICH_MPI_STATE__UNINITIALIZED).

(** [int MPIR_call_errhandler(MPIR_Errhandler *errhandler, int errorcode,
    MPIR_handle h)], built without BUILD_MPI_ABI. *)
Definition MPIR_call_errhandler (errhandler : MPIR_Errhandler) (errorcode : Z)
    (h : MPIR_handle) : outcome :=
  let mpi_errno := MPI_SUCCESS in
  if (handle errhandler =? MPI_ERRORS_RETURN)
     || (handle errhandler =? MPIR_ERRORS_THROW_EXCEPTIONS)
  then Returned errorcode []
  else
    match language errhandler with
    | MPIR_LANG__C =>
      match kind h with
      | MPIR_FILE =>
        Returned mpi_errno [C_File_Handler_function (errfn errhandler) (u_handle h) errorcode]
      | _ =>
        Returned mpi_errno [C_Comm_Handler_function (errfn errhandler) (u_handle h) errorcode 0]
      end
    | MPIR_LANG__X =>
      match kind h with
      | MPIR_FILE =>
        Returned mpi_errno [X_File_Handler_function (errfn errhandler) (u_handle h)
                                                    errorcode (extra_state errhandler)]
      | _ =>
        Returned mpi_errno [X_Comm_Handler_function (errfn errhandler) (u_handle h)
                                                    errorcode (extra_state errhandler)]
      end
    | MPIR_LANG__unhandled => Assert_failed
    end.

(** [p && p->errhandler] *)
Definition has_errhandler (p : option MPIR_Comm) : bool :=
  match p with
  | Some c => match errhandler c with Some _ => true | None => false end
  | None => false
  end.

(** [int MPIR_Err_return_comm(MPIR_Comm *comm_ptr, const char fcname[],
    int errcode)]: what [checkValidErrcode] printed, and the outcome.  The
    local variable [errhandler] is called [errh]. *)
Definition MPIR_Err_return_comm (P : MPIR_Process_t) (st : ring_state)
    (comm_ptr : option MPIR_Comm) (fcname : string) (errcode : Z)
  : list diagnostic * outcome :=
  let error_class := ERROR_GET_CLASS errcode in
  let '(_, errcode, printed) := checkValidErrcode error_class fcname errcode in
  if negb (MPIR_Errutil_is_initialized P)
  then (printed, Fatal_error (comm_self P) fcname errcode)
  else
    let errh :=
      match comm_ptr with
      | Some c => errhandler c
      | None => None
      end in
    let comm_ptr :=
      match errh with
      | None =>
        if has_errhandler (comm_self P) then comm_self P
        else if has_errhandler (comm_world P) then comm_world P
        else comm_ptr
      | Some _ => comm_ptr
      end in
    match comm_ptr with
    | None => (printed, Fatal_error comm_ptr fcname errcode)
    | Some c =>
      if MPIR_Err_is_fatal errcode
      then (printed, Fatal_error comm_ptr fcname errcode)
      else
        match errhandler c with
        | None => (printed, Fatal_error comm_ptr fcname errcode)
        | Some errh =>
          if (handle errh =? MPI_ERRORS_ARE_FATAL)
             || (handle errh =? MPI_ERRORS_ABORT)
          then (printed, Fatal_error comm_ptr fcname errcode)
          else
            let errcode := checkForUserErrcode st errcode in
            let h := {| kind := MPIR_COMM; u_handle := comm_handle c |} in
            (printed, MPIR_call_errhandler errh errcode h)
        end
    end.

End Dispatch.

(** ** Rendering the text of a code *)

(** The configuration variables MPIR_CVAR_PRINT_ERROR_STACK and
    MPIR_CVAR_CHOP_ERROR_STACK. *)
Record cvars := {
  MPIR_CVAR_PRINT_ERROR_STACK : bool;
  MPIR_CVAR_CHOP_ERROR_STACK : Z
}.

(** [len = (int) strlen(str)] *)
Definition int_strlen (m : list ascii) (str : Z) : option Z :=
  option_map wrap32 (c_strlen m str).

(** The C string at offset [k] of a text held in an array: [cur_pos] in
    [MPIR_Err_print_stack_string].  Offsets outside the text are outside the
    model. *)
Definition text_at (text : string) (k : Z) : option string :=
  if (0 <=? k) && (k <=? strlen text)
  then Some (string_of_list_ascii (drop (Z.to_nat k) (list_ascii_of_string text)))
  else None.

(** [for (i = 0; i < n; i++) { snprintf(str, maxlen, " "); maxlen--; str++; }] *)
Fixpoint print_spaces (n : nat) (m : list ascii) (str maxlen : Z)
  : option (list ascii * Z * Z) :=
  match n with
  | O => Some (m, str, maxlen)
  | S n =>
    m ← c_snprintf m str (wrap_size maxlen) " ";
    print_spaces n m (str + 1) (wrap32 (maxlen - 1))
  end.

Section Stack.
Context {L : ErrLayout} {T : MsgTables} (cv : cvars).

(** The first loop of [MPIR_Err_print_stack_string]: the longest location
    on the stack. *)
Fixpoint max_location_loop (fuel : nat) (st : ring_state) (tmp_errcode : Z)
    (max_location_len : Z) : option Z :=
  match fuel with
  | O => None
  | S fuel =>
    if tmp_errcode =? MPI_SUCCESS then Some max_location_len
    else
      let '(rc, ix) := convertErrcodeToIndexes st tmp_errcode in
      if negb (rc =? 0) then Some max_location_len
      else if ix_generic_idx ix <? 0 then Some max_location_len
      else
        let e := ring_get (ErrorRing st) (ix_ring_idx ix) in
        if msg_id e =? ix_ring_id ix then
          max_location_loop fuel st (prev_error e)
                            (Z.max max_location_len (strlen (location e)))
        else Some max_location_len
  end.

(** The [while (len)] loop that chops a message into lines; [text] is the
    message of the ring entry and [cur_pos] the offset into it. *)
Fixpoint chop_loop (fuel : nat) (max_location_len : Z) (text : string)
    (cur_pos len : Z) (m : list ascii) (str maxlen : Z)
  : option (list ascii * Z * Z) :=
  match fuel with
  | O => None
  | S fuel =>
    let chop := MPIR_CVAR_CHOP_ERROR_STACK cv in
    if len =? 0 then Some (m, str, maxlen)
    else if chop - max_location_len <=? len then
      if maxlen <? len then Some (m, str, maxlen)
      else
        cur ← text_at text cur_pos;
        m ← c_snprintf m str (wrap_size (chop - 1 - max_location_len)) cur;
        m ← mem_store m (str + (chop - 1 - max_location_len)) "010"%char;
        let cur_pos := cur_pos + (chop - 1 - max_location_len) in
        let str := str + (chop - max_location_len) in
        let maxlen := wrap32 (maxlen - (chop - max_location_len)) in
        if maxlen <? max_location_len then Some (m, str, maxlen)
        else
          '(m, str, maxlen) ← print_spaces (Z.to_nat max_location_len) m str maxlen;
          cur ← text_at text cur_pos;
          chop_loop fuel max_location_len text cur_pos (wrap32 (strlen cur))
                    m str maxlen
    else
      cur ← text_at text cur_pos;
      m ← c_snprintf m str (wrap_size maxlen) (cur ++ String "010"%char "");
      len ← int_strlen m str;
      Some (m, str + len, wrap32 (maxlen - len))
  end.

(** The body of the second loop for a ring entry whose id matches: the
    location, the filler, [": "], and the message. *)
Definition print_entry (fuel : nat) (max_location_len : Z) (e : MPIR_Err_msg_t)
    (m : list ascii) (str maxlen : Z) : option (list ascii * Z * Z) :=
  m ← c_snprintf m str (wrap_size maxlen) (location e);
  len ← int_strlen m str;
  let maxlen := wrap32 (maxlen - len) in
  let str := str + len in
  let nchrs := wrap32 (max_location_len - wrap32 (strlen (location e)) - 2) in
  (* while (nchrs > 0 && maxlen > 0) { *str++ = '.'; nchrs--; maxlen--; } *)
  let dots := Z.max 0 (Z.min nchrs maxlen) in
  m ← mem_write m str (replicate (Z.to_nat dots) "."%char);
  let str := str + dots in
  let maxlen := maxlen - dots in
  '(m, str, maxlen) ←
    (if 0 <? maxlen
     then m ← mem_store m str ":"%char; Some (m, str + 1, maxlen - 1)
     else Some (m, str, maxlen));
  '(m, str, maxlen) ←
    (if 0 <? maxlen
     then m ← mem_store m str " "%char; Some (m, str + 1, maxlen - 1)
     else Some (m, str, maxlen));
  if 0 <? MPIR_CVAR_CHOP_ERROR_STACK cv then
    let len := wrap32 (strlen (msg e)) in
    '(m, str, maxlen) ←
      (if (len =? 0) && (0 <? maxlen)
       then m ← mem_store m str "010"%char; Some (m, str + 1, maxlen - 1)
       else Some (m, str, maxlen));
    chop_loop fuel max_location_len (msg e) 0 len m str maxlen
  else
    m ← c_snprintf m str (wrap_size maxlen) (msg e ++ String "010"%char "");
    len ← int_strlen m str;
    Some (m, str + len, wrap32 (maxlen - len)).

(** The second loop: the memory, [str], [maxlen] and [errcode] when it is
    left. *)
Fixpoint print_stack_loop (fuel : nat) (st : ring_state) (max_location_len : Z)
    (errcode : Z) (m : list ascii) (str maxlen : Z)
  : option (list ascii * Z * Z * Z) :=
  match fuel with
  | O => None
  | S fuel =>
    if errcode =? MPI_SUCCESS then Some (m, str, maxlen, errcode)
    else
      let '(_, ix) := convertErrcodeToIndexes st errcode in
      if ix_generic_idx ix <? 0 then Some (m, str, maxlen, errcode)
      else
        let e := ring_get (ErrorRing st) (ix_ring_idx ix) in
        if msg_id e =? ix_ring_id ix then
          '(m, str, maxlen) ← print_entry fuel max_location_len e m str maxlen;
          print_stack_loop fuel st max_location_len (prev_error e) m str maxlen
        else Some (m, str, maxlen, errcode)
  end.

(** [static void MPIR_Err_print_stack_string(int errcode, char *str,
    int maxlen)] *)
Definition MPIR_Err_print_stack_string (fuel : nat) (st : ring_state)
    (errcode : Z) (m : list ascii) (str maxlen : Z) : option (list ascii) :=
  let str_orig := str in
  max_location_len ← max_location_loop fuel st errcode 0;
  let max_location_len := max_location_len + 2 in
  '(m, str, maxlen, errcode) ←
    print_stack_loop fuel st max_location_len errcode m str maxlen;
  '(m, str) ←
    (if errcode =? MPI_SUCCESS then Some (m, str)
     else
       let generic_idx :=
         Z.shiftr (Z.land errcode ERROR_GENERIC_MASK) ERROR_GENERIC_SHIFT - 1 in
       if 0 <=? generic_idx then
         p ← table_get generic_err_msgs generic_idx;
         m ← c_snprintf m str (wrap_size maxlen)
               ("(unknown)(): " ++ long_name p ++ String "010"%char "");
         len ← int_strlen m str;
         Some (m, str + len)
       else
         let error_class := ERROR_GET_CLASS errcode in
         if error_class <=? MPICH_ERR_LAST_MPIX then
           cm ← get_class_msg (ERROR_GET_CLASS errcode);
           m ← c_snprintf m str (wrap_size maxlen)
                 ("(unknown)(): " ++ cm ++ String "010"%char "");
           len ← int_strlen m str;
           Some (m, str + len)
         else
           m ← c_snprintf m str (wrap_size maxlen)
                 ("Error code contains an invalid class (" ++ fmt_d error_class
                  ++ ")" ++ String "010"%char "");
           len ← int_strlen m str;
           Some (m, str + len));
  (* fn_exit *)
  if negb (str_orig =? str) then mem_store m (str - 1) NUL else Some m.

(** The loop of [ErrGetInstanceString] when the stack is not printed: the
    memory and [errorcode] when it is left.  The C parameter [msg] is called
    [buf]. *)
Fixpoint instance_loop (fuel : nat) (st : ring_state) (errorcode : Z)
    (m : list ascii) (buf num_remaining : Z) : option (list ascii * Z) :=
  match fuel with
  | O => None
  | S fuel =>
    if errorcode =? MPI_SUCCESS then Some (m, errorcode)
    else
      let '(rc, ix) := convertErrcodeToIndexes st errorcode in
      if negb (rc =? 0) then Some (m, errorcode)
      else if ix_generic_idx ix <? 0 then Some (m, errorcode)
      else
        let e := ring_get (ErrorRing st) (ix_ring_idx ix) in
        if msg_id e =? ix_ring_id ix then
          m ← c_snprintf m buf (wrap_size num_remaining) (", " ++ msg e);
          m ← mem_store m (buf + (num_remaining - 1)) NUL;
          instance_loop fuel st (prev_error e) m buf num_remaining
        else Some (m, errorcode)
  end.

(** [static int ErrGetInstanceString(int errorcode, char msg[],
    int num_remaining)]: the memory afterwards and the return value. *)
Definition ErrGetInstanceString (fuel : nat) (st : ring_state) (errorcode : Z)
    (m : list ascii) (buf num_remaining : Z) : option (list ascii * Z) :=
  '(m, errorcode) ←
    (if MPIR_CVAR_PRINT_ERROR_STACK cv then
       '(m, _) ← MPL_strncpy m buf (", error stack:" ++ String "010"%char "")
                             (wrap_size num_remaining);
       m ← mem_store m (buf + (num_remaining - 1)) NUL;
       len ← int_strlen m buf;
       let buf := buf + len in
       let num_remaining := wrap32 (num_remaining - len) in
       m ← MPIR_Err_print_stack_string fuel st errorcode m buf num_remaining;
       m ← mem_store m (buf + (num_remaining - 1)) NUL;
       Some (m, errorcode)
     else instance_loop fuel st errorcode m buf num_remaining);
  if negb (errorcode =? MPI_SUCCESS) then Some (m, 1) else Some (m, 0).

(** [void MPIR_Err_get_string(int errorcode, char *msg, int length,
    MPIR_Err_get_class_string_func_t fn)], with [fn] NULL as the routine
    asserts: the memory afterwards. *)
Definition MPIR_Err_get_string (fuel : nat) (P : MPIR_Process_t) (st : ring_state)
    (errorcode : Z) (m : list ascii) (buf length : Z) : option (list ascii) :=
  let num_remaining := length in
  if num_remaining =? 0 then Some m
  else if negb (Z.land errorcode ERROR_DYN_MASK =? 0) then
    let text :=
      match errcode_to_string P with
      | None => "Undefined dynamic error code"
      | Some f => f errorcode
      end in
    '(m, rc) ← MPL_strncpy m buf text (wrap_size num_remaining);
    if negb (rc =? 0) then mem_store m (buf + (num_remaining - 1)) NUL else Some m
  else if Z.land errorcode ERROR_CLASS_MASK =? errorcode then
    text ← get_class_msg errorcode;
    '(m, rc) ← MPL_strncpy m buf text (wrap_size num_remaining);
    if negb (rc =? 0) then mem_store m (buf + (num_remaining - 1)) NUL else Some m
  else
    let error_class := MPIR_ERR_GET_CLASS errorcode in
    text ← get_class_msg error_class;
    '(m, _) ← MPL_strncpy m buf text (wrap_size num_remaining);
    m ← mem_store m (buf + (num_remaining - 1)) NUL;
    len ← int_strlen m buf;
    let buf := buf + len in
    let num_remaining := wrap32 (num_remaining - len) in
    '(m, _) ← ErrGetInstanceString fuel st errorcode m buf num_remaining;
    Some m.

(** [MAX_ERRMSG_STRING] of [MPIR_Handle_fatal_error], with
    MPI_MAX_ERROR_STRING below 4096. *)
Definition MAX_ERRMSG_STRING : Z := 4096.

(** [void MPIR_Handle_fatal_error(MPIR_Comm *comm_ptr, const char fcname[],
    int errcode)]: the arguments of the call of [MPID_Abort] it ends in.
    [stack] is the content of the local array [error_msg] on entry. *)
Definition MPIR_Handle_fatal_error (fuel : nat) (P : MPIR_Process_t)
    (st : ring_state) (stack : list ascii) (comm_ptr : option MPIR_Comm)
    (fcname : string) (errcode : Z)
  : option (option MPIR_Comm * Z * Z * string) :=
  m ← c_snprintf stack 0 MAX_ERRMSG_STRING ("Fatal error in " ++ fcname ++ ": ");
  len ← int_strlen m 0;
  m ← MPIR_Err_get_string fuel P st errcode m len (MAX_ERRMSG_STRING - len);
  error_msg ← c_string_at m 0;
  Some (comm_ptr, MPI_SUCCESS, errcode, error_msg).

End Stack.

(** ** A concrete configuration

    The routines are run below on a layout with the field order documented
    in errutil.c (seven class bits, the fatal bit, eleven bits of generic
    code, a ring index of 128 entries, a sequence number of 16 values, the
    dynamic bit), a small message table sorted by short name, and handle
    values for the constants of mpi.h. *)

Definition reference_layout : ErrLayout := {|
  ERROR_CLASS_MASK := 0x0000007f;
  ERROR_FATAL_MASK := 0x00000080;
  ERROR_GENERIC_MASK := 0x0007FF00;
  ERROR_GENERIC_SHIFT := 8;
  ERROR_SPECIFIC_INDEX_MASK := 0x03F80000;
  ERROR_SPECIFIC_INDEX_SIZE := 128;
  ERROR_SPECIFIC_INDEX_SHIFT := 19;
  ERROR_SPECIFIC_SEQ_MASK := 0x3C000000;
  ERROR_SPECIFIC_SEQ_SIZE := 16;
  ERROR_SPECIFIC_SEQ_SHIFT := 26;
  ERROR_DYN_MASK := 0x40000000;
  MPI_ERR_UNKNOWN := 13;
  MPI_ERR_OTHER := 15;
  MPI_ERR_INTERN := 16;
  MPI_ERR_IN_STATUS := 17;
  MPICH_ERR_LAST_CLASS := 74;
  MPICH_ERR_FIRST_MPIX := 100;
  MPICH_ERR_LAST_MPIX := 105
|}.

Definition sample_pair (short long : string) : msgpair :=
  {| sentinal1 := 0xacebad03; short_name := short; long_name := long;
     sentinal2 := 0xcb0bfa11 |}.

(** Generic messages 0 to 4; every class maps to the message of
    MPI_ERR_OTHER except class 5 (MPI_ERR_COMM) and class 13
    (MPI_ERR_UNKNOWN). *)
Definition sample_tables : MsgTables := {|
  generic_err_msgs :=
    [sample_pair "**comm" "Invalid communicator";
     sample_pair "**fail" "failure";
     sample_pair "**other" "Other MPI error";
     sample_pair "**unknown" "Unknown error.  Please file a bug report.";
     sample_pair "**user" "user defined function returned an error code"];
  specific_err_msgs :=
    [sample_pair "**comm %C" "Invalid communicator (%C)";
     sample_pair "**user %d" "user defined function returned an error code (%d)"];
  class_to_index :=
    map (fun c : nat => if (c =? 5)%nat then 0 else if (c =? 13)%nat then 3 else 2)
        (seq 0 106)
|}.

Definition sample_consts : MpiConsts := {|
  MPI_ANY_SOURCE := -2; MPI_PROC_NULL := -1; MPI_ROOT := -3; MPI_ANY_TAG := -1;
  MPI_IN_PLACE := -1;
  MPI_COMM_WORLD := 0x44000000; MPI_COMM_SELF := 0x44000001;
  MPI_COMM_NULL := 0x04000000;
  MPI_INFO_NULL := 0x1c000000; MPI_WIN_NULL := 0x20000000;
  MPI_GROUP_NULL := 0x08000000; MPI_REQUEST_NULL := 0x2c000000;
  MPI_ERRHANDLER_NULL := 0x14000000; MPI_SESSION_NULL := 0x38000000;
  MPI_DATATYPE_NULL := 0x0c000000;
  HAVE_ROMIO := true; MPI_FILE_NULL := 0;
  MPI_OP_NULL := 0x18000000; MPI_MAX := 0x58000001; MPI_MIN := 0x58000002;
  MPI_SUM := 0x58000003; MPI_PROD := 0x58000004; MPI_LAND := 0x58000005;
  MPI_BAND := 0x58000006; MPI_LOR := 0x58000007; MPI_BOR := 0x58000008;
  MPI_LXOR := 0x58000009; MPI_BXOR := 0x5800000a; MPI_MINLOC := 0x5800000b;
  MPI_MAXLOC := 0x5800000c; MPI_REPLACE := 0x5800000d; MPI_NO_OP := 0x5800000e;
  MPIX_EQUAL := 0x5800000f;
  MPI_KEYVAL_INVALID := 0x24000000; MPI_TAG_UB := 0x64400001;
  MPI_HOST := 0x64400003; MPI_IO := 0x64400005;
  MPI_WTIME_IS_GLOBAL := 0x64400007; MPI_UNIVERSE_SIZE := 0x64400009;
  MPI_LASTUSEDCODE := 0x6440000b; MPI_APPNUM := 0x6440000d;
  MPI_WIN_BASE := 0x66000001; MPI_WIN_SIZE := 0x66000003;
  MPI_WIN_DISP_UNIT := 0x66000005; MPI_WIN_CREATE_FLAVOR := 0x66000007;
  MPI_WIN_MODEL := 0x66000009;
  MPI_MODE_NOSTORE := 2048; MPI_MODE_NOCHECK := 1024; MPI_MODE_NOPUT := 4096;
  MPI_MODE_NOPRECEDE := 8192; MPI_MODE_NOSUCCEED := 16384;
  HANDLE_GET_MPI_KIND := fun h => Z.land (Z.shiftr h 26) 0xF;
  MPIR_DATATYPE := 3;
  HANDLE_GET_KIND := fun h => Z.shiftr (Z.land h 0xc0000000) 30;
  HANDLE_KIND_INVALID := 0;
  MPIR_Type_get_combiner := fun _ => 1; MPI_COMBINER_NAMED := 1;
  MPIR_DATATYPE_GET_ORIG_BUILTIN := fun d => d;
  MPIR_Datatype_builtin_to_string := fun _ => None;
  MPIR_Datatype_combiner_to_string := fun _ => None;
  fmt_p := fun p => "0x" ++ fmt_llx p;
  libc_format_int := fun fmt d => fmt ++ fmt_d d;
  MPI_ERRORS_ARE_FATAL := 0x54000000; MPI_ERRORS_RETURN := 0x54000001;
  MPIR_ERRORS_THROW_EXCEPTIONS := 0x54000002; MPI_ERRORS_ABORT := 0x54000003;
  MPICH_MPI_STATE__UNINITIALIZED := 0
|}.

(** A process after initialization whose self-scope communicator returns
    errors, and a communicator without a handler of its own. *)
Definition errors_return : MPIR_Errhandler :=
  {| handle := 0x54000001; language := MPIR_LANG__C; errfn := 0; extra_state := 0 |}.

Definition sample_self : MPIR_Comm :=
  {| comm_handle := 0x44000001; errhandler := Some errors_return |}.

Definition sample_comm : MPIR_Comm :=
  {| comm_handle := 0x84000000; errhandler := None |}.

Definition sample_process : MPIR_Process_t :=
  {| mpich_state := 2; comm_self := Some sample_self; comm_world := None;
     errcode_to_string := None |}.

(** The ring after two codes were created, the second with the first as its
    previous code: slot 0 holds the older entry, slot 1 the newer one, whose
    code is [0x30080205]. *)
Definition entry_old : MPIR_Err_msg_t :=
  {| msg_id := 0x205; prev_error := 0; use_user_error_code := 0;
     user_error_code := 0; location := "f(10)"; msg := "old 1" |}.

Definition entry_new : MPIR_Err_msg_t :=
  {| msg_id := 0x30000205; prev_error := 0x205; use_user_error_code := 0;
     user_error_code := 0; location := "g(20)"; msg := "new 2" |}.

Definition two_link_ring : ring_state :=
  {| ErrorRing := ring_set (ring_set (replicate 128 zero_entry) 0 entry_old) 1 entry_new;
     error_ring_loc := 2; max_error_ring_loc := 2 |}.

(** The same ring once the cursor has wrapped and slot 0 has been taken by
    an unrelated entry: the previous code of slot 1 is now stale. *)
Definition entry_unrelated : MPIR_Err_msg_t :=
  {| msg_id := 0x2000020f; prev_error := 0; use_user_error_code := 0;
     user_error_code := 0; location := "h(30)"; msg := "failure" |}.

Definition stale_ring : ring_state :=
  {| ErrorRing := ring_set (ring_set (replicate 128 zero_entry) 0 entry_unrelated) 1
                           entry_new;
     error_ring_loc := 1; max_error_ring_loc := 127 |}.

(** The ring after the first of the two codes, [0x205], was created. *)
Definition one_link_ring : ring_state :=
  {| ErrorRing := ring_set (replicate 128 zero_entry) 0 entry_old;
     error_ring_loc := 1; max_error_ring_loc := 1 |}.

(** The two settings of MPIR_CVAR_PRINT_ERROR_STACK, without line chopping. *)
Definition compact_cvars : cvars :=
  {| MPIR_CVAR_PRINT_ERROR_STACK := false; MPIR_CVAR_CHOP_ERROR_STACK := 0 |}.

Definition full_cvars : cvars :=
  {| MPIR_CVAR_PRINT_ERROR_STACK := true; MPIR_CVAR_CHOP_ERROR_STACK := 0 |}.

(** A string argument of 300 characters. *)
Definition long_text : string := string_of_list_ascii (replicate 300 "a"%char).

(** ** Statements that follow the spec's words *)

(** The facts about a layout that the proofs use: the class field is the
    lowest one and the fatal bit lies below the generic code; the class
    field shares no bit with any other field; the class constants fit the
    class field; the built-in class range ends before the extension range
    does. *)
Record LayoutOk (L : ErrLayout) : Prop := {
  lo_fatal_pos : 0 < ERROR_FATAL_MASK;
  lo_class_nonneg : 0 <= ERROR_CLASS_MASK;
  lo_generic_shift : 0 <= ERROR_GENERIC_SHIFT <= 32;
  lo_index_shift : ERROR_GENERIC_SHIFT <= ERROR_SPECIFIC_INDEX_SHIFT;
  lo_seq_shift : ERROR_GENERIC_SHIFT <= ERROR_SPECIFIC_SEQ_SHIFT;
  lo_class_lt : ERROR_CLASS_MASK < 2 ^ ERROR_GENERIC_SHIFT;
  lo_fatal_lt : ERROR_FATAL_MASK < 2 ^ ERROR_GENERIC_SHIFT;
  lo_class_fatal : Z.land ERROR_CLASS_MASK ERROR_FATAL_MASK = 0;
  lo_class_generic : Z.land ERROR_CLASS_MASK ERROR_GENERIC_MASK = 0;
  lo_class_index : Z.land ERROR_CLASS_MASK ERROR_SPECIFIC_INDEX_MASK = 0;
  lo_class_seq : Z.land ERROR_CLASS_MASK ERROR_SPECIFIC_SEQ_MASK = 0;
  lo_unknown : Z.land MPI_ERR_UNKNOWN ERROR_CLASS_MASK = MPI_ERR_UNKNOWN;
  lo_other : Z.land MPI_ERR_OTHER ERROR_CLASS_MASK = MPI_ERR_OTHER;
  lo_in_status : Z.land MPI_ERR_IN_STATUS ERROR_CLASS_MASK = MPI_ERR_IN_STATUS;
  lo_ranges : MPICH_ERR_LAST_CLASS <= MPICH_ERR_LAST_MPIX
}.

(** The handler-resolution order of the spec for a communicator: its own
    handler, then the handler of the self-scope communicator, then that of
    the world-scope communicator, then none. *)
Definition resolve_comm_handler (P : MPIR_Process_t) (comm_ptr : option MPIR_Comm)
  : option (MPIR_Comm * MPIR_Errhandler) :=
  match comm_ptr ≫= (fun c => errhandler c ≫= (fun h => Some (c, h))) with
  | Some r => Some r
  | None =>
    match comm_self P ≫= (fun c => errhandler c ≫= (fun h => Some (c, h))) with
    | Some r => Some r
    | None => comm_world P ≫= (fun c => errhandler c ≫= (fun h => Some (c, h)))
    end
  end.

Section Chain.
Context {L : ErrLayout}.

(** The ring entry a code refers to: the index decodes inside the used part
    of the ring, the code has a generic message, and the id stored in the
    slot is the id of the code.  This is the test every walk over the ring
    makes before it follows [prev_error]. *)
Definition link_of (st : ring_state) (code : Z) : option Z :=
  let '(rc, ix) := convertErrcodeToIndexes st code in
  if (rc =? 0) && (0 <=? ix_generic_idx ix)
     && (msg_id (ring_get (ErrorRing st) (ix_ring_idx ix)) =? ix_ring_id ix)
  then Some (ix_ring_idx ix) else None.

(** The causal chain of a code: the ring slots of its valid links, most
    recent first, and the code at which the walk stops ([MPI_SUCCESS] at a
    root, otherwise a code whose link is invalid or stale). *)
Inductive chain (st : ring_state) : Z -> list Z -> Z -> Prop :=
| chain_stop code :
    link_of st code = None -> chain st code [] code
| chain_link code i rest final :
    link_of st code = Some i ->
    chain st (prev_error (ring_get (ErrorRing st) i)) rest final ->
    chain st code (i :: rest) final.

(** What [CombineSpecificCodes] leaves in the [prev_error] field of a link it
    visits: [error2_code] at the root, otherwise the old value, with its
    class replaced when that class was MPI_ERR_OTHER. *)
Definition relink (prev error2_code error2_class : Z) : Z :=
  if prev =? MPI_SUCCESS then error2_code
  else if MPIR_ERR_GET_CLASS prev =? MPI_ERR_OTHER
  then replace_class prev error2_class else prev.

Definition combine_ring (r : list MPIR_Err_msg_t) (links : list Z)
    (error2_code error2_class : Z) : list MPIR_Err_msg_t :=
  fold_left (fun r i =>
               ring_set r i (set_prev_error (ring_get r i)
                               (relink (prev_error (ring_get r i))
                                       error2_code error2_class)))
            links r.

End Chain.

(** The arguments fit a format: every [va_arg] of the scan finds an argument
    of the type it asks for. *)
Fixpoint va_list_fits {M : MpiConsts} (fmt : string) (ap : list va_value) : bool :=
  match fmt with
  | EmptyString => true
  | String "%"%char after =>
    match after with
    | EmptyString => true
    | String c begin =>
      match directive c ap with
      | D_unhandled => true
      | D_bad_va_arg => false
      | D_render _ ap' => va_list_fits begin ap'
      end
    end
  | String _ fmt' => va_list_fits fmt' ap
  end.

Section Fits.
Context {L : ErrLayout} {T : MsgTables} {M : MpiConsts}.

(** The arguments fit a call of [MPIR_Err_create_code_valist]: when there is
    an instance-specific message, the [**user] case finds its [int], and
    otherwise the arguments fit the format that is rendered. *)
Definition Argp_fits (generic_msg : string) (specific_msg : option string)
    (Argp : list va_value) : bool :=
  match specific_msg with
  | None => true
  | Some specific_msg =>
    match user_error_case (FindGenericMsgIndex generic_msg) (Some specific_msg) Argp,
          specific_fmt_of specific_msg with
    | Some (use_user, _, _), Some specific_fmt =>
      if use_user =? 0 then va_list_fits specific_fmt Argp else true
    | _, _ => false
    end
  end.

(** The code [MPIR_Err_create_code_valist] assembles from the class, the
    generic index, the ring index, the sequence number and the fatal test. *)
Definition assembled_code (error_class generic_idx ring_idx ring_seq : Z)
    (fatal : bool) : Z :=
  let err_code :=
    if 0 <=? generic_idx
    then Z.lor error_class (wrap32 (Z.shiftl (generic_idx + 1) ERROR_GENERIC_SHIFT))
    else Z.land error_class (Z.lnot ERROR_GENERIC_MASK) in
  let err_code :=
    Z.lor err_code (wrap32 (Z.shiftl ring_idx ERROR_SPECIFIC_INDEX_SHIFT)) in
  let err_code :=
    Z.lor err_code (wrap32 (Z.shiftl ring_seq ERROR_SPECIFIC_SEQ_SHIFT)) in
  if fatal then Z.lor err_code ERROR_FATAL_MASK else err_code.

End Fits.

(** The fragment [", {message}"] of a ring slot, cut to a buffer of [n]
    bytes. *)
Definition fragment (st : ring_state) (n i : Z) : list ascii :=
  text_prefix (n - 1) (", " ++ msg (ring_get (ErrorRing st) i)).

(** [m'] is [m] except inside the interval from [lo] to [hi]. *)
Definition same_outside (m m' : list ascii) (lo hi : Z) : Prop :=
  length m' = length m
  /\ forall i : nat, Z.of_nat i < lo \/ hi <= Z.of_nat i -> m' !! i = m !! i.

(** ** The other dispatch routines *)

(** [MPIR_Win], [MPIR_Session] and [MPIR_Group]: the fields errutil.c reads.
    [MPIR_Object_get_ref] of a session reads [session_ref_count]. *)
Record MPIR_Win := {
  win_handle : Z;
  win_errhandler : option MPIR_Errhandler
}.

Record MPIR_Session := {
  session_handle : Z;
  session_ref_count : Z;
  session_errhandler : option MPIR_Errhandler
}.

Record MPIR_Group := {
  session_ptr : option MPIR_Session
}.

Section DispatchOthers.
Context {L : ErrLayout} {M : MpiConsts}.

(** The test shared by the routines once a handler [errh] is at hand:
    [MPIR_Err_is_fatal(errcode) || handle == MPI_ERRORS_ARE_FATAL ||
    handle == MPI_ERRORS_ABORT]. *)
Definition fatal_or_aborting (errcode : Z) (errh : MPIR_Errhandler) : bool :=
  MPIR_Err_is_fatal errcode || (handle errh =? MPI_ERRORS_ARE_FATAL)
  || (handle errh =? MPI_ERRORS_ABORT).

(** [int MPIR_Err_return_win(MPIR_Win *win_ptr, const char fcname[],
    int errcode)] *)
Definition MPIR_Err_return_win (P : MPIR_Process_t) (st : ring_state)
    (win_ptr : option MPIR_Win) (fcname : string) (errcode : Z)
  : list diagnostic * outcome :=
  let error_class := ERROR_GET_CLASS errcode in
  match win_ptr with
  | None => MPIR_Err_return_comm P st None fcname errcode
  | Some w =>
    match win_errhandler w with
    | None => MPIR_Err_return_comm P st None fcname errcode
    | Some errh =>
      let '(_, errcode, printed) := checkValidErrcode error_class fcname errcode in
      if fatal_or_aborting errcode errh
      then (printed, Fatal_error None fcname errcode)
      else
        let errcode := checkForUserErrcode st errcode in
        let h := {| kind := MPIR_WIN; u_handle := win_handle w |} in
        (printed, MPIR_call_errhandler errh errcode h)
    end
  end.

(** [int MPIR_Err_return_session(struct MPIR_Session *session_ptr,
    const char fcname[], int errcode)] *)
Definition MPIR_Err_return_session (P : MPIR_Process_t) (st : ring_state)
    (session : option MPIR_Session) (fcname : string) (errcode : Z)
  : list diagnostic * outcome :=
  let error_class := ERROR_GET_CLASS errcode in
  let '(_, errcode, printed) := checkValidErrcode error_class fcname errcode in
  if negb (MPIR_Errutil_is_initialized P)
  then (printed, Fatal_error None fcname errcode)
  else
    let via_comm :=
      let '(printed', o) := MPIR_Err_return_comm P st None fcname errcode in
      ((printed ++ printed')%list, o) in
    match session with
    | None => via_comm
    | Some s =>
      if session_ref_count s <=? 0 then via_comm
      else
        match session_errhandler s with
        | None => via_comm
        | Some errh =>
          if fatal_or_aborting errcode errh
          then (printed, Fatal_error None fcname errcode)
          else
            let errcode := checkForUserErrcode st errcode in
            let h := {| kind := MPIR_SESSION; u_handle := session_handle s |} in
            (printed, MPIR_call_errhandler errh errcode h)
        end
    end.

(** [int MPIR_Err_return_session_init(MPIR_Errhandler *errhandler_ptr,
    const char fcname[], int errcode)].  [errhandler_ptr] is the handler as
    it reads after [init_builtins()], which sets the handles of the built-in
    handler objects. *)
Definition MPIR_Err_return_session_init (P : MPIR_Process_t) (st : ring_state)
    (errhandler_ptr : option MPIR_Errhandler) (fcname : string) (errcode : Z)
  : list diagnostic * outcome :=
  let error_class := ERROR_GET_CLASS errcode in
  let '(_, errcode, printed) := checkValidErrcode error_class fcname errcode in
  let returns :=
    match errhandler_ptr with
    | Some errh => (handle errh =? MPI_ERRORS_RETURN)
                   || (handle errh =? MPIR_ERRORS_THROW_EXCEPTIONS)
    | None => false
    end in
  if returns then (printed, Returned errcode [])
  else if negb (MPIR_Errutil_is_initialized P)
  then (printed, Fatal_error None fcname errcode)
  else
    match errhandler_ptr with
    | None =>
      let '(printed', o) := MPIR_Err_return_comm P st None fcname errcode in
      ((printed ++ printed')%list, o)
    | Some errh =>
      if fatal_or_aborting errcode errh
      then (printed, Fatal_error None fcname errcode)
      else
        let errcode := checkForUserErrcode st errcode in
        let h := {| kind := MPIR_SESSION; u_handle := MPI_SESSION_NULL |} in
        (printed, MPIR_call_errhandler errh errcode h)
    end.

(** [int MPIR_Err_return_group(struct MPIR_Group *group_ptr,
    const char fcname[], int errcode)] *)
Definition MPIR_Err_return_group (P : MPIR_Process_t) (st : ring_state)
    (group_ptr : option MPIR_Group) (fcname : string) (errcode : Z)
  : list diagnostic * outcome :=
  match group_ptr with
  | None => MPIR_Err_return_comm P st None fcname errcode
  | Some g =>
    match session_ptr g with
    | None => MPIR_Err_return_comm P st None fcname errcode
    | Some s => MPIR_Err_return_session P st (Some s) fcname errcode
    end
  end.

(** [int MPIR_Err_return_comm_create_from_group(MPIR_Errhandler
    *errhandler_ptr, const char fcname[], int errcode)] *)
Definition MPIR_Err_return_comm_create_from_group (P : MPIR_Process_t)
    (st : ring_state) (errhandler_ptr : option MPIR_Errhandler)
    (fcname : string) (errcode : Z) : list diagnostic * outcome :=
  let error_class := ERROR_GET_CLASS errcode in
  let '(_, errcode, printed) := checkValidErrcode error_class fcname errcode in
  if negb (MPIR_Errutil_is_initialized P)
  then (printed, Fatal_error None fcname errcode)
  else
    match errhandler_ptr with
    | None =>
      let '(printed', o) := MPIR_Err_return_comm P st None fcname errcode in
      ((printed ++ printed')%list, o)
    | Some errh =>
      if fatal_or_aborting errcode errh
      then (printed, Fatal_error None fcname errcode)
      else
        let errcode := checkForUserErrcode st errcode in
        if negb (handle errh =? MPI_ERRORS_RETURN)
           && negb (handle errh =? MPIR_ERRORS_THROW_EXCEPTIONS)
        then
          let h := {| kind := MPIR_COMM; u_handle := MPI_COMM_NULL |} in
          (printed, MPIR_call_errhandler errh errcode h)
        else (printed, Returned errcode [])
    end.

(** The code as the dispatch routines see it after [checkValidErrcode]. *)
Definition repaired (fcname : string) (errcode : Z) : Z :=
  snd (fst (checkValidErrcode (ERROR_GET_CLASS errcode) fcname errcode)).

(** An outcome is the fatal path. *)
Definition is_fatal_outcome (o : outcome) : bool :=
  match o with
  | Fatal_error _ _ _ => true
  | _ => false
  end.

End DispatchOthers.

(** ** Well-formed message tables *)

(** The sentinels [0xacebad03] and [0xcb0bfa11] that bracket every entry of
    the generated tables. *)
Definition sentinels_ok (p : msgpair) : Prop :=
  sentinal1 p = 0xacebad03 /\ sentinal2 p = 0xcb0bfa11.

(** "The values are in increasing, sorted order": every entry compares below
    every later one under [strcmp] on the short names. *)
Definition table_sorted (tbl : list msgpair) : Prop :=
  forall (i j : nat) (a b : msgpair),
    (i < j)%nat -> tbl !! i = Some a -> tbl !! j = Some b ->
    strcmp (short_name a) (short_name b) = Lt.

(** ** Ring entries up to their links *)

(** Two ring entries that differ at most in [prev_error]. *)
Definition same_except_prev (e e' : MPIR_Err_msg_t) : Prop :=
  msg_id e' = msg_id e
  /\ use_user_error_code e' = use_user_error_code e
  /\ user_error_code e' = user_error_code e
  /\ location e' = location e
  /\ msg e' = msg e.

(** ** The ring cursors and the fields of a code *)

Section RingShape.
Context {L : ErrLayout}.

(** What the ring variables satisfy from program start on: the array has
    MAX_ERROR_RING slots, the cursor is inside it, and the high-water mark is
    at or above the cursor and inside the array. *)
Definition ring_wf (st : ring_state) : Prop :=
  length (ErrorRing st) = Z.to_nat MAX_ERROR_RING
  /\ 0 <= error_ring_loc st < MAX_ERROR_RING
  /\ error_ring_loc st <= max_error_ring_loc st < MAX_ERROR_RING.

(** The cursor after [ring_idx = error_ring_loc++] and the wrap that follows
    it in [MPIR_Err_create_code_valist]. *)
Definition next_loc (st : ring_state) : Z :=
  let loc := wrap_u32 (error_ring_loc st + 1) in
  if MAX_ERROR_RING <=? loc then loc mod MAX_ERROR_RING else loc.

End RingShape.

(** A text whose characters are all non-negative as plain [char]s. *)
Definition seven_bit (s : string) : Prop :=
  Forall (fun c => 0 <= char_to_int c) (list_ascii_of_string s).

(** The generic, index and sequence fields of a layout are runs of [gw],
    [iw] and [sw] bits at their shifts, below the sign bit and apart from
    each other; the two sizes are the numbers of values of their fields. *)
Record FieldsOk (L : ErrLayout) (gw iw sw : Z) : Prop := {
  fo_generic_mask : ERROR_GENERIC_MASK = Z.shiftl (Z.ones gw) ERROR_GENERIC_SHIFT;
  fo_index_mask :
    ERROR_SPECIFIC_INDEX_MASK = Z.shiftl (Z.ones iw) ERROR_SPECIFIC_INDEX_SHIFT;
  fo_seq_mask : ERROR_SPECIFIC_SEQ_MASK = Z.shiftl (Z.ones sw) ERROR_SPECIFIC_SEQ_SHIFT;
  fo_index_size : ERROR_SPECIFIC_INDEX_SIZE = 2 ^ iw;
  fo_seq_size : ERROR_SPECIFIC_SEQ_SIZE = 2 ^ sw;
  fo_generic_top : 0 <= gw /\ ERROR_GENERIC_SHIFT + gw <= 31;
  fo_index_top : 0 <= iw /\ ERROR_SPECIFIC_INDEX_SHIFT + iw <= 31;
  fo_seq_top : 0 <= sw /\ ERROR_SPECIFIC_SEQ_SHIFT + sw <= 31;
  fo_generic_index : Z.land ERROR_GENERIC_MASK ERROR_SPECIFIC_INDEX_MASK = 0;
  fo_generic_seq : Z.land ERROR_GENERIC_MASK ERROR_SPECIFIC_SEQ_MASK = 0;
  fo_index_seq : Z.land ERROR_SPECIFIC_INDEX_MASK ERROR_SPECIFIC_SEQ_MASK = 0
}.

(** ** Texts *)

(** A text without ['%']: a format without directives. *)
Definition no_percent (s : string) : Prop :=
  Forall (fun c => c <> "%"%char) (list_ascii_of_string s).

(** A text without a NUL character, as every C string is. *)
Definition no_nul (s : string) : Prop :=
  Forall (fun c => is_nul c = false) (list_ascii_of_string s).

(** ** More of the concrete configuration *)

(** A user-defined C handler, and a communicator, a window and a session
    that carry it; a session that has been released; a process before
    initialization. *)
Definition user_handler : MPIR_Errhandler :=
  {| handle := 0x94000000; language := MPIR_LANG__C; errfn := 7; extra_state := 0 |}.

Definition sample_user_comm : MPIR_Comm :=
  {| comm_handle := 0x84000001; errhandler := Some user_handler |}.

Definition sample_win : MPIR_Win :=
  {| win_handle := 0xa0000000; win_errhandler := Some user_handler |}.

Definition sample_session : MPIR_Session :=
  {| session_handle := 0xb8000000; session_ref_count := 1;
     session_errhandler := Some user_handler |}.

Definition released_session : MPIR_Session :=
  {| session_handle := 0xb8000001; session_ref_count := 0;
     session_errhandler := Some user_handler |}.

Definition uninitialized_process : MPIR_Process_t :=
  {| mpich_state := 0; comm_self := None; comm_world := None;
     errcode_to_string := None |}.



(** The ring after the code [0x0400050f] was created for the user error
    code 42 (generic message "**user"). *)
Definition entry_user : MPIR_Err_msg_t :=
  {| msg_id := 0x0400050f; prev_error := 0; use_user_error_code := 1;
     user_error_code := 42; location := "del_fn(7)";
     msg := "user defined function returned an error code (%d)42" |}.

Definition user_ring : ring_state :=
  {| ErrorRing := ring_set (replicate 128 zero_entry) 0 entry_user;
     error_ring_loc := 1; max_error_ring_loc := 1 |}.

(** The ring after three codes were created: [0x20f] of class MPI_ERR_OTHER
    in slot 0, [0x3008020f] on top of it in slot 1, and the unrelated
    [0x20100105] in slot 2. *)
Definition entry_other_old : MPIR_Err_msg_t :=
  {| msg_id := 0x20f; prev_error := 0; use_user_error_code := 0;
     user_error_code := 0; location := "f(10)"; msg := "old 1" |}.

Definition entry_other_new : MPIR_Err_msg_t :=
  {| msg_id := 0x3000020f; prev_error := 0x20f; use_user_error_code := 0;
     user_error_code := 0; location := "g(20)"; msg := "new 2" |}.

Definition entry_comm : MPIR_Err_msg_t :=
  {| msg_id := 0x20000105; prev_error := 0; use_user_error_code := 0;
     user_error_code := 0; location := "h(30)"; msg := "Invalid communicator" |}.

Definition other_class_ring : ring_state :=
  {| ErrorRing := ring_set (ring_set (ring_set (replicate 128 zero_entry) 0
                                               entry_other_old) 1 entry_other_new)
                           2 entry_comm;
     error_ring_loc := 3; max_error_ring_loc := 3 |}.

(** * Proofs *)

(** ** Bits *)

Lemma land_low_mod (x m k : Z) :
  0 <= k -> 0 <= m < 2 ^ k -> Z.land x m = Z.land (x mod 2 ^ k) m.
Proof.
  intros Hk Hm.
  rewrite <- Z.land_ones by assumption.
  rewrite <- Z.land_assoc. f_equal.
  rewrite Z.land_comm, Z.land_ones by assumption.
  symmetry. apply Z.mod_small. assumption.
Qed.

Lemma wrap32_mod (z k : Z) :
  0 <= k <= 32 -> wrap32 z mod 2 ^ k = z mod 2 ^ k.
Proof.
  intros Hk. unfold wrap32.
  assert (H32 : 2 ^ 32 = 2 ^ k * 2 ^ (32 - k)).
  { rewrite <- Z.pow_add_r by lia. f_equal. lia. }
  assert (Hpos : 0 < 2 ^ k) by (apply Z.pow_pos_nonneg; lia).
  pose proof (Z.div_mod (z + 2 ^ 31) (2 ^ 32) ltac:(lia)) as Hdm.
  set (q := (z + 2 ^ 31) / 2 ^ 32) in *.
  set (r := (z + 2 ^ 31) mod 2 ^ 32) in *.
  rewrite H32 in Hdm.
  replace (r - 2 ^ 31) with (z + (- (2 ^ (32 - k) * q)) * 2 ^ k) by lia.
  apply Z_mod_plus_full.
Qed.

Lemma shiftl_mod (x s k : Z) :
  0 <= k <= s -> Z.shiftl x s mod 2 ^ k = 0.
Proof.
  intros Hk. rewrite Z.shiftl_mul_pow2 by lia.
  replace (2 ^ s) with (2 ^ (s - k) * 2 ^ k)
    by (rewrite <- Z.pow_add_r by lia; f_equal; lia).
  rewrite Z.mul_assoc. apply Z_mod_mult.
Qed.

Lemma land_wrap32_shiftl (x s m k : Z) :
  0 <= k <= 32 -> k <= s -> 0 <= m < 2 ^ k ->
  Z.land (wrap32 (Z.shiftl x s)) m = 0.
Proof.
  intros Hk Hs Hm.
  rewrite (land_low_mod _ m k) by lia.
  rewrite wrap32_mod by lia.
  rewrite shiftl_mod by lia.
  apply Z.land_0_l.
Qed.

Lemma land_sub (x m : Z) : Z.land x m = x -> Z.land x (Z.lnot m) = 0.
Proof.
  intros H. rewrite <- H, <- Z.land_assoc.
  rewrite Z.land_lnot_diag. apply Z.land_0_r.
Qed.

Lemma land_disjoint (x m m' : Z) :
  Z.land x m = x -> Z.land m m' = 0 -> Z.land x m' = 0.
Proof.
  intros H Hd. rewrite <- H, <- Z.land_assoc, Hd. apply Z.land_0_r.
Qed.

Lemma land_replace_class_mask (code cls m : Z) :
  Z.land cls m = cls -> Z.land (Z.lor (Z.land code (Z.lnot m)) cls) m = cls.
Proof.
  intros H. rewrite Z.land_lor_distr_l, <- Z.land_assoc.
  rewrite (Z.land_comm (Z.lnot m)), Z.land_lnot_diag, Z.land_0_r, H.
  apply Z.lor_0_l.
Qed.

Lemma land_replace_class_rest (code cls m : Z) :
  Z.land cls m = cls ->
  Z.land (Z.lor (Z.land code (Z.lnot m)) cls) (Z.lnot m) = Z.land code (Z.lnot m).
Proof.
  intros H. rewrite Z.land_lor_distr_l, <- Z.land_assoc, Z.land_diag.
  rewrite (land_sub cls m H). apply Z.lor_0_r.
Qed.

Lemma reference_layout_ok : LayoutOk reference_layout.
Proof. split; vm_compute; try reflexivity; intuition congruence. Qed.

Section CodecProofs.
Context {L : ErrLayout}.

(** ** The fatal classification *)

(** C1.  [MPIR_Err_is_fatal] answers true exactly for the codes whose fatal
    bit is set and whose dynamic flag is clear; in particular a code with
    the dynamic flag set is never fatal, whatever its fatal bit. *)
Theorem MPIR_Err_is_fatal_iff (errcode : Z) :
  (MPIR_Err_is_fatal errcode = true <->
   Z.land errcode ERROR_FATAL_MASK <> 0 /\ Z.land errcode ERROR_DYN_MASK = 0)
  /\ (Z.land errcode ERROR_DYN_MASK <> 0 -> MPIR_Err_is_fatal errcode = false).
Proof.
  unfold MPIR_Err_is_fatal.
  destruct (Z.eqb_spec (Z.land errcode ERROR_DYN_MASK) 0) as [Hd | Hd];
    destruct (Z.eqb_spec (Z.land errcode ERROR_FATAL_MASK) 0) as [Hf | Hf];
    simpl; intuition congruence.
Qed.

(** ** Repairing the class *)

(** C6, as the code has it.  A code whose class is above MPICH_ERR_LAST_MPIX
    is repaired: [checkValidErrcode] returns (with return code 1), prints
    one message, and leaves a code whose class is MPI_ERR_UNKNOWN and whose
    other bits are those of the original.  Every other code, and so every
    code with a valid class, is left as it is and nothing is printed. *)
Theorem checkValidErrcode_repairs_above_last (HL : LayoutOk L)
    (fcname : string) (errcode : Z) :
  (MPICH_ERR_LAST_MPIX < ERROR_GET_CLASS errcode ->
   exists errcode' d,
     checkValidErrcode (ERROR_GET_CLASS errcode) fcname errcode = (1, errcode', [d])
     /\ ERROR_GET_CLASS errcode' = MPI_ERR_UNKNOWN
     /\ Z.land errcode' (Z.lnot ERROR_CLASS_MASK)
        = Z.land errcode (Z.lnot ERROR_CLASS_MASK))
  /\ (ERROR_GET_CLASS errcode <= MPICH_ERR_LAST_MPIX ->
      checkValidErrcode (ERROR_GET_CLASS errcode) fcname errcode = (0, errcode, []))
  /\ (is_valid_error_class (ERROR_GET_CLASS errcode) = true ->
      checkValidErrcode (ERROR_GET_CLASS errcode) fcname errcode = (0, errcode, [])).
Proof.
  assert (Hle : ERROR_GET_CLASS errcode <= MPICH_ERR_LAST_MPIX ->
                checkValidErrcode (ERROR_GET_CLASS errcode) fcname errcode
                = (0, errcode, [])).
  { intros Hc. unfold checkValidErrcode.
    destruct (Z.ltb_spec MPICH_ERR_LAST_MPIX (ERROR_GET_CLASS errcode)); [lia | reflexivity]. }
  split; [| split]; [| exact Hle |].
  - intros Hc. unfold checkValidErrcode.
    destruct (Z.ltb_spec MPICH_ERR_LAST_MPIX (ERROR_GET_CLASS errcode)); [| lia].
    eexists _, _. split; [reflexivity |]. split.
    + unfold ERROR_GET_CLASS, MPIR_ERR_GET_CLASS.
      apply land_replace_class_mask, (lo_unknown L HL).
    + apply land_replace_class_rest, (lo_unknown L HL).
  - intros Hv. apply Hle. unfold is_valid_error_class in Hv.
    pose proof (lo_ranges L HL). lia.
Qed.

End CodecProofs.

Lemma checkValidErrcode_repairs_above_last_witness :
  LayoutOk reference_layout
  /\ MPICH_ERR_LAST_MPIX (ErrLayout := reference_layout)
     < ERROR_GET_CLASS (L := reference_layout) 0x27f
  /\ exists errcode' d,
       checkValidErrcode (L := reference_layout)
         (ERROR_GET_CLASS (L := reference_layout) 0x27f) "MPI_Send" 0x27f
       = (1, errcode', [d])
       /\ ERROR_GET_CLASS (L := reference_layout) errcode'
          = MPI_ERR_UNKNOWN (ErrLayout := reference_layout)
       /\ Z.land errcode' (Z.lnot (ERROR_CLASS_MASK (ErrLayout := reference_layout)))
          = Z.land 0x27f (Z.lnot (ERROR_CLASS_MASK (ErrLayout := reference_layout))).
Proof.
  split; [exact reference_layout_ok |].
  split; [vm_compute; reflexivity |].
  apply (proj1 (checkValidErrcode_repairs_above_last (L := reference_layout)
                  reference_layout_ok "MPI_Send" 0x27f)).
  vm_compute. reflexivity.
Defined.

(** C6, as the claim states it, fails: class 80 lies in neither valid range
    of the reference layout, yet the code [0x250] (class 80, generic code 2)
    is not repaired and nothing is printed. *)
Lemma checkValidErrcode_valid_ranges_counterexample :
  is_valid_error_class (L := reference_layout)
    (ERROR_GET_CLASS (L := reference_layout) 0x250) = false
  /\ checkValidErrcode (L := reference_layout)
       (ERROR_GET_CLASS (L := reference_layout) 0x250) "MPI_Send" 0x250
     = (0, 0x250, [])
  /\ ERROR_GET_CLASS (L := reference_layout) 0x250
     <> MPI_ERR_UNKNOWN (ErrLayout := reference_layout).
Proof. vm_compute. repeat split; discriminate. Qed.

(** The same in any layout whose two class ranges are apart: the first
    extension class is itself not valid and not repaired. *)
Lemma checkValidErrcode_gap {L : ErrLayout} (fcname : string) :
  MPICH_ERR_LAST_CLASS < MPICH_ERR_FIRST_MPIX <= MPICH_ERR_LAST_MPIX ->
  is_valid_error_class MPICH_ERR_FIRST_MPIX = false
  /\ fst (checkValidErrcode MPICH_ERR_FIRST_MPIX fcname MPICH_ERR_FIRST_MPIX) = (0, MPICH_ERR_FIRST_MPIX).
Proof.
  intros H. unfold is_valid_error_class, checkValidErrcode.
  destruct (Z.ltb_spec MPICH_ERR_LAST_MPIX MPICH_ERR_FIRST_MPIX); [lia |].
  split; [| reflexivity].
  apply orb_false_iff. split; apply andb_false_iff; [right | left]; lia.
Qed.

(** ** Combining: the identity and the dynamic codes *)

Section CombineBasics.
Context {L : ErrLayout}.

(** C2.  [MPI_SUCCESS] is an identity of [MPIR_Err_combine_codes] on both
    sides; for two codes other than success, a dynamic first argument is
    returned, and otherwise a dynamic second argument is.  In all these
    cases the ring is left as it is, whatever the fuel. *)
Theorem MPIR_Err_combine_codes_identity_dynamic (fuel : nat) (st : ring_state)
    (x a b : Z) :
  MPIR_Err_combine_codes fuel st MPI_SUCCESS x = Some (x, st)
  /\ MPIR_Err_combine_codes fuel st x MPI_SUCCESS = Some (x, st)
  /\ (a <> MPI_SUCCESS -> b <> MPI_SUCCESS ->
      Z.land a ERROR_DYN_MASK <> 0 ->
      MPIR_Err_combine_codes fuel st a b = Some (a, st))
  /\ (a <> MPI_SUCCESS -> b <> MPI_SUCCESS ->
      Z.land a ERROR_DYN_MASK = 0 -> Z.land b ERROR_DYN_MASK <> 0 ->
      MPIR_Err_combine_codes fuel st a b = Some (b, st)).
Proof.
  unfold MPIR_Err_combine_codes, MPI_SUCCESS.
  split; [| split; [| split]].
  - reflexivity.
  - destruct (Z.eqb_spec x 0) as [-> | Hx]; reflexivity.
  - intros Ha Hb Hd.
    destruct (Z.eqb_spec a 0); [contradiction |].
    destruct (Z.eqb_spec b 0); [contradiction |].
    destruct (Z.eqb_spec (Z.land a ERROR_DYN_MASK) 0); [contradiction | reflexivity].
  - intros Ha Hb Hd Hd'.
    destruct (Z.eqb_spec a 0); [contradiction |].
    destruct (Z.eqb_spec b 0); [contradiction |].
    destruct (Z.eqb_spec (Z.land a ERROR_DYN_MASK) 0); [| contradiction].
    destruct (Z.eqb_spec (Z.land b ERROR_DYN_MASK) 0); [contradiction | reflexivity].
Qed.

End CombineBasics.

Section CombineExamples.
#[local] Existing Instance reference_layout.

Lemma MPIR_Err_combine_codes_identity_dynamic_witness :
  MPIR_Err_combine_codes 0 initial_ring 0x40000105 0x205
  = Some (0x40000105, initial_ring)
  /\ MPIR_Err_combine_codes 0 initial_ring 0x205 0x40000105
     = Some (0x40000105, initial_ring).
Proof.
  pose proof (MPIR_Err_combine_codes_identity_dynamic
                0 initial_ring 0 0x40000105 0x205) as (_ & _ & H1 & _).
  pose proof (MPIR_Err_combine_codes_identity_dynamic
                0 initial_ring 0 0x205 0x40000105) as (_ & _ & _ & H2).
  split; [apply H1 | apply H2]; vm_compute; congruence.
Defined.

End CombineExamples.

(** ** Dispatch on a communicator *)

Section DispatchProofs.
Context {L : ErrLayout} {M : MpiConsts}.

(** C3, as the code has it.  After initialization, with [code] the error
    code as [checkValidErrcode] leaves it: the handler is the communicator's
    own, else the one of the self-scope communicator, else the one of the
    world-scope communicator.  When there is none, the fatal path is
    entered; when the code is fatal for [MPIR_Err_is_fatal] or the handler
    is MPI_ERRORS_ARE_FATAL or MPI_ERRORS_ABORT, the fatal path is entered
    with the communicator that holds the handler; otherwise the handler is
    called (on the code [checkForUserErrcode] substitutes) and
    what [MPIR_call_errhandler] gives is the outcome. *)
Theorem MPIR_Err_return_comm_dispatch (P : MPIR_Process_t) (st : ring_state)
    (comm_ptr : option MPIR_Comm) (fcname : string) (errcode : Z) :
  MPIR_Errutil_is_initialized P = true ->
  let code := snd (fst (checkValidErrcode (ERROR_GET_CLASS errcode) fcname errcode)) in
  snd (MPIR_Err_return_comm P st comm_ptr fcname errcode) =
  match resolve_comm_handler P comm_ptr with
  | None => Fatal_error comm_ptr fcname code
  | Some (c, h) =>
    if MPIR_Err_is_fatal code || (handle h =? MPI_ERRORS_ARE_FATAL)
       || (handle h =? MPI_ERRORS_ABORT)
    then Fatal_error (Some c) fcname code
    else MPIR_call_errhandler h (checkForUserErrcode st code)
           {| kind := MPIR_COMM; u_handle := comm_handle c |}
  end.
Proof.
  intros Hinit code. unfold MPIR_Err_return_comm.
  destruct (checkValidErrcode (ERROR_GET_CLASS errcode) fcname errcode)
    as [[rc code'] printed] eqn:Hcv.
  subst code. cbn [fst snd]. rewrite Hinit. cbn [negb].
  unfold resolve_comm_handler, has_errhandler.
  destruct comm_ptr as [c |]; cbn;
    [destruct (errhandler c) as [h |] eqn:Hh; cbn |];
    try destruct (comm_self P) as [s |]; cbn;
    try (destruct (errhandler s) as [hs |] eqn:Hs; cbn);
    try destruct (comm_world P) as [w |]; cbn;
    try (destruct (errhandler w) as [hw |] eqn:Hw; cbn);
    rewrite ?Hh, ?Hs, ?Hw;
    destruct (MPIR_Err_is_fatal code'); cbn; try reflexivity;
    match goal with
    | |- context [handle ?h =? MPI_ERRORS_ARE_FATAL] =>
      destruct (handle h =? MPI_ERRORS_ARE_FATAL);
      destruct (handle h =? MPI_ERRORS_ABORT); reflexivity
    end.
Qed.

End DispatchProofs.

Section DispatchExamples.
#[local] Existing Instance reference_layout.
#[local] Existing Instance sample_consts.

Lemma MPIR_Err_return_comm_dispatch_witness :
  MPIR_Errutil_is_initialized sample_process = true
  /\ snd (MPIR_Err_return_comm sample_process initial_ring (Some sample_comm)
            "MPI_Send" 0x205)
     = Returned 0x205 [].
Proof.
  split; [reflexivity |].
  rewrite MPIR_Err_return_comm_dispatch by reflexivity.
  vm_compute. reflexivity.
Defined.

(** C3, as the claim states it, fails: the code [0x40000085] has its fatal
    bit set (and the dynamic flag), the handler found on the self-scope
    communicator is MPI_ERRORS_RETURN, and the routine returns the code
    instead of entering the fatal path. *)
Lemma MPIR_Err_return_comm_fatal_bit_counterexample :
  Z.land 0x40000085 ERROR_FATAL_MASK <> 0
  /\ MPIR_Errutil_is_initialized sample_process = true
  /\ MPIR_Err_return_comm sample_process initial_ring (Some sample_comm)
       "MPI_Send" 0x40000085
     = ([], Returned 0x40000085 []).
Proof. vm_compute. repeat split; discriminate. Qed.

End DispatchExamples.

(** ** C buffers: what a bounded store changes *)

Lemma same_outside_refl (m : list ascii) (lo hi : Z) : same_outside m m lo hi.
Proof. split; [reflexivity | intros; reflexivity]. Qed.

Lemma same_outside_trans (m m1 m2 : list ascii) (lo hi lo1 hi1 lo2 hi2 : Z) :
  same_outside m m1 lo1 hi1 -> same_outside m1 m2 lo2 hi2 ->
  lo <= lo1 -> lo <= lo2 -> hi1 <= hi -> hi2 <= hi ->
  same_outside m m2 lo hi.
Proof.
  intros [Hl1 H1] [Hl2 H2] ? ? ? ?. split; [congruence |].
  intros i Hi. rewrite H2 by lia. apply H1. lia.
Qed.

Lemma same_outside_weaken (m m' : list ascii) (lo hi lo1 hi1 : Z) :
  same_outside m m' lo1 hi1 -> lo <= lo1 -> hi1 <= hi -> same_outside m m' lo hi.
Proof.
  intros [Hl H] ? ?. split; [assumption |]. intros i Hi. apply H. lia.
Qed.

Lemma mem_write_spec (m : list ascii) (p : Z) (cs : list ascii) :
  0 <= p -> p + Z.of_nat (length cs) <= Z.of_nat (length m) ->
  exists m', mem_write m p cs = Some m'
    /\ same_outside m m' p (p + Z.of_nat (length cs))
    /\ forall k : nat, (k < length cs)%nat -> m' !! (Z.to_nat p + k)%nat = cs !! k.
Proof.
  intros Hp Hlen. unfold mem_write.
  destruct cs as [| c cs].
  { exists m. split; [reflexivity |]. split; [apply same_outside_refl |].
    intros k Hk. simpl in Hk. lia. }
  set (bs := c :: cs) in *.
  destruct (Z.leb_spec 0 p); [| lia].
  destruct (Z.leb_spec (p + Z.of_nat (length bs)) (Z.of_nat (length m))); [| lia].
  cbn [andb]. eexists. split; [reflexivity |]. split; [split |].
  - apply length_inserts.
  - intros i [Hi | Hi].
    + apply list_lookup_inserts_lt. lia.
    + apply list_lookup_inserts_ge. lia.
  - intros k Hk. rewrite list_lookup_inserts by lia. f_equal. lia.
Qed.

Lemma mem_store_spec (m : list ascii) (p : Z) (c : ascii) :
  0 <= p < Z.of_nat (length m) ->
  exists m', mem_store m p c = Some m'
    /\ same_outside m m' p (p + 1)
    /\ m' !! Z.to_nat p = Some c.
Proof.
  intros Hp. unfold mem_store.
  destruct (Z.leb_spec 0 p); [| lia].
  destruct (Z.ltb_spec p (Z.of_nat (length m))); [| lia].
  cbn [andb]. eexists. split; [reflexivity |]. split; [split |].
  - apply length_insert.
  - intros i Hi. apply list_lookup_insert_ne. lia.
  - apply list_lookup_insert_eq. lia.
Qed.

Lemma strlen_from_bound (l : list ascii) (k : nat) (c : ascii) :
  l !! k = Some c -> is_nul c = true ->
  exists len, strlen_from l = Some len /\ 0 <= len <= Z.of_nat k.
Proof.
  revert l. induction k as [| k IH]; intros [| a l] Hk Hc; try discriminate.
  - simpl in Hk. injection Hk as ->. simpl. rewrite Hc. exists 0. split; [reflexivity | lia].
  - simpl in Hk. simpl. destruct (is_nul a).
    + exists 0. split; [reflexivity | lia].
    + destruct (IH l Hk Hc) as (len & -> & Hlen).
      exists (Z.succ len). split; [reflexivity | lia].
Qed.

Lemma c_strlen_bound (m : list ascii) (p q : Z) (c : ascii) :
  0 <= p <= q -> m !! Z.to_nat q = Some c -> is_nul c = true ->
  exists len, c_strlen m p = Some len /\ 0 <= len <= q - p.
Proof.
  intros Hpq Hq Hc. unfold c_strlen.
  destruct (Z.ltb_spec p 0); [lia |].
  destruct (strlen_from_bound (drop (Z.to_nat p) m) (Z.to_nat (q - p)) c) as (len & Hlen & Hb);
    [| assumption | exists len; split; [assumption | lia]].
  rewrite lookup_drop. rewrite <- Hq. f_equal. lia.
Qed.

Lemma length_list_ascii_of_string (s : string) :
  length (list_ascii_of_string s) = String.length s.
Proof. induction s as [| c s IH]; simpl; congruence. Qed.

Lemma length_text_prefix (n : Z) (s : string) :
  0 <= n -> Z.of_nat (length (text_prefix n s)) = Z.min n (strlen s).
Proof.
  intros Hn. unfold text_prefix, strlen.
  rewrite length_take, length_list_ascii_of_string. lia.
Qed.

Lemma is_nul_NUL : is_nul NUL = true.
Proof. reflexivity. Qed.

Lemma terminated_write (m : list ascii) (str n : Z) (bs : list ascii) :
  0 <= str -> 0 < n -> str + n <= Z.of_nat (length m) ->
  Z.of_nat (length bs) <= n - 1 ->
  exists m', mem_write m str (bs ++ [NUL]) = Some m'
    /\ same_outside m m' str (str + n)
    /\ m' !! Z.to_nat (str + Z.of_nat (length bs)) = Some NUL
    /\ forall k : nat, (k < length bs)%nat -> m' !! (Z.to_nat str + k)%nat = bs !! k.
Proof.
  intros Hs Hn Hfit Hbs.
  destruct (mem_write_spec m str (bs ++ [NUL])) as (m' & Hw & Hout & Hin);
    [lia | rewrite length_app; simpl; lia |].
  rewrite length_app in Hout, Hin. simpl in Hout, Hin.
  exists m'. split; [assumption |]. split; [| split].
  - apply (same_outside_weaken _ _ _ _ _ _ Hout); lia.
  - replace (Z.to_nat (str + Z.of_nat (length bs)))
      with (Z.to_nat str + length bs)%nat by lia.
    rewrite Hin by lia. rewrite lookup_app_r by lia.
    replace (length bs - length bs)%nat with 0%nat by lia. reflexivity.
  - intros k Hk. rewrite Hin by lia. apply lookup_app_l. assumption.
Qed.

Lemma c_snprintf_spec (m : list ascii) (str n : Z) (text : string) :
  0 <= str -> 0 <= n -> str + n <= Z.of_nat (length m) ->
  exists m', c_snprintf m str n text = Some m'
    /\ same_outside m m' str (str + n)
    /\ (0 < n -> exists k, 0 <= k < n /\ m' !! Z.to_nat (str + k) = Some NUL).
Proof.
  intros Hs Hn Hfit. unfold c_snprintf.
  destruct (Z.eqb_spec n 0) as [-> | Hn0].
  { exists m. split; [reflexivity |]. split; [apply same_outside_refl | lia]. }
  pose proof (length_text_prefix (n - 1) text ltac:(lia)) as Hlen.
  destruct (terminated_write m str n (text_prefix (n - 1) text))
    as (m' & Hw & Hout & Hnul & _); [lia .. |].
  exists m'. split; [assumption |]. split; [assumption |].
  intros _. eexists. split; [| exact Hnul]. lia.
Qed.

Lemma MPL_strncpy_spec (m : list ascii) (dest n : Z) (src : string) :
  0 <= dest -> 0 <= n -> dest + n <= Z.of_nat (length m) ->
  exists m' rc, MPL_strncpy m dest src n = Some (m', rc)
    /\ same_outside m m' dest (dest + n)
    /\ (0 < n -> exists k, 0 <= k < n /\ m' !! Z.to_nat (dest + k) = Some NUL).
Proof.
  intros Hs Hn Hfit. unfold MPL_strncpy.
  destruct (Z.eqb_spec n 0) as [-> | Hn0].
  { exists m, 0. split; [reflexivity |]. split; [apply same_outside_refl | lia]. }
  destruct (Z.ltb_spec (strlen src) n) as [Hlt | Hge].
  - destruct (terminated_write m dest n (list_ascii_of_string src))
      as (m' & Hw & Hout & Hnul & _);
      [lia | lia | lia | rewrite length_list_ascii_of_string; unfold strlen in Hlt; lia |].
    rewrite Hw. exists m', 0. split; [reflexivity |]. split; [assumption |].
    intros _. eexists. split; [| exact Hnul].
    rewrite length_list_ascii_of_string. unfold strlen in Hlt. lia.
  - pose proof (length_text_prefix (n - 1) src ltac:(lia)) as Hlen.
    destruct (terminated_write m dest n (text_prefix (n - 1) src))
      as (m' & Hw & Hout & Hnul & _); [lia .. |].
    rewrite Hw. exists m', 1. split; [reflexivity |]. split; [assumption |].
    intros _. eexists. split; [| exact Hnul]. lia.
Qed.

Section RendererProofs.
Context {M : MpiConsts}.

Lemma store_rendered_spec (m : list ascii) (str maxlen : Z) (r : rendered) :
  0 <= str -> 0 <= maxlen -> str + maxlen <= Z.of_nat (length m) ->
  exists m', store_rendered m str maxlen r = Some m'
    /\ same_outside m m' str (str + maxlen)
    /\ (0 < maxlen -> exists k, 0 <= k < maxlen /\ m' !! Z.to_nat (str + k) = Some NUL).
Proof.
  intros Hs Hn Hfit. destruct r as [text | text]; simpl.
  - destruct (MPL_strncpy_spec m str maxlen text) as (m' & rc & -> & H); [lia .. |].
    exists m'. split; [reflexivity | exact H].
  - apply c_snprintf_spec; lia.
Qed.

Lemma wrap_size_small (z : Z) : 0 <= z < 2 ^ 64 -> wrap_size z = z.
Proof. intros H. unfold wrap_size. apply Z.mod_small. assumption. Qed.

(** [vsnprintf_mpi] as [MPIR_Err_create_code_valist] calls it: when the byte
    at the bound [E] is a terminator (the array is one byte longer than the
    bound and zeroed), and the arguments fit the format, the routine returns
    and has stored only below the bound. *)
Lemma vsnprintf_mpi_from_within (n : nat) :
  forall (fmt lit : string) (m : list ascii) (str maxlen : Z) (ap : list va_value) (E : Z),
    (String.length fmt <= n)%nat ->
    va_list_fits fmt ap = true ->
    0 <= str -> 0 <= maxlen < 2 ^ 64 -> str + maxlen = E ->
    E < Z.of_nat (length m) -> m !! Z.to_nat E = Some NUL ->
    exists m' r, vsnprintf_mpi_from fmt lit m str maxlen ap = Some (m', r)
      /\ same_outside m m' str E.
Proof.
  induction n as [| n IH]; intros fmt lit m str maxlen ap E Hn Hfits Hs Hmax HE Hlen HNUL.
  - destruct fmt; [| simpl in Hn; lia].
    simpl. destruct (negb (String.length lit =? 0)%nat).
    + destruct (MPL_strncpy_spec m str maxlen lit) as (m' & rc & -> & Hout & _); [lia .. |].
      exists m', MPI_SUCCESS. split; [reflexivity |]. rewrite <- HE. exact Hout.
    + exists m, MPI_SUCCESS. split; [reflexivity | apply same_outside_refl].
  - destruct fmt as [| c fmt].
    { apply (IH "" lit m str maxlen ap E); simpl; try assumption; lia. }
    assert (Hplain : c <> "%"%char ->
              vsnprintf_mpi_from (String c fmt) lit m str maxlen ap
              = vsnprintf_mpi_from fmt (lit ++ String c "") m str maxlen ap
              /\ va_list_fits (String c fmt) ap = va_list_fits fmt ap).
    { intros Hc. destruct c as [[] [] [] [] [] [] [] []]; try (split; reflexivity).
      contradiction Hc. reflexivity. }
    destruct (Ascii.eqb_spec c "%"%char) as [-> | Hc].
    2:{ destruct (Hplain Hc) as [-> Hf]. rewrite Hf in Hfits.
        apply (IH fmt _ m str maxlen ap E); try assumption. simpl in Hn. lia. }
    clear Hplain. cbn [vsnprintf_mpi_from].
    set (len := if strlen lit <? maxlen then strlen lit else maxlen).
    assert (Hlenb : 0 <= len <= maxlen /\ len <= strlen lit).
    { unfold len, strlen.
      destruct (Z.ltb_spec (Z.of_nat (String.length lit)) maxlen); lia. }
    assert (Hw : exists m1,
               (if negb (len =? 0) then mem_write m str (text_prefix len lit) else Some m)
               = Some m1 /\ same_outside m m1 str (str + len)).
    { destruct (Z.eqb_spec len 0) as [H0 | H0]; cbn [negb].
      - exists m. split; [reflexivity | apply same_outside_refl].
      - pose proof (length_text_prefix len lit ltac:(lia)) as Hl.
        destruct (mem_write_spec m str (text_prefix len lit)) as (m1 & Hw & Hout & _);
          [lia | lia |].
        exists m1. split; [assumption |].
        apply (same_outside_weaken _ _ _ _ _ _ Hout); lia. }
    destruct Hw as (m1 & -> & Hout1).
    rewrite (wrap_size_small (maxlen - len)) by lia.
    destruct fmt as [| d begin].
    { exists m1, 0. split; [reflexivity |].
      apply (same_outside_weaken _ _ _ _ _ _ Hout1); lia. }
    cbn [va_list_fits] in Hfits.
    destruct (directive d ap) as [r ap' | |] eqn:Hd; [| | discriminate].
    2:{ exists m1, 0. split; [reflexivity |].
        apply (same_outside_weaken _ _ _ _ _ _ Hout1); lia. }
    assert (Hl1 : length m1 = length m) by apply Hout1.
    assert (HNUL1 : m1 !! Z.to_nat E = Some NUL).
    { rewrite <- HNUL. apply Hout1. lia. }
    destruct (store_rendered_spec m1 (str + len) (maxlen - len) r)
      as (m2 & -> & Hout2 & Hterm); [lia | lia | lia |].
    assert (Hl2 : length m2 = length m1) by apply Hout2.
    assert (HNUL2 : m2 !! Z.to_nat E = Some NUL).
    { rewrite <- HNUL1. apply Hout2. lia. }
    assert (Hsl : exists len2, c_strlen m2 (str + len) = Some len2
                               /\ 0 <= len2 <= maxlen - len).
    { destruct (Z.eq_dec (maxlen - len) 0) as [Hz | Hz].
      - destruct (c_strlen_bound m2 (str + len) E NUL) as (l2 & Hl & Hb);
          [lia | assumption | reflexivity |].
        exists l2. split; [assumption | lia].
      - destruct (Hterm ltac:(lia)) as (k & Hk & Hnul).
        destruct (c_strlen_bound m2 (str + len) (str + len + k) NUL) as (l2 & Hl & Hb);
          [lia | assumption | reflexivity |].
        exists l2. split; [assumption | lia]. }
    destruct Hsl as (len2 & -> & Hlen2).
    rewrite (wrap_size_small (maxlen - len - len2)) by lia.
    destruct (IH begin "" m2 (str + len + len2) (maxlen - len - len2) ap' E)
      as (m' & r' & Hrun & Hout3);
      [simpl in Hn; lia | assumption | lia | lia | lia | lia | assumption |].
    exists m', r'. split; [exact Hrun |].
    assert (H12 : same_outside m m2 str E)
      by (apply (same_outside_trans m m1 m2 str E _ _ _ _ Hout1 Hout2); lia).
    apply (same_outside_trans m m2 m' str E _ _ _ _ H12 Hout3); lia.
Qed.

End RendererProofs.

(** ** Creating a code: the call returns *)

Lemma string_from_some (l : list ascii) (k : nat) (c : ascii) :
  l !! k = Some c -> is_nul c = true -> exists s, string_from l = Some s.
Proof.
  revert l. induction k as [| k IH]; intros [| a l] Hk Hc; try discriminate.
  - simpl in Hk. injection Hk as ->. simpl. rewrite Hc. eauto.
  - simpl in Hk. simpl. destruct (is_nul a); [eauto |].
    destruct (IH l Hk Hc) as (s & ->). simpl. eauto.
Qed.

Lemma find_msg_from_range (tbl : list msgpair) (i : Z) (msg : string) :
  find_msg_from tbl i msg = -1
  \/ i <= find_msg_from tbl i msg < i + Z.of_nat (length tbl).
Proof.
  revert i. induction tbl as [| p tbl IH]; intros i; simpl; [left; reflexivity |].
  destruct (negb (sentinal1 p =? 0xacebad03) || negb (sentinal2 p =? 0xcb0bfa11));
    [left; reflexivity |].
  destruct (strcmp (short_name p) msg).
  - right. lia.
  - destruct (IH (i + 1)); [left; assumption | right; lia].
  - destruct (strncmp (short_name p) msg (String.length msg));
      try (left; reflexivity).
    destruct (IH (i + 1)); [left; assumption | right; lia].
Qed.

Lemma table_get_find (tbl : list msgpair) (msg : string) :
  0 <= find_msg_from tbl 0 msg ->
  exists p, table_get tbl (find_msg_from tbl 0 msg) = Some p.
Proof.
  intros H. destruct (find_msg_from_range tbl 0 msg) as [Hm | Hr]; [lia |].
  unfold table_get. destruct (Z.ltb_spec (find_msg_from tbl 0 msg) 0); [lia |].
  apply lookup_lt_is_Some_2. lia.
Qed.

Lemma ring_msg_store (m : list ascii) :
  length m = Z.to_nat (MPIR_MAX_ERROR_LINE + 1) ->
  exists s,
    match mem_store m MPIR_MAX_ERROR_LINE NUL with
    | None => None
    | Some m => c_string_at m 0
    end = Some s.
Proof.
  intros Hl.
  destruct (mem_store_spec m MPIR_MAX_ERROR_LINE NUL) as (m' & -> & _ & Hn).
  { rewrite Hl. unfold MPIR_MAX_ERROR_LINE. lia. }
  unfold c_string_at. simpl.
  rewrite drop_0. eapply string_from_some; [exact Hn | reflexivity].
Qed.

Lemma ring_msg_strncpy_some (src : string) : exists s, ring_msg_strncpy src = Some s.
Proof.
  unfold ring_msg_strncpy.
  destruct (MPL_strncpy_spec (replicate (Z.to_nat (MPIR_MAX_ERROR_LINE + 1)) NUL)
              0 MPIR_MAX_ERROR_LINE src) as (m & rc & -> & [Hl _] & _).
  - lia.
  - unfold MPIR_MAX_ERROR_LINE. lia.
  - rewrite length_replicate. unfold MPIR_MAX_ERROR_LINE. lia.
  - apply ring_msg_store. rewrite Hl. apply length_replicate.
Qed.

Section CreateProofs.
Context {L : ErrLayout} {T : MsgTables} {M : MpiConsts}.

Lemma ring_msg_vsnprintf_some (fmt : string) (Argp : list va_value) :
  va_list_fits fmt Argp = true -> exists s, ring_msg_vsnprintf fmt Argp = Some s.
Proof.
  intros Hfits. unfold ring_msg_vsnprintf, vsnprintf_mpi, MPL_strdup.
  destruct (vsnprintf_mpi_from_within (String.length fmt) fmt ""
              (replicate (Z.to_nat (MPIR_MAX_ERROR_LINE + 1)) NUL)
              0 MPIR_MAX_ERROR_LINE Argp MPIR_MAX_ERROR_LINE)
    as (m & r & -> & [Hl _]).
  - lia.
  - assumption.
  - lia.
  - unfold MPIR_MAX_ERROR_LINE. lia.
  - reflexivity.
  - rewrite length_replicate. unfold MPIR_MAX_ERROR_LINE. lia.
  - apply lookup_replicate_2. unfold MPIR_MAX_ERROR_LINE. lia.
  - apply ring_msg_store. rewrite Hl. apply length_replicate.
Qed.

Lemma specific_fmt_of_some (specific_msg : string) :
  exists fmt, specific_fmt_of specific_msg = Some fmt.
Proof.
  unfold specific_fmt_of, FindSpecificMsgIndex.
  destruct (Z.leb_spec 0 (find_msg_from specific_err_msgs 0 specific_msg)); [| eauto].
  destruct (table_get_find specific_err_msgs specific_msg) as (p & ->); [assumption |].
  simpl. eauto.
Qed.

(** With arguments that fit, and a class other than MPI_ERR_IN_STATUS,
    [MPIR_Err_create_code_valist] returns the code assembled from the
    effective class, the generic index found for [generic_msg], the ring
    cursor, a sequence number, and the fatal test on the checked previous
    code. *)
Lemma create_code_returns (st : ring_state) (lastcode fatal : Z)
    (fcname : option string) (line error_class : Z) (generic_msg : string)
    (specific_msg : option string) (Argp : list va_value) :
  Argp_fits generic_msg specific_msg Argp = true ->
  effective_class (checked_lastcode st lastcode) error_class <> MPI_ERR_IN_STATUS ->
  exists ring_seq st',
    MPIR_Err_create_code_valist st lastcode fatal fcname line error_class
      generic_msg specific_msg Argp
    = Some (assembled_code (effective_class (checked_lastcode st lastcode) error_class)
              (FindGenericMsgIndex generic_msg) (error_ring_loc st) ring_seq
              (negb (fatal =? 0) || MPIR_Err_is_fatal (checked_lastcode st lastcode)),
            st').
Proof.
  intros Hfits Hcls. unfold MPIR_Err_create_code_valist.
  set (lc := checked_lastcode st lastcode) in *.
  set (cls := effective_class lc error_class) in *.
  destruct (Z.eqb_spec cls MPI_ERR_IN_STATUS) as [| _]; [contradiction |].
  set (g := FindGenericMsgIndex generic_msg) in *.
  assert (Huser : exists u, user_error_case g specific_msg Argp = Some u
            /\ (specific_msg = None \/ fst (fst u) <> 0
                \/ exists fmt, specific_msg <> None
                     /\ (forall sm, specific_msg = Some sm -> specific_fmt_of sm = Some fmt)
                     /\ va_list_fits fmt Argp = true)).
  { unfold Argp_fits in Hfits. fold g in Hfits.
    destruct specific_msg as [sm |].
    - destruct (user_error_case g (Some sm) Argp) as [[[u c] t] |]; [| discriminate].
      destruct (specific_fmt_of sm) as [fmt |] eqn:Hfmt; [| discriminate].
      eexists. split; [reflexivity |]. simpl.
      destruct (Z.eqb_spec u 0); [| tauto].
      right. right. exists fmt. split; [discriminate |]. split; [| assumption].
      intros sm' [= <-]. assumption.
    - unfold user_error_case.
      destruct (Z.leb_spec 0 g) as [Hg | Hg]; [| eexists; split; [reflexivity | tauto]].
      destruct (table_get_find generic_err_msgs generic_msg Hg) as (p & Hp).
      fold (FindGenericMsgIndex generic_msg) in Hp. fold g in Hp. rewrite Hp.
      destruct (strcmp (short_name p) "**user");
        eexists; (split; [reflexivity | tauto]). }
  destruct Huser as ([[use_user user_code] user_ring_msg] & -> & Hcase).
  cbn [fst] in Hcase.
  match goal with
  | |- context [match ?rm with Some _ => _ | None => None end] =>
    assert (Hrm : exists s, rm = Some s)
  end.
  { destruct specific_msg as [sm |].
    - destruct (specific_fmt_of_some sm) as (fmt & Hfmt). rewrite Hfmt.
      destruct (Z.eqb_spec use_user 0) as [Hu | Hu].
      + destruct Hcase as [Hc | [Hc | (fmt' & _ & Hf & Hv)]]; [discriminate | contradiction |].
        rewrite (Hf sm eq_refl) in Hfmt. injection Hfmt as ->.
        apply ring_msg_vsnprintf_some. assumption.
      + apply ring_msg_strncpy_some.
    - destruct (Z.leb_spec 0 g) as [Hg | Hg]; [| apply ring_msg_strncpy_some].
      destruct (table_get_find generic_err_msgs generic_msg Hg) as (p & Hp).
      fold (FindGenericMsgIndex generic_msg) in Hp. fold g in Hp. rewrite Hp.
      apply ring_msg_strncpy_some. }
  destruct Hrm as (ring_msg & ->).
  destruct (ErrcodeCreateID cls g ring_msg) as [id ring_seq].
  match goal with
  | |- context [let '(_, _) := ?e in _] => destruct e as [use_user' user_code']
  end.
  exists ring_seq. eexists. reflexivity.
Qed.

End CreateProofs.

(** ** Creating a code: the class and the fatal bit of the result *)

Lemma land_lnot_disjoint (a b : Z) : Z.land a b = 0 -> Z.land a (Z.lnot b) = a.
Proof.
  intros H. apply Z.bits_inj'. intros n Hn.
  assert (Hb : Z.testbit (Z.land a b) n = false) by (rewrite H; apply Z.bits_0).
  rewrite Z.land_spec in Hb. rewrite Z.land_spec, Z.lnot_spec by assumption.
  destruct (Z.testbit a n), (Z.testbit b n); simpl in *; congruence.
Qed.

Section AssembledProofs.
Context {L : ErrLayout} (HL : LayoutOk L).

Lemma class_idempotent (code : Z) :
  Z.land (MPIR_ERR_GET_CLASS code) ERROR_CLASS_MASK = MPIR_ERR_GET_CLASS code.
Proof.
  unfold MPIR_ERR_GET_CLASS. rewrite <- Z.land_assoc, Z.land_diag. reflexivity.
Qed.

Lemma effective_class_in_field (lastcode error_class : Z) :
  Z.land error_class ERROR_CLASS_MASK = error_class ->
  Z.land (effective_class lastcode error_class) ERROR_CLASS_MASK
  = effective_class lastcode error_class.
Proof.
  intros H. unfold effective_class.
  destruct (error_class =? MPI_ERR_OTHER); [| assumption].
  destruct ((MPI_SUCCESS <? MPIR_ERR_GET_CLASS lastcode)
            && (MPIR_ERR_GET_CLASS lastcode <=? MPICH_ERR_LAST_MPIX)).
  - apply class_idempotent.
  - apply (lo_other L HL).
Qed.

Lemma shifted_off_class (x s : Z) :
  ERROR_GENERIC_SHIFT <= s ->
  Z.land (wrap32 (Z.shiftl x s)) ERROR_CLASS_MASK = 0.
Proof.
  intros Hs. apply (land_wrap32_shiftl x s _ ERROR_GENERIC_SHIFT).
  - apply (lo_generic_shift L HL).
  - assumption.
  - split; [apply (lo_class_nonneg L HL) | apply (lo_class_lt L HL)].
Qed.

Lemma shifted_off_fatal (x s : Z) :
  ERROR_GENERIC_SHIFT <= s ->
  Z.land (wrap32 (Z.shiftl x s)) ERROR_FATAL_MASK = 0.
Proof.
  intros Hs. apply (land_wrap32_shiftl x s _ ERROR_GENERIC_SHIFT).
  - apply (lo_generic_shift L HL).
  - assumption.
  - pose proof (lo_fatal_pos L HL). pose proof (lo_fatal_lt L HL). lia.
Qed.

Lemma assembled_code_class (cls g i s : Z) (fatal : bool) :
  Z.land cls ERROR_CLASS_MASK = cls ->
  MPIR_ERR_GET_CLASS (assembled_code cls g i s fatal) = cls.
Proof.
  intros Hcls. unfold MPIR_ERR_GET_CLASS, assembled_code.
  assert (Hbase : Z.land (if 0 <=? g
                          then Z.lor cls (wrap32 (Z.shiftl (g + 1) ERROR_GENERIC_SHIFT))
                          else Z.land cls (Z.lnot ERROR_GENERIC_MASK))
                         ERROR_CLASS_MASK = cls).
  { destruct (0 <=? g).
    - rewrite Z.land_lor_distr_l, Hcls, shifted_off_class by lia. apply Z.lor_0_r.
    - rewrite <- Z.land_assoc, (Z.land_comm (Z.lnot _)).
      rewrite (land_lnot_disjoint _ _ (lo_class_generic L HL)). assumption. }
  assert (Hrest : Z.land
                    (Z.lor (Z.lor (if 0 <=? g
                                   then Z.lor cls (wrap32 (Z.shiftl (g + 1) ERROR_GENERIC_SHIFT))
                                   else Z.land cls (Z.lnot ERROR_GENERIC_MASK))
                                  (wrap32 (Z.shiftl i ERROR_SPECIFIC_INDEX_SHIFT)))
                           (wrap32 (Z.shiftl s ERROR_SPECIFIC_SEQ_SHIFT)))
                    ERROR_CLASS_MASK = cls).
  { rewrite !Z.land_lor_distr_l, Hbase.
    rewrite (shifted_off_class i) by apply (lo_index_shift L HL).
    rewrite (shifted_off_class s) by apply (lo_seq_shift L HL).
    rewrite !Z.lor_0_r. reflexivity. }
  destruct fatal; [| exact Hrest].
  rewrite Z.land_lor_distr_l, Hrest.
  rewrite (Z.land_comm ERROR_FATAL_MASK), (lo_class_fatal L HL). apply Z.lor_0_r.
Qed.

Lemma assembled_code_fatal (cls g i s : Z) (fatal : bool) :
  Z.land cls ERROR_CLASS_MASK = cls ->
  Z.land (assembled_code cls g i s fatal) ERROR_FATAL_MASK
  = if fatal then ERROR_FATAL_MASK else 0.
Proof.
  intros Hcls. unfold assembled_code.
  assert (Hc : Z.land cls ERROR_FATAL_MASK = 0)
    by (apply (land_disjoint cls ERROR_CLASS_MASK); [assumption | apply (lo_class_fatal L HL)]).
  assert (Hbase : Z.land (if 0 <=? g
                          then Z.lor cls (wrap32 (Z.shiftl (g + 1) ERROR_GENERIC_SHIFT))
                          else Z.land cls (Z.lnot ERROR_GENERIC_MASK))
                         ERROR_FATAL_MASK = 0).
  { destruct (0 <=? g).
    - rewrite Z.land_lor_distr_l, Hc, shifted_off_fatal by lia. reflexivity.
    - rewrite <- Z.land_assoc, (Z.land_comm (Z.lnot _)), Z.land_assoc, Hc.
      apply Z.land_0_l. }
  assert (Hrest : Z.land
                    (Z.lor (Z.lor (if 0 <=? g
                                   then Z.lor cls (wrap32 (Z.shiftl (g + 1) ERROR_GENERIC_SHIFT))
                                   else Z.land cls (Z.lnot ERROR_GENERIC_MASK))
                                  (wrap32 (Z.shiftl i ERROR_SPECIFIC_INDEX_SHIFT)))
                           (wrap32 (Z.shiftl s ERROR_SPECIFIC_SEQ_SHIFT)))
                    ERROR_FATAL_MASK = 0).
  { rewrite !Z.land_lor_distr_l, Hbase.
    rewrite (shifted_off_fatal i) by apply (lo_index_shift L HL).
    rewrite (shifted_off_fatal s) by apply (lo_seq_shift L HL).
    reflexivity. }
  destruct fatal; [| exact Hrest].
  rewrite Z.land_lor_distr_l, Hrest, Z.land_diag. reflexivity.
Qed.

End AssembledProofs.

Section CreateTheorems.
Context {L : ErrLayout} {T : MsgTables} {M : MpiConsts} (HL : LayoutOk L).

(** C5.  When the effective class of a call is MPI_ERR_IN_STATUS, the code
    returned is that class value and nothing else: the ring and its cursors
    are left as they are (no entry is used, the previous code is not
    chained), and the value has no bit in the generic, ring-index, sequence
    or fatal fields. *)
Theorem create_code_in_status_is_bare (st : ring_state) (lastcode fatal : Z)
    (fcname : option string) (line error_class : Z) (generic_msg : string)
    (specific_msg : option string) (Argp : list va_value) :
  effective_class (checked_lastcode st lastcode) error_class = MPI_ERR_IN_STATUS ->
  MPIR_Err_create_code_valist st lastcode fatal fcname line error_class
    generic_msg specific_msg Argp = Some (MPI_ERR_IN_STATUS, st)
  /\ Z.land MPI_ERR_IN_STATUS ERROR_GENERIC_MASK = 0
  /\ Z.land MPI_ERR_IN_STATUS ERROR_SPECIFIC_INDEX_MASK = 0
  /\ Z.land MPI_ERR_IN_STATUS ERROR_SPECIFIC_SEQ_MASK = 0
  /\ Z.land MPI_ERR_IN_STATUS ERROR_FATAL_MASK = 0.
Proof.
  intros Hcls. split.
  - unfold MPIR_Err_create_code_valist. rewrite Hcls, Z.eqb_refl. reflexivity.
  - pose proof (lo_in_status L HL) as Hin.
    repeat split; apply (land_disjoint _ _ _ Hin);
      [apply (lo_class_generic L HL) | apply (lo_class_index L HL)
       | apply (lo_class_seq L HL) | apply (lo_class_fatal L HL)].
Qed.

(** C9, as the code has it.  For a call whose arguments fit, whose class
    argument lies in the class field, and whose effective class is not
    MPI_ERR_IN_STATUS: the call returns a code, and the fatal bit of that
    code is set exactly when [fatal] is nonzero or the previous code is
    fatal for [MPIR_Err_is_fatal] after the validity check of the routine,
    which replaces a previous code that [checkErrcodeIsValid] rejects by
    MPI_SUCCESS. *)
Theorem create_code_fatal_bit (st : ring_state) (lastcode fatal : Z)
    (fcname : option string) (line error_class : Z) (generic_msg : string)
    (specific_msg : option string) (Argp : list va_value) :
  Argp_fits generic_msg specific_msg Argp = true ->
  Z.land error_class ERROR_CLASS_MASK = error_class ->
  effective_class (checked_lastcode st lastcode) error_class <> MPI_ERR_IN_STATUS ->
  exists code st',
    MPIR_Err_create_code_valist st lastcode fatal fcname line error_class
      generic_msg specific_msg Argp = Some (code, st')
    /\ (Z.land code ERROR_FATAL_MASK <> 0 <->
        fatal <> 0 \/ MPIR_Err_is_fatal (checked_lastcode st lastcode) = true)
    /\ (lastcode = MPI_SUCCESS \/ checkErrcodeIsValid st lastcode = 0 ->
        checked_lastcode st lastcode = lastcode)
    /\ (lastcode <> MPI_SUCCESS -> checkErrcodeIsValid st lastcode <> 0 ->
        checked_lastcode st lastcode = MPI_SUCCESS).
Proof.
  intros Hfits Hfield Hcls.
  destruct (create_code_returns st lastcode fatal fcname line error_class
              generic_msg specific_msg Argp Hfits Hcls) as (ring_seq & st' & Hrun).
  eexists _, st'. split; [exact Hrun |]. split; [| split].
  - rewrite (assembled_code_fatal HL)
      by (apply (effective_class_in_field HL); assumption).
    pose proof (lo_fatal_pos L HL).
    destruct (Z.eqb_spec fatal 0) as [H0 | H0]; cbn [negb orb].
    + destruct (MPIR_Err_is_fatal (checked_lastcode st lastcode));
        split; intros; try lia; intuition congruence.
    + split; intros; [tauto | lia].
  - unfold checked_lastcode, MPI_SUCCESS. intros [-> | Hv].
    + reflexivity.
    + rewrite Hv. destruct (negb (lastcode =? 0)); reflexivity.
  - unfold checked_lastcode, MPI_SUCCESS. intros Hn Hv.
    destruct (Z.eqb_spec lastcode 0); [contradiction |].
    destruct (Z.eqb_spec (checkErrcodeIsValid st lastcode) 0); [contradiction | reflexivity].
Qed.

(** C10, as the code has it.  A call with the class MPI_ERR_OTHER and
    arguments that fit returns a code.  When the previous code is not
    success, passes the validity check of the routine, and has a class
    above success and at most MPICH_ERR_LAST_MPIX, the new code carries that
    class; when the previous code is success, or fails the validity check,
    or has class success or a class above MPICH_ERR_LAST_MPIX, the new code
    carries MPI_ERR_OTHER. *)
Theorem create_code_other_takes_previous_class (st : ring_state)
    (lastcode fatal : Z) (fcname : option string) (line : Z)
    (generic_msg : string) (specific_msg : option string) (Argp : list va_value) :
  Argp_fits generic_msg specific_msg Argp = true ->
  exists code st',
    MPIR_Err_create_code_valist st lastcode fatal fcname line MPI_ERR_OTHER
      generic_msg specific_msg Argp = Some (code, st')
    /\ (lastcode <> MPI_SUCCESS -> checkErrcodeIsValid st lastcode = 0 ->
        MPI_SUCCESS < MPIR_ERR_GET_CLASS lastcode <= MPICH_ERR_LAST_MPIX ->
        MPIR_ERR_GET_CLASS code = MPIR_ERR_GET_CLASS lastcode)
    /\ (lastcode = MPI_SUCCESS \/ checkErrcodeIsValid st lastcode <> 0
        \/ MPIR_ERR_GET_CLASS lastcode = MPI_SUCCESS
        \/ MPICH_ERR_LAST_MPIX < MPIR_ERR_GET_CLASS lastcode ->
        MPIR_ERR_GET_CLASS code = MPI_ERR_OTHER).
Proof.
  intros Hfits.
  set (lc := checked_lastcode st lastcode).
  set (cls := effective_class lc MPI_ERR_OTHER).
  assert (Hfield : Z.land cls ERROR_CLASS_MASK = cls)
    by (apply (effective_class_in_field HL), (lo_other L HL)).
  assert (Hrun : exists code st',
             MPIR_Err_create_code_valist st lastcode fatal fcname line MPI_ERR_OTHER
               generic_msg specific_msg Argp = Some (code, st')
             /\ MPIR_ERR_GET_CLASS code = cls).
  { destruct (Z.eq_dec cls MPI_ERR_IN_STATUS) as [Hin | Hin].
    - exists MPI_ERR_IN_STATUS, st.
      split; [| rewrite Hin; exact (lo_in_status L HL)].
      unfold MPIR_Err_create_code_valist. fold lc. fold cls.
      rewrite Hin, Z.eqb_refl. reflexivity.
    - destruct (create_code_returns st lastcode fatal fcname line MPI_ERR_OTHER
                  generic_msg specific_msg Argp Hfits Hin) as (ring_seq & st' & Hrun).
      eexists _, st'. split; [exact Hrun |].
      apply (assembled_code_class HL). assumption. }
  destruct Hrun as (code & st' & Hrun & Hclass).
  exists code, st'. split; [exact Hrun |]. rewrite Hclass.
  unfold cls, effective_class, lc, checked_lastcode, MPI_SUCCESS.
  rewrite Z.eqb_refl. split.
  - intros Hn Hv Hrange.
    destruct (Z.eqb_spec lastcode 0); [contradiction |]. rewrite Hv. cbn.
    destruct (Z.ltb_spec 0 (MPIR_ERR_GET_CLASS lastcode)); [| lia].
    destruct (Z.leb_spec (MPIR_ERR_GET_CLASS lastcode) MPICH_ERR_LAST_MPIX); [| lia].
    reflexivity.
  - intros Hcases.
    assert (Hzero : MPIR_ERR_GET_CLASS 0 = 0) by apply Z.land_0_l.
    destruct (Z.eqb_spec lastcode 0) as [-> | Hn]; cbn [negb].
    { rewrite Hzero. reflexivity. }
    destruct (Z.eqb_spec (checkErrcodeIsValid st lastcode) 0) as [Hv | Hv]; cbn [negb].
    2:{ rewrite Hzero. reflexivity. }
    destruct Hcases as [? | [? | [Hc | Hc]]]; [contradiction | contradiction | |].
    + rewrite Hc. reflexivity.
    + destruct (Z.leb_spec (MPIR_ERR_GET_CLASS lastcode) MPICH_ERR_LAST_MPIX); [lia |].
      rewrite andb_false_r. reflexivity.
Qed.

End CreateTheorems.

Section CreateExamples.
#[local] Existing Instance reference_layout.
#[local] Existing Instance sample_tables.
#[local] Existing Instance sample_consts.

Lemma create_code_in_status_is_bare_witness :
  LayoutOk reference_layout
  /\ effective_class (checked_lastcode initial_ring 0) 17 = MPI_ERR_IN_STATUS
  /\ MPIR_Err_create_code_valist initial_ring 0 1 (Some "MPI_Waitall") 120 17
       "**fail" None [] = Some (17, initial_ring).
Proof.
  split; [exact reference_layout_ok |]. split; [reflexivity |].
  apply (create_code_in_status_is_bare reference_layout_ok initial_ring 0 1
           (Some "MPI_Waitall") 120 17 "**fail" None []).
  reflexivity.
Defined.

Lemma create_code_fatal_bit_witness :
  LayoutOk reference_layout
  /\ Argp_fits "**fail" None [] = true
  /\ Z.land 5 ERROR_CLASS_MASK = 5
  /\ effective_class (checked_lastcode initial_ring 0) 5 <> MPI_ERR_IN_STATUS
  /\ exists code st',
       MPIR_Err_create_code_valist initial_ring 0 1 (Some "f") 1 5 "**fail" None []
       = Some (code, st')
       /\ Z.land code ERROR_FATAL_MASK <> 0.
Proof.
  split; [exact reference_layout_ok |]. split; [reflexivity |].
  split; [reflexivity |]. split; [vm_compute; discriminate |].
  destruct (create_code_fatal_bit reference_layout_ok initial_ring 0 1 (Some "f") 1 5
              "**fail" None [] eq_refl eq_refl ltac:(vm_compute; discriminate))
    as (code & st' & Hrun & Hbit & _).
  exists code, st'. split; [exact Hrun |].
  apply Hbit. left. discriminate.
Defined.

(** C9, as the claim states it, fails: the previous code [0x285] has its
    fatal bit set and is not dynamic, so [MPIR_Err_is_fatal] classifies it
    fatal; its ring slot does not hold its entry, so the routine drops it;
    with [fatal] 0 the new code [0x20000205] has no fatal bit. *)
Lemma create_code_fatal_bit_counterexample :
  MPIR_Err_is_fatal 0x285 = true
  /\ effective_class (checked_lastcode initial_ring 0x285) 5 <> MPI_ERR_IN_STATUS
  /\ option_map fst (MPIR_Err_create_code_valist initial_ring 0x285 0 (Some "f") 1 5
                       "**fail" None []) = Some 0x20000205
  /\ Z.land 0x20000205 ERROR_FATAL_MASK = 0.
Proof. vm_compute. repeat split; discriminate. Qed.

Lemma create_code_other_takes_previous_class_witness :
  LayoutOk reference_layout
  /\ Argp_fits "**fail" None [] = true
  /\ exists code st',
       MPIR_Err_create_code_valist initial_ring 5 0 (Some "f") 1 MPI_ERR_OTHER
         "**fail" None [] = Some (code, st')
       /\ MPIR_ERR_GET_CLASS code = 5.
Proof.
  split; [exact reference_layout_ok |]. split; [reflexivity |].
  destruct (create_code_other_takes_previous_class reference_layout_ok initial_ring 5 0
              (Some "f") 1 "**fail" None [] eq_refl)
    as (code & st' & Hrun & Hclass & _).
  exists code, st'. split; [exact Hrun |].
  apply Hclass; vm_compute; [discriminate | reflexivity | split; [reflexivity | discriminate]].
Defined.

(** C10, as the claim states it, fails: the previous code [0x205] is not
    success and its class, 5, is a valid class above success; its ring slot
    does not hold its entry, so the routine drops it, and the new code
    [0x2000020f] keeps the class MPI_ERR_OTHER. *)
Lemma create_code_other_takes_previous_class_counterexample :
  0x205 <> MPI_SUCCESS
  /\ is_valid_error_class (MPIR_ERR_GET_CLASS 0x205) = true
  /\ MPI_SUCCESS < MPIR_ERR_GET_CLASS 0x205
  /\ option_map fst (MPIR_Err_create_code_valist initial_ring 0x205 0 (Some "f") 1
                       MPI_ERR_OTHER "**fail" None []) = Some 0x2000020f
  /\ MPIR_ERR_GET_CLASS 0x2000020f = MPI_ERR_OTHER
  /\ MPIR_ERR_GET_CLASS 0x2000020f <> MPIR_ERR_GET_CLASS 0x205.
Proof. vm_compute. repeat split; discriminate. Qed.

End CreateExamples.

(** ** Chains in the ring *)

Lemma ring_get_set_eq (r : list MPIR_Err_msg_t) (i : Z) (e : MPIR_Err_msg_t) :
  (Z.to_nat i < length r)%nat -> ring_get (ring_set r i e) i = e.
Proof.
  intros Hi. unfold ring_get, ring_set.
  rewrite list_lookup_insert_eq by assumption. reflexivity.
Qed.

Lemma ring_get_set_ne (r : list MPIR_Err_msg_t) (i j : Z) (e : MPIR_Err_msg_t) :
  0 <= i -> 0 <= j -> i <> j -> ring_get (ring_set r i e) j = ring_get r j.
Proof.
  intros Hi Hj Hne. unfold ring_get, ring_set.
  rewrite list_lookup_insert_ne by lia. reflexivity.
Qed.

Lemma ring_set_same (r : list MPIR_Err_msg_t) (i : Z) :
  ring_set r i (set_prev_error (ring_get r i) (prev_error (ring_get r i))) = r.
Proof.
  unfold ring_get, ring_set.
  destruct (r !! Z.to_nat i) as [e |] eqn:He.
  - apply list_insert_id. rewrite He. destruct e; reflexivity.
  - apply list_insert_ge. apply lookup_ge_None. assumption.
Qed.

Lemma ring_get_set_msg_id (r : list MPIR_Err_msg_t) (i j v : Z) :
  msg_id (ring_get (ring_set r i (set_prev_error (ring_get r i) v)) j)
  = msg_id (ring_get r j).
Proof.
  unfold ring_get, ring_set.
  destruct (Nat.eq_dec (Z.to_nat i) (Z.to_nat j)) as [Heq | Hne].
  - rewrite <- Heq. destruct (r !! Z.to_nat i) as [e |] eqn:He.
    + rewrite list_lookup_insert_eq by (apply lookup_lt_is_Some; eauto). reflexivity.
    + rewrite list_insert_ge by (apply lookup_ge_None; assumption).
      rewrite He. reflexivity.
  - rewrite list_lookup_insert_ne by assumption. reflexivity.
Qed.

Section ChainProofs.
Context {L : ErrLayout}.

Lemma link_of_success (st : ring_state) : link_of st MPI_SUCCESS = None.
Proof.
  unfold link_of, convertErrcodeToIndexes, MPI_SUCCESS.
  rewrite !Z.land_0_l, !Z.shiftr_0_l. simpl.
  destruct ((MAX_ERROR_RING <=? 0) || (max_error_ring_loc st <? 0)); reflexivity.
Qed.

Lemma link_of_nonneg (st : ring_state) (code i : Z) :
  link_of st code = Some i -> 0 <= i < MAX_ERROR_RING.
Proof.
  unfold link_of, convertErrcodeToIndexes.
  set (ix := Build_indexes _ _ _). clearbody ix.
  destruct (Z.ltb_spec (ix_ring_idx ix) 0); cbn; [intros [=] |].
  destruct (Z.leb_spec MAX_ERROR_RING (ix_ring_idx ix)); cbn; [intros [=] |].
  destruct (max_error_ring_loc st <? ix_ring_idx ix); cbn; [intros [=] |].
  destruct ((0 <=? ix_generic_idx ix)
            && (msg_id (ring_get (ErrorRing st) (ix_ring_idx ix)) =? ix_ring_id ix));
    [| intros [=]].
  intros [= <-]. lia.
Qed.

(** Two rings with the same cursor and the same ids have the same links. *)
Lemma link_of_same_ids (st st' : ring_state) (code : Z) :
  max_error_ring_loc st' = max_error_ring_loc st ->
  (forall j, msg_id (ring_get (ErrorRing st') j) = msg_id (ring_get (ErrorRing st) j)) ->
  link_of st' code = link_of st code.
Proof.
  intros Hmax Hid. unfold link_of, convertErrcodeToIndexes.
  rewrite Hmax. set (ix := Build_indexes _ _ _). clearbody ix.
  destruct ((ix_ring_idx ix <? 0) || (MAX_ERROR_RING <=? ix_ring_idx ix)
            || (max_error_ring_loc st <? ix_ring_idx ix));
    cbv beta iota; rewrite Hid; reflexivity.
Qed.

Lemma chain_deterministic (st : ring_state) (code : Z) (l l' : list Z) (f f' : Z) :
  chain st code l f -> chain st code l' f' -> l = l' /\ f = f'.
Proof.
  intros H. revert l' f'.
  induction H as [code Hn | code i rest final Hl Hc IH]; intros l' f' H'.
  - inversion H'; subst; [split; reflexivity | congruence].
  - inversion H' as [| ? i' rest' ? Hl' Hc']; subst; [congruence |].
    rewrite Hl in Hl'. injection Hl' as <-.
    destruct (IH _ _ Hc') as [-> ->]. split; reflexivity.
Qed.

Lemma chain_suffix (st : ring_state) (l1 l2 : list Z) (code f : Z) :
  chain st code (l1 ++ l2) f -> exists code', chain st code' l2 f.
Proof.
  revert code. induction l1 as [| i l1 IH]; intros code H.
  - exists code. exact H.
  - inversion H; subst. eapply IH. eassumption.
Qed.

Lemma chain_nonneg (st : ring_state) (code : Z) (l : list Z) (f : Z) :
  chain st code l f -> Forall (fun i => 0 <= i < MAX_ERROR_RING) l.
Proof.
  induction 1 as [| code i rest final Hl Hc IH]; constructor; [| assumption].
  eapply link_of_nonneg. eassumption.
Qed.

(** A chain visits no slot twice: a second visit would start the same walk
    again, and the walk would not end. *)
Lemma chain_NoDup (st : ring_state) (code : Z) (l : list Z) (f : Z) :
  chain st code l f -> NoDup l.
Proof.
  induction 1 as [| code i rest final Hl Hc IH]; constructor; [| assumption].
  intros Hin. apply list_elem_of_split in Hin as (l1 & l2 & ->).
  destruct (chain_suffix st l1 (i :: l2) _ _ Hc) as (code' & Hc').
  inversion Hc' as [| ? ? ? ? _ Hc2]; subst.
  destruct (chain_deterministic _ _ _ _ _ _ Hc Hc2) as [Heq _].
  apply (f_equal length) in Heq. rewrite length_app in Heq. simpl in Heq. lia.
Qed.

Lemma chain_root (st : ring_state) (l : list Z) (f : Z) :
  chain st MPI_SUCCESS l f -> l = [] /\ f = MPI_SUCCESS.
Proof.
  intros H. inversion H; subst; [split; reflexivity |].
  rewrite link_of_success in *. discriminate.
Qed.



End ChainProofs.

(** ** Combining two chains *)

Section CombineProofs.
Context {L : ErrLayout}.

Lemma combine_loop_step (fuel : nat) (st : ring_state) (code b cls : Z) :
  CombineSpecificCodes_loop (S fuel) st code b cls =
  match link_of st code with
  | None => Some st
  | Some i =>
    let e := ring_get (ErrorRing st) i in
    if prev_error e =? MPI_SUCCESS
    then Some (with_ring st (ring_set (ErrorRing st) i (set_prev_error e b)))
    else CombineSpecificCodes_loop fuel
           (if MPIR_ERR_GET_CLASS (prev_error e) =? MPI_ERR_OTHER
            then with_ring st (ring_set (ErrorRing st) i
                                 (set_prev_error e (replace_class (prev_error e) cls)))
            else st)
           (prev_error e) b cls
  end.
Proof.
  cbn [CombineSpecificCodes_loop]. unfold link_of.
  destruct (convertErrcodeToIndexes st code) as [rc ix].
  rewrite Z.ltb_antisym.
  destruct (rc =? 0); destruct (0 <=? ix_generic_idx ix);
    destruct (msg_id (ring_get (ErrorRing st) (ix_ring_idx ix)) =? ix_ring_id ix);
    reflexivity.
Qed.

Lemma combine_loop_chain (st0 : ring_state) (code : Z) (links : list Z) (final : Z) :
  chain st0 code links final ->
  forall (st : ring_state) (fuel : nat) (b cls : Z),
    max_error_ring_loc st = max_error_ring_loc st0 ->
    (forall j, msg_id (ring_get (ErrorRing st) j) = msg_id (ring_get (ErrorRing st0) j)) ->
    (forall i, i ∈ links -> ring_get (ErrorRing st) i = ring_get (ErrorRing st0) i) ->
    (length links < fuel)%nat ->
    exists st',
      CombineSpecificCodes_loop fuel st code b cls = Some st'
      /\ ErrorRing st' = combine_ring (ErrorRing st) links b cls
      /\ error_ring_loc st' = error_ring_loc st
      /\ max_error_ring_loc st' = max_error_ring_loc st.
Proof.
  intros Hc. pose proof (chain_NoDup _ _ _ _ Hc) as Hnd.
  pose proof (chain_nonneg _ _ _ _ Hc) as Hpos. revert Hnd Hpos.
  induction Hc as [code Hn | code i rest final Hl Hc IH];
    intros Hnd Hpos st fuel b cls Hmax Hid Hagree Hfuel.
  - destruct fuel as [| fuel]; [simpl in Hfuel; lia |].
    rewrite combine_loop_step, (link_of_same_ids st0 st code Hmax Hid), Hn.
    exists st. repeat split; reflexivity.
  - destruct fuel as [| fuel]; [simpl in Hfuel; lia |].
    apply NoDup_cons in Hnd as [Hi Hnd].
    apply Forall_cons in Hpos as [Hi0 Hpos].
    rewrite combine_loop_step, (link_of_same_ids st0 st code Hmax Hid), Hl.
    cbv zeta. rewrite (Hagree i) by (apply elem_of_cons; left; reflexivity).
    set (e := ring_get (ErrorRing st0) i) in *.
    assert (Hget : ring_get (ErrorRing st) i = e)
      by (apply Hagree, elem_of_cons; left; reflexivity).
    cbn [combine_ring fold_left]. fold (combine_ring
      (ring_set (ErrorRing st) i
         (set_prev_error (ring_get (ErrorRing st) i)
            (relink (prev_error (ring_get (ErrorRing st) i)) b cls))) rest b cls).
    rewrite Hget.
    destruct (Z.eqb_spec (prev_error e) MPI_SUCCESS) as [Hz | Hz].
    + rewrite Hz in Hc. apply chain_root in Hc as [-> ->].
      eexists. split; [reflexivity |].
      unfold relink. rewrite Hz. cbn. repeat split; reflexivity.
    + set (st1 := if MPIR_ERR_GET_CLASS (prev_error e) =? MPI_ERR_OTHER
                  then with_ring st (ring_set (ErrorRing st) i
                                       (set_prev_error e (replace_class (prev_error e) cls)))
                  else st).
      assert (Hring : ErrorRing st1
                      = ring_set (ErrorRing st) i
                          (set_prev_error e (relink (prev_error e) b cls))).
      { unfold st1, relink.
        destruct (Z.eqb_spec (prev_error e) MPI_SUCCESS); [contradiction |].
        destruct (MPIR_ERR_GET_CLASS (prev_error e) =? MPI_ERR_OTHER); [reflexivity |].
        rewrite <- Hget. symmetry. apply ring_set_same. }
      assert (Hloc : error_ring_loc st1 = error_ring_loc st
                     /\ max_error_ring_loc st1 = max_error_ring_loc st).
      { unfold st1. destruct (MPIR_ERR_GET_CLASS (prev_error e) =? MPI_ERR_OTHER);
          split; reflexivity. }
      destruct Hloc as [Hloc1 Hloc2].
      destruct (IH Hnd Hpos st1 fuel b cls) as (st' & Hrun & Hr & Hl1 & Hl2).
      * congruence.
      * intros j. rewrite Hring, <- Hget, ring_get_set_msg_id. apply Hid.
      * intros j Hj. rewrite Hring.
        rewrite ring_get_set_ne.
        -- apply Hagree, elem_of_cons. right. assumption.
        -- lia.
        -- rewrite Forall_forall in Hpos. apply Hpos in Hj. lia.
        -- intros ->. contradiction.
      * simpl in Hfuel. lia.
      * exists st'. split; [exact Hrun |]. rewrite Hr, Hring.
        repeat split; congruence.
Qed.

Lemma combine_ring_get (links : list Z) :
  forall (r : list MPIR_Err_msg_t) (b cls j : Z),
    NoDup links -> Forall (fun i => 0 <= i) links -> 0 <= j ->
    (forall i, i ∈ links -> (Z.to_nat i < length r)%nat) ->
    (j ∈ links ->
     ring_get (combine_ring r links b cls) j
     = set_prev_error (ring_get r j) (relink (prev_error (ring_get r j)) b cls))
    /\ (j ∉ links -> ring_get (combine_ring r links b cls) j = ring_get r j).
Proof.
  induction links as [| i rest IH]; intros r b cls j Hnd Hpos Hj Hlen.
  - split; [intros Hin; inversion Hin | reflexivity].
  - apply NoDup_cons in Hnd as [Hi Hnd].
    apply Forall_cons in Hpos as [Hi0 Hpos].
    cbn [combine_ring fold_left].
    set (r1 := ring_set r i _).
    fold (combine_ring r1 rest b cls).
    destruct (IH r1 b cls j Hnd Hpos Hj) as [Hin Hout].
    { intros k Hk. unfold r1, ring_set. rewrite length_insert.
      apply Hlen, elem_of_cons. right. assumption. }
    assert (Hother : i <> j -> ring_get r1 j = ring_get r j)
      by (intros; apply ring_get_set_ne; lia).
    split.
    + intros Hjin. apply elem_of_cons in Hjin as [-> | Hjin].
      * rewrite Hout by assumption. unfold r1.
        apply ring_get_set_eq, Hlen, elem_of_cons. left. reflexivity.
      * rewrite Hin by assumption. rewrite Hother; [reflexivity |].
        intros ->. contradiction.
    + intros Hjout. rewrite Hout.
      * apply Hother. intros ->. apply Hjout, elem_of_cons. left. reflexivity.
      * intros Hjin. apply Hjout, elem_of_cons. right. assumption.
Qed.


End CombineProofs.

Section ChainTransfer.
Context {L : ErrLayout}.



End ChainTransfer.

Section CombineTheorem.
Context {L : ErrLayout} (HL : LayoutOk L).


End CombineTheorem.

Section CombineChainExamples.
#[local] Existing Instance reference_layout.
#[local] Existing Instance sample_tables.
#[local] Existing Instance sample_consts.

(** The two-link ring is the ring two calls of
    [MPIR_Err_create_code_valist] leave. *)
Lemma two_link_ring_created :
  exists st1,
    MPIR_Err_create_code_valist initial_ring 0 0 (Some "f") 10 5 "**fail"
      (Some "old %d") [VA_int 1] = Some (0x205, st1)
    /\ MPIR_Err_create_code_valist st1 0x205 0 (Some "g") 20 MPI_ERR_OTHER "**fail"
         (Some "new %d") [VA_int 2] = Some (0x30080205, two_link_ring).
Proof.
  eexists. split; [vm_compute; reflexivity |].
  vm_compute. reflexivity.
Qed.

Lemma two_link_chain : chain two_link_ring 0x30080205 [1; 0] MPI_SUCCESS.
Proof.
  apply chain_link; [vm_compute; reflexivity |].
  apply (chain_link two_link_ring 0x205 0 [] 0); [vm_compute; reflexivity |].
  apply chain_stop. vm_compute. reflexivity.
Qed.



(** The ring with the chain of class MPI_ERR_OTHER is the ring three calls
    of [MPIR_Err_create_code_valist] leave. *)
Lemma other_class_ring_created :
  exists st1 st2,
    MPIR_Err_create_code_valist initial_ring 0 0 (Some "f") 10 MPI_ERR_OTHER "**fail"
      (Some "old %d") [VA_int 1] = Some (0x20f, st1)
    /\ MPIR_Err_create_code_valist st1 0x20f 0 (Some "g") 20 MPI_ERR_OTHER "**fail"
         (Some "new %d") [VA_int 2] = Some (0x3008020f, st2)
    /\ MPIR_Err_create_code_valist st2 0 0 (Some "h") 30 5 "**comm" None []
       = Some (0x20100105, other_class_ring).
Proof.
  eexists. eexists. split; [vm_compute; reflexivity |].
  split; [vm_compute; reflexivity |].
  vm_compute. reflexivity.
Qed.

(** Where a class is replaced the chains are not merged.  In that ring the
    walk from [0x3008020f] visits slots 1 and 0 and ends at success, and
    [0x20100105] is combined onto it.  The previous code of the last link,
    slot 0, becomes [0x20100105]; but the previous code of slot 1, of class
    MPI_ERR_OTHER, becomes [0x205], which refers to no entry, and so does
    the code returned, [0x30080205]: the walk from the first code now stops
    after slot 1, and the walk from the code returned visits nothing. *)
Lemma MPIR_Err_combine_codes_other_class_example :
  chain other_class_ring 0x3008020f [1; 0] MPI_SUCCESS
  /\ exists st',
       MPIR_Err_combine_codes 3 other_class_ring 0x3008020f 0x20100105
       = Some (0x30080205, st')
       /\ prev_error (ring_get (ErrorRing st') 0) = 0x20100105
       /\ chain st' 0x3008020f [1] 0x205
       /\ chain st' 0x30080205 [] 0x30080205.
Proof.
  split.
  { apply (chain_link other_class_ring 0x3008020f 1 [0] 0); [vm_compute; reflexivity |].
    apply (chain_link other_class_ring 0x20f 0 [] 0); [vm_compute; reflexivity |].
    apply chain_stop. vm_compute. reflexivity. }
  destruct (MPIR_Err_combine_codes 3 other_class_ring 0x3008020f 0x20100105)
    as [[ret st'] |] eqn:Hrun; [| vm_compute in Hrun; discriminate].
  vm_compute in Hrun. injection Hrun as <- <-.
  eexists. split; [reflexivity |]. split; [vm_compute; reflexivity |].
  split.
  - eapply chain_link; [vm_compute; reflexivity |].
    apply chain_stop. vm_compute. reflexivity.
  - apply chain_stop. vm_compute. reflexivity.
Qed.

End CombineChainExamples.

(** ** The instance string without the stack *)

Lemma snprintf_then_terminate (m : list ascii) (buf n : Z) (text : string) :
  0 <= buf -> 1 <= n < 2 ^ 64 -> buf + n <= Z.of_nat (length m) ->
  exists m1 m2,
    c_snprintf m buf (wrap_size n) text = Some m1
    /\ mem_store m1 (buf + (n - 1)) NUL = Some m2
    /\ same_outside m m2 buf (buf + n)
    /\ take (length (text_prefix (n - 1) text) + 1) (drop (Z.to_nat buf) m2)
       = (text_prefix (n - 1) text ++ [NUL])%list.
Proof.
  intros Hb Hn Hfit. unfold wrap_size. rewrite Z.mod_small by lia.
  unfold c_snprintf. destruct (Z.eqb_spec n 0); [lia |].
  set (frag := text_prefix (n - 1) text).
  pose proof (length_text_prefix (n - 1) text ltac:(lia)) as Hlen. fold frag in Hlen.
  destruct (terminated_write m buf n frag) as (m1 & Hw & Hout1 & Hnul & Hin); [lia .. |].
  destruct (mem_store_spec m1 (buf + (n - 1)) NUL) as (m2 & Hs & Hout2 & Hlast).
  { destruct Hout1 as [Hl _]. lia. }
  exists m1, m2. split; [exact Hw |]. split; [exact Hs |]. split.
  - apply (same_outside_trans m m1 m2 buf (buf + n) _ _ _ _ Hout1 Hout2); lia.
  - apply list_eq. intros k.
    destruct (Nat.lt_ge_cases k (length frag + 1)) as [Hk | Hk].
    2:{ rewrite lookup_take_ge by lia. symmetry. apply lookup_ge_None.
        rewrite length_app. simpl. lia. }
    rewrite lookup_take_lt by lia. rewrite lookup_drop.
    destruct (Z.eq_dec (buf + Z.of_nat k) (buf + (n - 1))) as [Heq | Hne].
    + replace (Z.to_nat buf + k)%nat with (Z.to_nat (buf + (n - 1))) by lia.
      rewrite Hlast. assert (k = length frag) as -> by lia.
      rewrite lookup_app_r by lia. rewrite Nat.sub_diag. reflexivity.
    + destruct Hout2 as [_ Hsame]. rewrite Hsame by lia.
      destruct (Nat.eq_dec k (length frag)) as [-> | Hkf].
      * replace (Z.to_nat buf + length frag)%nat
          with (Z.to_nat (buf + Z.of_nat (length frag))) by lia.
        rewrite Hnul. rewrite lookup_app_r by lia. rewrite Nat.sub_diag. reflexivity.
      * rewrite Hin by lia. symmetry. apply lookup_app_l. lia.
Qed.

Section InstanceProofs.
Context {L : ErrLayout}.

Lemma instance_loop_step (fuel : nat) (st : ring_state) (code : Z)
    (m : list ascii) (buf n : Z) :
  instance_loop (S fuel) st code m buf n =
  if code =? MPI_SUCCESS then Some (m, code)
  else
    match link_of st code with
    | None => Some (m, code)
    | Some i =>
      m1 ← c_snprintf m buf (wrap_size n) (", " ++ msg (ring_get (ErrorRing st) i));
      m2 ← mem_store m1 (buf + (n - 1)) NUL;
      instance_loop fuel st (prev_error (ring_get (ErrorRing st) i)) m2 buf n
    end.
Proof.
  cbn [instance_loop]. unfold link_of.
  destruct (code =? MPI_SUCCESS); [reflexivity |].
  destruct (convertErrcodeToIndexes st code) as [rc ix].
  rewrite Z.ltb_antisym.
  destruct (rc =? 0); destruct (0 <=? ix_generic_idx ix);
    destruct (msg_id (ring_get (ErrorRing st) (ix_ring_idx ix)) =? ix_ring_id ix);
    reflexivity.
Qed.

Lemma instance_loop_chain (st : ring_state) (code : Z) (links : list Z) (final : Z)
    (buf n : Z) :
  chain st code links final ->
  0 <= buf -> 1 <= n < 2 ^ 64 ->
  forall (fuel : nat) (m : list ascii),
    (length links < fuel)%nat -> buf + n <= Z.of_nat (length m) ->
    exists m',
      instance_loop fuel st code m buf n = Some (m', final)
      /\ same_outside m m' buf (buf + n)
      /\ match last links with
         | None => m' = m
         | Some i =>
           take (length (fragment st n i) + 1) (drop (Z.to_nat buf) m')
           = (fragment st n i ++ [NUL])%list
         end.
Proof.
  intros Hc Hb Hn.
  induction Hc as [code Hnone | code i rest final Hl Hc IH]; intros fuel m Hfuel Hfit.
  - destruct fuel as [| fuel]; [simpl in Hfuel; lia |].
    rewrite instance_loop_step, Hnone.
    exists m. split; [destruct (code =? MPI_SUCCESS); reflexivity |].
    split; [apply same_outside_refl | reflexivity].
  - destruct fuel as [| fuel]; [simpl in Hfuel; lia |].
    rewrite instance_loop_step.
    destruct (Z.eqb_spec code MPI_SUCCESS) as [-> | _].
    { rewrite link_of_success in Hl. discriminate. }
    rewrite Hl.
    destruct (snprintf_then_terminate m buf n
                (", " ++ msg (ring_get (ErrorRing st) i)) Hb Hn Hfit)
      as (m1 & m2 & -> & Hs & Hout & Htake).
    cbn [mbind option_bind]. rewrite Hs. cbn [mbind option_bind].
    destruct (IH fuel m2) as (m' & Hrun & Hout' & Hlast).
    { simpl in Hfuel. lia. }
    { destruct Hout as [-> _]. exact Hfit. }
    exists m'. split; [exact Hrun |]. split.
    + apply (same_outside_trans m m2 m' buf (buf + n) _ _ _ _ Hout Hout'); lia.
    + destruct rest as [| k rest].
      * cbn [last] in Hlast |- *. subst m'. exact Htake.
      * change (last (i :: k :: rest)) with (last (k :: rest)).
        destruct (last (k :: rest)) as [j |] eqn:Hj; [exact Hlast |].
        exfalso. clear -Hj. revert k Hj.
        induction rest as [| a rest IHr]; intros k Hj; [discriminate |].
        apply (IHr a). exact Hj.
Qed.

End InstanceProofs.

Section InstanceTheorem.
Context {L : ErrLayout} {T : MsgTables}.

(** C7, as the code has it.  With the stack not printed, and the causal
    chain of the code made of the slots [links], [ErrGetInstanceString]
    returns (0 when the walk stopped at success, 1 otherwise) and has stored
    only inside the buffer.  Every fragment is stored at the start of the
    buffer, over the one before it: when the chain has no valid link the
    buffer is left as it was, and otherwise the buffer holds the fragment
    [", {message}"] of the last valid link alone, the oldest one, cut to the
    buffer and terminated. *)
Theorem ErrGetInstanceString_compact_keeps_last (cv : cvars) (st : ring_state)
    (code : Z) (links : list Z) (final : Z) (m : list ascii) (buf n : Z)
    (fuel : nat) :
  MPIR_CVAR_PRINT_ERROR_STACK cv = false ->
  chain st code links final -> (length links < fuel)%nat ->
  0 <= buf -> 1 <= n < 2 ^ 64 -> buf + n <= Z.of_nat (length m) ->
  exists m',
    ErrGetInstanceString cv fuel st code m buf n
    = Some (m', if final =? MPI_SUCCESS then 0 else 1)
    /\ same_outside m m' buf (buf + n)
    /\ match last links with
       | None => m' = m
       | Some i =>
         take (length (fragment st n i) + 1) (drop (Z.to_nat buf) m')
         = (fragment st n i ++ [NUL])%list
       end.
Proof.
  intros Hcv Hc Hfuel Hb Hn Hfit.
  destruct (instance_loop_chain st code links final buf n Hc Hb Hn fuel m Hfuel Hfit)
    as (m' & Hrun & Hout & Hlast).
  exists m'. split; [| split; assumption].
  unfold ErrGetInstanceString. rewrite Hcv, Hrun. cbn [mbind option_bind].
  destruct (final =? MPI_SUCCESS); reflexivity.
Qed.

End InstanceTheorem.

Section InstanceExamples.
#[local] Existing Instance reference_layout.
#[local] Existing Instance sample_tables.
#[local] Existing Instance sample_consts.

Lemma ErrGetInstanceString_compact_keeps_last_witness :
  MPIR_CVAR_PRINT_ERROR_STACK compact_cvars = false
  /\ chain two_link_ring 0x30080205 [1; 0] MPI_SUCCESS
  /\ exists m',
       ErrGetInstanceString compact_cvars 3 two_link_ring 0x30080205
         (replicate 32 NUL) 0 32 = Some (m', 0)
       /\ take 8 m' = (list_ascii_of_string ", old 1" ++ [NUL])%list.
Proof.
  split; [reflexivity |]. split; [exact two_link_chain |].
  destruct (ErrGetInstanceString_compact_keeps_last compact_cvars two_link_ring
              0x30080205 [1; 0] MPI_SUCCESS (replicate 32 NUL) 0 32 3
              eq_refl two_link_chain)
    as (m' & Hrun & _ & Hlast).
  - simpl. lia.
  - lia.
  - lia.
  - simpl. lia.
  - exists m'. split; [exact Hrun | exact Hlast].
Defined.

(** C7, as the claim states it, fails: the chain of [0x30080205] has two
    valid links, with the messages "new 2" and then "old 1"; without the
    stack the text left in the buffer is [", old 1"], not the concatenation
    [", new 2, old 1"], and the whole text of [MPIR_Err_get_string] is the
    class message followed by that one fragment. *)
Lemma ErrGetInstanceString_concatenation_counterexample :
  chain two_link_ring 0x30080205 [1; 0] MPI_SUCCESS
  /\ msg (ring_get (ErrorRing two_link_ring) 1) = "new 2"
  /\ msg (ring_get (ErrorRing two_link_ring) 0) = "old 1"
  /\ (ErrGetInstanceString compact_cvars 3 two_link_ring 0x30080205
        (replicate 32 NUL) 0 32 ≫= (fun r => c_string_at (fst r) 0))
     = Some ", old 1"
  /\ (MPIR_Err_get_string compact_cvars 3 sample_process two_link_ring 0x30080205
        (replicate 64 NUL) 0 64 ≫= (fun m' => c_string_at m' 0))
     = Some "Invalid communicator, old 1"
  /\ ", old 1" <> ", new 2, old 1".
Proof.
  split; [exact two_link_chain |].
  vm_compute. repeat split; discriminate.
Qed.

End InstanceExamples.

(** ** Rendering at the end of the buffer *)

Section BoundExamples.
#[local] Existing Instance reference_layout.
#[local] Existing Instance sample_tables.
#[local] Existing Instance sample_consts.

(** The one-link ring is the ring a call of [MPIR_Err_create_code_valist]
    leaves. *)
Lemma one_link_ring_created :
  MPIR_Err_create_code_valist initial_ring 0 0 (Some "f") 10 5 "**fail"
    (Some "old %d") [VA_int 1] = Some (0x205, one_link_ring).
Proof. vm_compute. reflexivity. Qed.

(** C8 fails on the code.  [MPIR_Err_get_string] is given the code [0x205]
    and a buffer of 41 bytes, which in memory is followed by the bytes "XY"
    of another object.  With the stack printed, the class message, the
    header and the location "f(10)" take 40 bytes, the colon takes the last
    one and [maxlen] reaches 0; [MPIR_Err_print_stack_string] then measures
    the string that starts past the end of the buffer, moves [str] over it,
    and at [fn_exit] stores the terminator at offset 42, over the "Y": a
    byte outside the bound is written.  [vsnprintf_mpi] has the same slip
    after a literal that fills the buffer: with 10 bytes and the template
    "count=%d, op=%O" all ten bytes hold text and none is a terminator, and
    as [MPIR_Err_create_code_valist] calls it (bound 256 in a zeroed array
    of 257) a long "%s" argument followed by more text leaves no terminator
    in the first 256 bytes. *)
Theorem MPIR_Err_get_string_writes_past_bound :
  (exists m',
     MPIR_Err_get_string full_cvars 3 sample_process one_link_ring 0x205
       (replicate 41 "."%char ++ ["X"%char; "Y"%char; NUL]) 0 41 = Some m'
     /\ (replicate 41 "."%char ++ ["X"%char; "Y"%char; NUL])%list !! 42%nat
        = Some "Y"%char
     /\ m' !! 42%nat = Some NUL)
  /\ (exists m',
        vsnprintf_mpi (replicate 10 "."%char ++ [NUL]) 0 10 "count=%d, op=%O"
          [VA_int 5; VA_int MPI_SUM] = Some (m', 0)
        /\ take 10 m' = list_ascii_of_string "count=5, o")
  /\ (exists m',
        vsnprintf_mpi (replicate 257 NUL) 0 256 "%s, %d"
          [VA_char_ptr (Some long_text); VA_int 1] = Some (m', 0)
        /\ existsb is_nul (take 256 m') = false).
Proof.
  split; [| split]; eexists; (split; [vm_compute; reflexivity |]);
    vm_compute; repeat split.
Qed.

End BoundExamples.

(** * Further properties

    Further properties of the routines: the other dispatch
    routines, the table search, the ring under creation and combination,
    and the rendering of codes without instance information. *)

(** ** Dispatch *)

Section DispatchFacts.
Context {L : ErrLayout} {M : MpiConsts}.

Lemma checkValidErrcode_repaired (fcname : string) (errcode : Z) :
  exists rc printed,
    checkValidErrcode (ERROR_GET_CLASS errcode) fcname errcode
    = (rc, repaired fcname errcode, printed).
Proof.
  unfold repaired.
  destruct (checkValidErrcode (ERROR_GET_CLASS errcode) fcname errcode) as [[rc e] pr].
  exists rc, pr. reflexivity.
Qed.

Lemma repaired_class (fcname : string) (errcode : Z) :
  Z.land MPI_ERR_UNKNOWN ERROR_CLASS_MASK = MPI_ERR_UNKNOWN ->
  MPI_ERR_UNKNOWN <= MPICH_ERR_LAST_MPIX ->
  ERROR_GET_CLASS (repaired fcname errcode) <= MPICH_ERR_LAST_MPIX.
Proof.
  intros Hu Hle. unfold repaired, checkValidErrcode.
  destruct (Z.ltb_spec MPICH_ERR_LAST_MPIX (ERROR_GET_CLASS errcode)) as [Hgt | Hok];
    cbn [fst snd].
  - unfold ERROR_GET_CLASS, MPIR_ERR_GET_CLASS.
    rewrite (land_replace_class_mask errcode MPI_ERR_UNKNOWN ERROR_CLASS_MASK Hu). exact Hle.
  - exact Hok.
Qed.

Lemma checkValidErrcode_fixed (fcname : string) (errcode : Z) :
  ERROR_GET_CLASS errcode <= MPICH_ERR_LAST_MPIX ->
  checkValidErrcode (ERROR_GET_CLASS errcode) fcname errcode = (0, errcode, []).
Proof.
  intros Hle. unfold checkValidErrcode.
  destruct (Z.ltb_spec MPICH_ERR_LAST_MPIX (ERROR_GET_CLASS errcode)); [lia | reflexivity].
Qed.

Lemma repaired_is_fatal (fcname : string) (errcode : Z) :
  Z.land MPI_ERR_UNKNOWN ERROR_CLASS_MASK = MPI_ERR_UNKNOWN ->
  Z.land ERROR_CLASS_MASK ERROR_FATAL_MASK = 0 ->
  Z.land ERROR_CLASS_MASK ERROR_DYN_MASK = 0 ->
  MPIR_Err_is_fatal (repaired fcname errcode) = MPIR_Err_is_fatal errcode.
Proof.
  intros Hu Hf Hd. unfold repaired, checkValidErrcode.
  destruct (MPICH_ERR_LAST_MPIX <? ERROR_GET_CLASS errcode); cbn [fst snd]; [| reflexivity].
  assert (Hkeep : forall m, Z.land ERROR_CLASS_MASK m = 0 ->
            Z.land (Z.lor (Z.land errcode (Z.lnot ERROR_CLASS_MASK)) MPI_ERR_UNKNOWN) m
            = Z.land errcode m).
  { intros m Hm. rewrite Z.land_lor_distr_l.
    rewrite (land_disjoint MPI_ERR_UNKNOWN ERROR_CLASS_MASK m Hu Hm), Z.lor_0_r.
    rewrite <- Z.land_assoc, (Z.land_comm (Z.lnot ERROR_CLASS_MASK) m).
    rewrite (land_lnot_disjoint m ERROR_CLASS_MASK); [reflexivity |].
    rewrite Z.land_comm. exact Hm. }
  unfold MPIR_Err_is_fatal. rewrite (Hkeep _ Hd), (Hkeep _ Hf). reflexivity.
Qed.


Lemma return_comm_fatal (P : MPIR_Process_t) (st : ring_state)
    (comm_ptr : option MPIR_Comm) (fcname : string) (errcode : Z) :
  MPIR_Err_is_fatal (repaired fcname errcode) = true ->
  is_fatal_outcome (snd (MPIR_Err_return_comm P st comm_ptr fcname errcode)) = true.
Proof.
  intros Hf. unfold MPIR_Err_return_comm.
  destruct (checkValidErrcode_repaired fcname errcode) as (rc & pr & ->).
  rewrite Hf.
  repeat (case_match; cbn [snd is_fatal_outcome]; try reflexivity).
Qed.

Lemma return_comm_prefix (P : MPIR_Process_t) (st : ring_state)
    (fcname : string) (errcode : Z) (printed : list diagnostic) :
  snd (let '(printed', o) := MPIR_Err_return_comm P st None fcname errcode in
       ((printed ++ printed')%list, o))
  = snd (MPIR_Err_return_comm P st None fcname errcode).
Proof.
  destruct (MPIR_Err_return_comm P st None fcname errcode). reflexivity.
Qed.

(** X1.  A code that [MPIR_Err_is_fatal] classifies as fatal never comes
    back from a dispatch routine: [MPIR_Err_return_comm],
    [MPIR_Err_return_win], [MPIR_Err_return_session], [MPIR_Err_return_group]
    and [MPIR_Err_return_comm_create_from_group] all end in the fatal path,
    whatever the object, its handler and the initialization state are.  The
    class repair that runs first leaves the classification as it is, the
    class field being apart from the fatal bit and the dynamic flag and
    holding MPI_ERR_UNKNOWN. *)
Theorem fatal_code_always_aborts (P : MPIR_Process_t) (st : ring_state)
    (comm_ptr : option MPIR_Comm) (win_ptr : option MPIR_Win)
    (session : option MPIR_Session) (group_ptr : option MPIR_Group)
    (errhandler_ptr : option MPIR_Errhandler) (fcname : string) (errcode : Z) :
  Z.land MPI_ERR_UNKNOWN ERROR_CLASS_MASK = MPI_ERR_UNKNOWN ->
  Z.land ERROR_CLASS_MASK ERROR_FATAL_MASK = 0 ->
  Z.land ERROR_CLASS_MASK ERROR_DYN_MASK = 0 ->
  MPIR_Err_is_fatal errcode = true ->
  is_fatal_outcome (snd (MPIR_Err_return_comm P st comm_ptr fcname errcode)) = true
  /\ is_fatal_outcome (snd (MPIR_Err_return_win P st win_ptr fcname errcode)) = true
  /\ is_fatal_outcome (snd (MPIR_Err_return_session P st session fcname errcode)) = true
  /\ is_fatal_outcome (snd (MPIR_Err_return_group P st group_ptr fcname errcode)) = true
  /\ is_fatal_outcome
       (snd (MPIR_Err_return_comm_create_from_group P st errhandler_ptr fcname errcode))
     = true.
Proof.
  intros Hu Hcf Hcd Hfatal.
  assert (H1 : MPIR_Err_is_fatal (repaired fcname errcode) = true)
    by (rewrite repaired_is_fatal; assumption).
  assert (H2 : MPIR_Err_is_fatal (repaired fcname (repaired fcname errcode)) = true)
    by (rewrite repaired_is_fatal; assumption).
  assert (Hsession : forall s,
            is_fatal_outcome (snd (MPIR_Err_return_session P st s fcname errcode)) = true).
  { intros s. unfold MPIR_Err_return_session.
    destruct (checkValidErrcode_repaired fcname errcode) as (rc & pr & ->).
    unfold fatal_or_aborting. rewrite H1.
    repeat (case_match; rewrite ?return_comm_prefix; cbn [snd is_fatal_outcome orb];
            try reflexivity; try (apply return_comm_fatal; exact H2)). }
  split; [apply return_comm_fatal; exact H1 |].
  split.
  { unfold MPIR_Err_return_win.
    destruct win_ptr as [w |]; [| apply return_comm_fatal; exact H1].
    destruct (win_errhandler w) as [errh |]; [| apply return_comm_fatal; exact H1].
    destruct (checkValidErrcode_repaired fcname errcode) as (rc & pr & ->).
    unfold fatal_or_aborting. rewrite H1. reflexivity. }
  split; [apply Hsession |].
  split.
  { unfold MPIR_Err_return_group.
    destruct group_ptr as [g |]; [| apply return_comm_fatal; exact H1].
    destruct (session_ptr g); [apply Hsession | apply return_comm_fatal; exact H1]. }
  unfold MPIR_Err_return_comm_create_from_group.
  destruct (checkValidErrcode_repaired fcname errcode) as (rc & pr & ->).
  unfold fatal_or_aborting. rewrite H1.
  repeat (case_match; rewrite ?return_comm_prefix; cbn [snd is_fatal_outcome orb];
          try reflexivity; try (apply return_comm_fatal; exact H2)).
Qed.

(** X2.  [MPIR_Err_return_session_init] looks at the handler before
    anything else: with MPI_ERRORS_RETURN or MPIR_ERRORS_THROW_EXCEPTIONS it
    returns the repaired code at once, without a handler call, whether or
    not the library is initialized, whether or not the code is fatal, and
    without the substitution of a user error code. *)
Theorem session_init_errors_return_first (P : MPIR_Process_t) (st : ring_state)
    (errh : MPIR_Errhandler) (fcname : string) (errcode : Z) :
  handle errh = MPI_ERRORS_RETURN \/ handle errh = MPIR_ERRORS_THROW_EXCEPTIONS ->
  snd (MPIR_Err_return_session_init P st (Some errh) fcname errcode)
  = Returned (repaired fcname errcode) [].
Proof.
  intros Hh. unfold MPIR_Err_return_session_init.
  destruct (checkValidErrcode_repaired fcname errcode) as (rc & pr & ->).
  assert (Hr : (handle errh =? MPI_ERRORS_RETURN)
               || (handle errh =? MPIR_ERRORS_THROW_EXCEPTIONS) = true).
  { destruct Hh as [-> | ->]; rewrite Z.eqb_refl; [reflexivity | apply orb_true_r]. }
  rewrite Hr. reflexivity.
Qed.

(** X3.  Before initialization [MPIR_Err_return_comm],
    [MPIR_Err_return_session], [MPIR_Err_return_group] on a group with a
    session and [MPIR_Err_return_comm_create_from_group] enter the fatal
    path with the repaired code, for every object and every handler;
    [MPIR_Err_return_comm] passes MPIR_Process.comm_self on, the others
    NULL. *)
Theorem uninitialized_dispatch_aborts (P : MPIR_Process_t) (st : ring_state)
    (comm_ptr : option MPIR_Comm) (session : option MPIR_Session)
    (s : MPIR_Session) (errhandler_ptr : option MPIR_Errhandler)
    (fcname : string) (errcode : Z) :
  MPIR_Errutil_is_initialized P = false ->
  snd (MPIR_Err_return_comm P st comm_ptr fcname errcode)
  = Fatal_error (comm_self P) fcname (repaired fcname errcode)
  /\ snd (MPIR_Err_return_session P st session fcname errcode)
     = Fatal_error None fcname (repaired fcname errcode)
  /\ snd (MPIR_Err_return_group P st (Some {| session_ptr := Some s |}) fcname errcode)
     = Fatal_error None fcname (repaired fcname errcode)
  /\ snd (MPIR_Err_return_comm_create_from_group P st errhandler_ptr fcname errcode)
     = Fatal_error None fcname (repaired fcname errcode).
Proof.
  intros Hi.
  unfold MPIR_Err_return_group, MPIR_Err_return_comm, MPIR_Err_return_session,
    MPIR_Err_return_comm_create_from_group. cbn [session_ptr].
  destruct (checkValidErrcode_repaired fcname errcode) as (rc & pr & ->).
  rewrite Hi. cbn [negb snd]. repeat split.
Qed.


Lemma call_user_handler (errh : MPIR_Errhandler) (errorcode : Z) (k : MPIR_handle_kind)
    (hd : Z) :
  handle errh <> MPI_ERRORS_RETURN -> handle errh <> MPIR_ERRORS_THROW_EXCEPTIONS ->
  language errh = MPIR_LANG__C -> k <> MPIR_FILE ->
  MPIR_call_errhandler errh errorcode {| kind := k; u_handle := hd |}
  = Returned MPI_SUCCESS [C_Comm_Handler_function (errfn errh) hd errorcode 0].
Proof.
  intros Hr Ht Hl Hk. unfold MPIR_call_errhandler.
  destruct (Z.eqb_spec (handle errh) MPI_ERRORS_RETURN); [contradiction |].
  destruct (Z.eqb_spec (handle errh) MPIR_ERRORS_THROW_EXCEPTIONS); [contradiction |].
  rewrite Hl. cbn. destruct k; try reflexivity. contradiction.
Qed.

(** X4.  Under a user-defined C handler (none of the four built-in ones) a
    non-fatal error becomes MPI_SUCCESS: [MPIR_Err_return_comm],
    [MPIR_Err_return_win] and [MPIR_Err_return_session] call the handler
    exactly once, with the handle of the object, the code that
    [checkForUserErrcode] substitutes and a final 0, and return MPI_SUCCESS,
    not the code.  The window routine does so without a test of
    initialization; the session must not be released. *)
Theorem user_handler_turns_error_into_success (P : MPIR_Process_t) (st : ring_state)
    (errh : MPIR_Errhandler) (c : MPIR_Comm) (w : MPIR_Win) (s : MPIR_Session)
    (fcname : string) (errcode : Z) :
  handle errh <> MPI_ERRORS_RETURN -> handle errh <> MPIR_ERRORS_THROW_EXCEPTIONS ->
  handle errh <> MPI_ERRORS_ARE_FATAL -> handle errh <> MPI_ERRORS_ABORT ->
  language errh = MPIR_LANG__C ->
  MPIR_Err_is_fatal (repaired fcname errcode) = false ->
  errhandler c = Some errh -> win_errhandler w = Some errh ->
  session_errhandler s = Some errh -> 0 < session_ref_count s ->
  let code := checkForUserErrcode st (repaired fcname errcode) in
  (MPIR_Errutil_is_initialized P = true ->
   snd (MPIR_Err_return_comm P st (Some c) fcname errcode)
   = Returned MPI_SUCCESS
       [C_Comm_Handler_function (errfn errh) (comm_handle c) code 0])
  /\ snd (MPIR_Err_return_win P st (Some w) fcname errcode)
     = Returned MPI_SUCCESS
         [C_Comm_Handler_function (errfn errh) (win_handle w) code 0]
  /\ (MPIR_Errutil_is_initialized P = true ->
      snd (MPIR_Err_return_session P st (Some s) fcname errcode)
      = Returned MPI_SUCCESS
          [C_Comm_Handler_function (errfn errh) (session_handle s) code 0]).
Proof.
  intros Hr Ht Hf Ha Hl Hnf Hc Hw Hs Href code.
  assert (Hfa : fatal_or_aborting (repaired fcname errcode) errh = false).
  { unfold fatal_or_aborting. rewrite Hnf.
    destruct (Z.eqb_spec (handle errh) MPI_ERRORS_ARE_FATAL); [contradiction |].
    destruct (Z.eqb_spec (handle errh) MPI_ERRORS_ABORT); [contradiction |]. reflexivity. }
  split; [| split].
  - intros Hi. unfold MPIR_Err_return_comm.
    destruct (checkValidErrcode_repaired fcname errcode) as (rc & pr & ->).
    rewrite Hi. cbn [negb]. rewrite Hc. cbv beta iota. rewrite Hc, Hnf.
    destruct (Z.eqb_spec (handle errh) MPI_ERRORS_ARE_FATAL); [contradiction |].
    destruct (Z.eqb_spec (handle errh) MPI_ERRORS_ABORT); [contradiction |].
    cbn [orb snd]. apply call_user_handler; [assumption .. | discriminate].
  - unfold MPIR_Err_return_win. rewrite Hw.
    destruct (checkValidErrcode_repaired fcname errcode) as (rc & pr & ->).
    rewrite Hfa. cbn [snd]. apply call_user_handler; [assumption .. | discriminate].
  - intros Hi. unfold MPIR_Err_return_session.
    destruct (checkValidErrcode_repaired fcname errcode) as (rc & pr & ->).
    rewrite Hi, Hs, Hfa. cbn [negb].
    destruct (Z.leb_spec (session_ref_count s) 0); [lia |].
    cbn [snd]. apply call_user_handler; [assumption .. | discriminate].
Qed.

(** X5.  Every fallback is the default path.  After initialization,
    [MPIR_Err_return_session] on no session, on a released session
    (reference count at most 0) or on a session without a handler,
    [MPIR_Err_return_group] on a group of such a session, and
    [MPIR_Err_return_session_init] and
    [MPIR_Err_return_comm_create_from_group] without a handler give exactly
    what [MPIR_Err_return_comm(NULL, fcname, errcode)] gives on the original
    code, diagnostics included: the class repair that runs a second time
    changes nothing and prints nothing (MPI_ERR_UNKNOWN being a class at
    most MPICH_ERR_LAST_MPIX). *)
Theorem dispatch_fallback_is_default_comm (P : MPIR_Process_t) (st : ring_state)
    (session : option MPIR_Session) (g : MPIR_Group) (fcname : string) (errcode : Z) :
  Z.land MPI_ERR_UNKNOWN ERROR_CLASS_MASK = MPI_ERR_UNKNOWN ->
  MPI_ERR_UNKNOWN <= MPICH_ERR_LAST_MPIX ->
  MPIR_Errutil_is_initialized P = true ->
  match session with
  | None => True
  | Some s => session_ref_count s <= 0 \/ session_errhandler s = None
  end ->
  session_ptr g = session ->
  let default := MPIR_Err_return_comm P st None fcname errcode in
  MPIR_Err_return_session P st session fcname errcode = default
  /\ MPIR_Err_return_group P st (Some g) fcname errcode = default
  /\ MPIR_Err_return_session_init P st None fcname errcode = default
  /\ MPIR_Err_return_comm_create_from_group P st None fcname errcode = default.
Proof.
  intros Hu Hle Hi Hs Hg default.
  assert (Hvia : forall printed rc,
            checkValidErrcode (ERROR_GET_CLASS errcode) fcname errcode
            = (rc, repaired fcname errcode, printed) ->
            (let '(printed', o) :=
               MPIR_Err_return_comm P st None fcname (repaired fcname errcode) in
             ((printed ++ printed')%list, o)) = default).
  { intros printed rc Hck.
    assert (Hagain : MPIR_Err_return_comm P st None fcname (repaired fcname errcode)
                     = ([], snd default)).
    { subst default. unfold MPIR_Err_return_comm.
      rewrite (checkValidErrcode_fixed fcname (repaired fcname errcode)
                 (repaired_class fcname errcode Hu Hle)).
      rewrite Hck, Hi. cbn [negb]. repeat case_match; reflexivity. }
    assert (Hfst : fst default = printed).
    { subst default. unfold MPIR_Err_return_comm.
      rewrite Hck, Hi. cbn [negb]. repeat case_match; reflexivity. }
    rewrite Hagain, app_nil_r, <- Hfst. symmetry. apply surjective_pairing. }
  assert (Hsession : MPIR_Err_return_session P st session fcname errcode = default).
  { unfold MPIR_Err_return_session.
    destruct (checkValidErrcode_repaired fcname errcode) as (rc & pr & Hck).
    rewrite Hck, Hi. cbn [negb].
    destruct session as [s |]; [| exact (Hvia pr rc Hck)].
    destruct (Z.leb_spec (session_ref_count s) 0) as [Hr | Hr]; [exact (Hvia pr rc Hck) |].
    destruct Hs as [Hs | Hs]; [lia |]. rewrite Hs. exact (Hvia pr rc Hck). }
  split; [exact Hsession |].
  split.
  { unfold MPIR_Err_return_group. rewrite Hg.
    destruct session; [exact Hsession | reflexivity]. }
  split.
  - unfold MPIR_Err_return_session_init.
    destruct (checkValidErrcode_repaired fcname errcode) as (rc & pr & Hck).
    rewrite Hck, Hi. cbn [negb]. exact (Hvia pr rc Hck).
  - unfold MPIR_Err_return_comm_create_from_group.
    destruct (checkValidErrcode_repaired fcname errcode) as (rc & pr & Hck).
    rewrite Hck, Hi. cbn [negb]. exact (Hvia pr rc Hck).
Qed.

End DispatchFacts.

(** ** The table search *)

Lemma strcmp_refl (s : string) : strcmp s s = Eq.
Proof.
  unfold strcmp. pose proof (String.compare_antisym s s) as H.
  destruct (String.compare s s); simpl in H; congruence.
Qed.

Lemma find_msg_from_sound (tbl : list msgpair) (msg : string) :
  forall i : Z,
    find_msg_from tbl i msg = -1
    \/ exists p, tbl !! Z.to_nat (find_msg_from tbl i msg - i) = Some p
                 /\ short_name p = msg /\ sentinels_ok p.
Proof.
  induction tbl as [| p tbl IH]; intros i; simpl; [left; reflexivity |].
  destruct (Z.eqb_spec (sentinal1 p) 0xacebad03) as [H1 | H1]; [| left; reflexivity].
  destruct (Z.eqb_spec (sentinal2 p) 0xcb0bfa11) as [H2 | H2]; [| left; reflexivity].
  cbn [negb orb].
  assert (Hrec : find_msg_from tbl (i + 1) msg = -1
                 \/ exists q, (p :: tbl) !! Z.to_nat (find_msg_from tbl (i + 1) msg - i) = Some q
                              /\ short_name q = msg /\ sentinels_ok q).
  { destruct (find_msg_from_range tbl (i + 1) msg) as [Hm | Hr]; [left; exact Hm |].
    destruct (IH (i + 1)) as [Hm | (q & Hq & Hn)]; [left; exact Hm | right].
    exists q. split; [| exact Hn].
    replace (Z.to_nat (find_msg_from tbl (i + 1) msg - i))
      with (S (Z.to_nat (find_msg_from tbl (i + 1) msg - (i + 1)))) by lia.
    exact Hq. }
  destruct (strcmp (short_name p) msg) eqn:Hc.
  - right. exists p. rewrite Z.sub_diag. split; [reflexivity |].
    split; [apply String.compare_eq_iff; exact Hc | split; assumption].
  - exact Hrec.
  - destruct (strncmp (short_name p) msg (String.length msg)); try (left; reflexivity).
    exact Hrec.
Qed.

Lemma find_msg_from_complete (tbl : list msgpair) :
  forall (i : Z) (k : nat) (p : msgpair),
    Forall sentinels_ok tbl -> table_sorted tbl -> tbl !! k = Some p ->
    find_msg_from tbl i (short_name p) = i + Z.of_nat k.
Proof.
  induction tbl as [| q tbl IH]; intros i k p Hs Hsorted Hk; [discriminate |].
  simpl. inversion Hs as [| q' tbl' [H1 H2] Hs']; subst.
  rewrite H1, H2, !Z.eqb_refl. cbn [negb orb].
  destruct k as [| k].
  - injection Hk as ->. rewrite strcmp_refl. lia.
  - rewrite (Hsorted 0%nat (S k) q p); [| lia | reflexivity | exact Hk].
    rewrite (IH (i + 1) k p Hs'); [lia | | exact Hk].
    intros a b x y Hab Hx Hy. apply (Hsorted (S a) (S b)); [lia | exact Hx | exact Hy].
Qed.

Section TableFacts.
Context {L : ErrLayout} {T : MsgTables}.

(** X6.  [FindGenericMsgIndex] and [FindSpecificMsgIndex] never return a
    wrong entry: the result is -1 or the index of an entry of the table
    whose short name is the message searched for and whose sentinels are
    intact. *)
Theorem find_msg_index_sound (msg : string) :
  (FindGenericMsgIndex msg = -1
   \/ exists p, table_get generic_err_msgs (FindGenericMsgIndex msg) = Some p
                /\ short_name p = msg /\ sentinels_ok p)
  /\ (FindSpecificMsgIndex msg = -1
      \/ exists p, table_get specific_err_msgs (FindSpecificMsgIndex msg) = Some p
                   /\ short_name p = msg /\ sentinels_ok p).
Proof.
  assert (H : forall tbl,
            find_msg_from tbl 0 msg = -1
            \/ exists p, table_get tbl (find_msg_from tbl 0 msg) = Some p
                         /\ short_name p = msg /\ sentinels_ok p).
  { intros tbl. destruct (find_msg_from_range tbl 0 msg) as [Hm | Hr]; [left; exact Hm |].
    destruct (find_msg_from_sound tbl msg 0) as [Hm | (p & Hp & Hn)]; [left; exact Hm |].
    right. exists p. split; [| exact Hn]. unfold table_get.
    destruct (Z.ltb_spec (find_msg_from tbl 0 msg) 0); [lia |].
    rewrite Z.sub_0_r in Hp. exact Hp. }
  split; apply H.
Qed.

(** X7.  On tables with intact sentinels that are sorted by [strcmp], the
    search finds every entry at its own index: looking up the short name of
    entry [k] returns [k]. *)
Theorem find_msg_index_of_entry (k : nat) (p : msgpair) :
  Forall sentinels_ok generic_err_msgs -> table_sorted generic_err_msgs ->
  Forall sentinels_ok specific_err_msgs -> table_sorted specific_err_msgs ->
  (generic_err_msgs !! k = Some p -> FindGenericMsgIndex (short_name p) = Z.of_nat k)
  /\ (specific_err_msgs !! k = Some p ->
      FindSpecificMsgIndex (short_name p) = Z.of_nat k).
Proof.
  intros Hg Hgs Hs Hss. split; intros Hk.
  - exact (find_msg_from_complete generic_err_msgs 0 k p Hg Hgs Hk).
  - exact (find_msg_from_complete specific_err_msgs 0 k p Hs Hss Hk).
Qed.

End TableFacts.

(** ** Combination *)

Lemma same_except_prev_refl (e : MPIR_Err_msg_t) : same_except_prev e e.
Proof. repeat split. Qed.

Lemma same_except_prev_trans (e1 e2 e3 : MPIR_Err_msg_t) :
  same_except_prev e1 e2 -> same_except_prev e2 e3 -> same_except_prev e1 e3.
Proof.
  intros (A1 & A2 & A3 & A4 & A5) (B1 & B2 & B3 & B4 & B5).
  repeat split; congruence.
Qed.

Lemma ring_set_prev_same_except (r : list MPIR_Err_msg_t) (i j v : Z) :
  same_except_prev (ring_get r j)
    (ring_get (ring_set r i (set_prev_error (ring_get r i) v)) j).
Proof.
  unfold ring_get, ring_set.
  destruct (Nat.eq_dec (Z.to_nat i) (Z.to_nat j)) as [Heq | Hne].
  - rewrite <- Heq. destruct (r !! Z.to_nat i) as [e |] eqn:He.
    + rewrite list_lookup_insert_eq by (apply lookup_lt_is_Some; eauto).
      repeat split.
    + rewrite list_insert_ge by (apply lookup_ge_None; assumption).
      rewrite He. repeat split.
  - rewrite list_lookup_insert_ne by assumption. apply same_except_prev_refl.
Qed.

Section CombineFacts.
Context {L : ErrLayout}.

Lemma combine_loop_only_relinks (fuel : nat) :
  forall (st st' : ring_state) (code b cls : Z),
    CombineSpecificCodes_loop fuel st code b cls = Some st' ->
    error_ring_loc st' = error_ring_loc st
    /\ max_error_ring_loc st' = max_error_ring_loc st
    /\ length (ErrorRing st') = length (ErrorRing st)
    /\ forall j, same_except_prev (ring_get (ErrorRing st) j) (ring_get (ErrorRing st') j).
Proof.
  induction fuel as [| fuel IH]; intros st st' code b cls H; [discriminate |].
  rewrite combine_loop_step in H.
  destruct (link_of st code) as [i |].
  2:{ injection H as <-. repeat split. }
  cbv zeta in H.
  destruct (prev_error (ring_get (ErrorRing st) i) =? MPI_SUCCESS).
  { injection H as <-. cbn. split; [reflexivity |]. split; [reflexivity |].
    split; [unfold ring_set; apply length_insert |].
    intros j. apply ring_set_prev_same_except. }
  apply IH in H. destruct H as (H1 & H2 & H3 & H4).
  destruct (MPIR_ERR_GET_CLASS (prev_error (ring_get (ErrorRing st) i)) =? MPI_ERR_OTHER).
  - cbn in H1, H2, H3, H4. split; [exact H1 |]. split; [exact H2 |].
    split; [rewrite H3; unfold ring_set; apply length_insert |].
    intros j. eapply same_except_prev_trans; [| apply H4].
    apply ring_set_prev_same_except.
  - repeat split; try assumption; apply H4.
Qed.

(** X8.  [MPIR_Err_combine_codes] touches nothing of the ring but
    [prev_error] fields: when it returns, the cursors and the size of the
    ring are the same, every slot has the id, the message, the location and
    the user error code it had, and so every code refers to the same ring
    entry after the call as before it. *)
Theorem MPIR_Err_combine_codes_only_relinks (fuel : nat) (st st' : ring_state)
    (error1 error2 ret : Z) :
  MPIR_Err_combine_codes fuel st error1 error2 = Some (ret, st') ->
  error_ring_loc st' = error_ring_loc st
  /\ max_error_ring_loc st' = max_error_ring_loc st
  /\ length (ErrorRing st') = length (ErrorRing st)
  /\ (forall j, same_except_prev (ring_get (ErrorRing st) j) (ring_get (ErrorRing st') j))
  /\ (forall code, link_of st' code = link_of st code).
Proof.
  intros H.
  assert (Hinv : error_ring_loc st' = error_ring_loc st
                 /\ max_error_ring_loc st' = max_error_ring_loc st
                 /\ length (ErrorRing st') = length (ErrorRing st)
                 /\ forall j, same_except_prev (ring_get (ErrorRing st) j)
                                (ring_get (ErrorRing st') j)).
  { unfold MPIR_Err_combine_codes in H.
    destruct (error1 =? MPI_SUCCESS);
      [injection H as _ <-; repeat split |].
    destruct (error2 =? MPI_SUCCESS);
      [injection H as _ <-; repeat split |].
    destruct (negb (Z.land error1 ERROR_DYN_MASK =? 0));
      [injection H as _ <-; repeat split |].
    destruct (negb (Z.land error2 ERROR_DYN_MASK =? 0));
      [injection H as _ <-; repeat split |].
    unfold CombineSpecificCodes in H.
    destruct (CombineSpecificCodes_loop fuel st error1 error2 (combine_class error2))
      as [st1 |] eqn:Hloop; [| discriminate].
    injection H as _ <-. exact (combine_loop_only_relinks _ _ _ _ _ _ Hloop). }
  destruct Hinv as (H1 & H2 & H3 & H4).
  repeat split; try assumption; try apply H4.
  intros code. apply link_of_same_ids; [exact H2 |]. intros j. apply (H4 j).
Qed.

End CombineFacts.

Section PromotedCode.
Context {L : ErrLayout} (HL : LayoutOk L).






End PromotedCode.

Section MergeChains.
Context {L : ErrLayout}.


End MergeChains.

Section Trapped.
Context {L : ErrLayout} {T : MsgTables}.

Lemma max_location_loop_link (fuel : nat) (st : ring_state) (c i n : Z) :
  c <> MPI_SUCCESS -> link_of st c = Some i ->
  max_location_loop (S fuel) st c n
  = max_location_loop fuel st (prev_error (ring_get (ErrorRing st) i))
      (Z.max n (strlen (location (ring_get (ErrorRing st) i)))).
Proof.
  intros Hc Hl. cbn [max_location_loop]. unfold link_of in Hl.
  destruct (Z.eqb_spec c MPI_SUCCESS); [contradiction |].
  destruct (convertErrcodeToIndexes st c) as [rc ix].
  rewrite Z.ltb_antisym.
  destruct (rc =? 0); cbn [andb negb] in Hl |- *; [| discriminate].
  destruct (0 <=? ix_generic_idx ix); cbn [andb negb] in Hl |- *; [| discriminate].
  destruct (msg_id (ring_get (ErrorRing st) (ix_ring_idx ix)) =? ix_ring_id ix);
    [| discriminate].
  injection Hl as ->. reflexivity.
Qed.

Lemma loops_trapped (st : ring_state) (P : Z -> Prop) :
  (forall c, P c ->
     c <> MPI_SUCCESS
     /\ exists i, link_of st c = Some i
                  /\ MPIR_ERR_GET_CLASS (prev_error (ring_get (ErrorRing st) i)) <> MPI_ERR_OTHER
                  /\ P (prev_error (ring_get (ErrorRing st) i))) ->
  forall (fuel : nat) (c : Z),
    P c ->
    (forall b cls, CombineSpecificCodes_loop fuel st c b cls = None)
    /\ (forall n, max_location_loop fuel st c n = None).
Proof.
  intros Hclosed. induction fuel as [| fuel IH]; intros c Hc; [split; reflexivity |].
  destruct (Hclosed c Hc) as (Hne & i & Hl & Hcls & Hnext).
  destruct (Hclosed _ Hnext) as (Hne' & _).
  destruct (IH _ Hnext) as [IHc IHm].
  split.
  - intros b cls. rewrite combine_loop_step, Hl. cbv zeta.
    destruct (Z.eqb_spec (prev_error (ring_get (ErrorRing st) i)) MPI_SUCCESS);
      [contradiction |].
    destruct (Z.eqb_spec (MPIR_ERR_GET_CLASS (prev_error (ring_get (ErrorRing st) i)))
                MPI_ERR_OTHER); [contradiction |].
    apply IHc.
  - intros n. rewrite (max_location_loop_link fuel st c i n Hne Hl). apply IHm.
Qed.

(** X11.  Combining a code with itself closes a cycle.  Let the walk from
    [a] end at success, with no class MPI_ERR_OTHER on it.
    [MPIR_Err_combine_codes(a, a)] returns [a] and leaves [a] as the previous
    code of the last link; after that no later
    [MPIR_Err_combine_codes(a, b)] leaves the loop of [CombineSpecificCodes]
    and no [MPIR_Err_print_stack_string] on [a] leaves its first loop,
    whatever the number of iterations allowed. *)
Theorem self_combination_never_returns (cv : cvars) (st : ring_state) (a : Z)
    (la : list Z) (fuel0 : nat) :
  a <> MPI_SUCCESS -> Z.land a ERROR_DYN_MASK = 0 ->
  length (ErrorRing st) = Z.to_nat MAX_ERROR_RING ->
  chain st a la MPI_SUCCESS ->
  MPIR_ERR_GET_CLASS a <> MPI_ERR_OTHER ->
  (forall i, i ∈ la ->
     MPIR_ERR_GET_CLASS (prev_error (ring_get (ErrorRing st) i)) <> MPI_ERR_OTHER) ->
  (length la < fuel0)%nat ->
  exists st',
    MPIR_Err_combine_codes fuel0 st a a = Some (a, st')
    /\ (forall fuel b, b <> MPI_SUCCESS -> Z.land b ERROR_DYN_MASK = 0 ->
        MPIR_Err_combine_codes fuel st' a b = None)
    /\ (forall fuel m str maxlen,
        MPIR_Err_print_stack_string cv fuel st' a m str maxlen = None).
Proof.
  intros Ha Hda Hlen Hca Hclass Hprevclass Hfuel.
  destruct (combine_loop_chain st a la MPI_SUCCESS Hca st fuel0 a (combine_class a))
    as (st' & Hloop & Hring & Hloc & Hmax); try reflexivity; try assumption.
  exists st'.
  pose proof (chain_NoDup _ _ _ _ Hca) as Hnd.
  pose proof (chain_nonneg _ _ _ _ Hca) as Hrange.
  rewrite Forall_forall in Hrange.
  assert (Hprev : forall i, i ∈ la ->
            prev_error (ring_get (ErrorRing st') i)
            = if prev_error (ring_get (ErrorRing st) i) =? MPI_SUCCESS then a
              else prev_error (ring_get (ErrorRing st) i)).
  { intros i Hi. rewrite Hring.
    destruct (combine_ring_get la (ErrorRing st) a (combine_class a) i) as [Hin _];
      [exact Hnd | | specialize (Hrange i Hi); lia | | ].
    - apply Forall_forall. intros j Hj. specialize (Hrange j Hj). lia.
    - intros j Hj. specialize (Hrange j Hj). rewrite Hlen. lia.
    - rewrite (Hin Hi). cbn [set_prev_error prev_error]. unfold relink.
      destruct (prev_error (ring_get (ErrorRing st) i) =? MPI_SUCCESS); [reflexivity |].
      destruct (Z.eqb_spec (MPIR_ERR_GET_CLASS (prev_error (ring_get (ErrorRing st) i)))
                  MPI_ERR_OTHER) as [He | _]; [| reflexivity].
      exfalso. exact (Hprevclass i Hi He). }
  assert (Hlink : forall c, link_of st' c = link_of st c).
  { intros c. apply link_of_same_ids; [exact Hmax |]. intros j.
    rewrite Hring. clear. revert j. generalize (ErrorRing st) as r.
    unfold combine_ring. induction la as [| i la IH]; intros r j; [reflexivity |].
    cbn [fold_left]. rewrite IH. apply ring_get_set_msg_id. }
  (* the codes met on the walk from [a] in the new ring *)
  set (P := fun c : Z =>
              c <> MPI_SUCCESS
              /\ exists l, chain st c l MPI_SUCCESS /\ forall i, i ∈ l -> i ∈ la).
  assert (HPa : P a) by (split; [exact Ha | exists la; split; [exact Hca | auto]]).
  assert (Hclosed : forall c, P c ->
            c <> MPI_SUCCESS
            /\ exists i, link_of st' c = Some i
                 /\ MPIR_ERR_GET_CLASS (prev_error (ring_get (ErrorRing st') i)) <> MPI_ERR_OTHER
                 /\ P (prev_error (ring_get (ErrorRing st') i))).
  { intros c (Hc & l & Hl & Hsub). split; [exact Hc |].
    inversion Hl as [c' Hn Hc' | c' i rest final Hli Hrest]; subst; [congruence |].
    exists i. split; [rewrite Hlink; exact Hli |].
    assert (Hi : i ∈ la) by (apply Hsub; apply list_elem_of_here).
    rewrite (Hprev i Hi).
    destruct (Z.eqb_spec (prev_error (ring_get (ErrorRing st) i)) MPI_SUCCESS) as [Hz | Hnz].
    - split; [exact Hclass | exact HPa].
    - split; [exact (Hprevclass i Hi) |].
      split; [exact Hnz |]. exists rest. split; [exact Hrest |].
      intros j Hj. apply Hsub. apply list_elem_of_further. exact Hj. }
  split; [| split].
  - unfold MPIR_Err_combine_codes, CombineSpecificCodes.
    destruct (Z.eqb_spec a MPI_SUCCESS); [contradiction |].
    rewrite Hda. cbn [Z.eqb negb]. rewrite Hloop.
    destruct (Z.eqb_spec (MPIR_ERR_GET_CLASS a) MPI_ERR_OTHER); [contradiction | reflexivity].
  - intros fuel b Hb Hdb. unfold MPIR_Err_combine_codes, CombineSpecificCodes.
    destruct (Z.eqb_spec a MPI_SUCCESS); [contradiction |].
    destruct (Z.eqb_spec b MPI_SUCCESS); [contradiction |].
    rewrite Hda, Hdb. cbn [Z.eqb negb].
    destruct (loops_trapped st' P Hclosed fuel a HPa) as [Hdiv _].
    rewrite Hdiv. reflexivity.
  - intros fuel m str maxlen. unfold MPIR_Err_print_stack_string.
    destruct (loops_trapped st' P Hclosed fuel a HPa) as [_ Hdiv].
    rewrite Hdiv. reflexivity.
Qed.

End Trapped.

(** ** Creation *)

(** Bit fields *)

Lemma wrap32_small (z : Z) : - 2 ^ 31 <= z < 2 ^ 31 -> wrap32 z = z.
Proof.
  intros H. unfold wrap32. rewrite Z.mod_small; lia.
Qed.

Lemma shiftl_field_bound (x s w : Z) :
  0 <= s -> 0 <= w -> 0 <= x < 2 ^ w -> 0 <= Z.shiftl x s < 2 ^ (s + w).
Proof.
  intros Hs Hw Hx. rewrite Z.shiftl_mul_pow2 by assumption.
  rewrite Z.pow_add_r by assumption.
  assert (0 < 2 ^ s) by (apply Z.pow_pos_nonneg; lia). nia.
Qed.

Lemma wrap32_shiftl_field (x s w : Z) :
  0 <= s -> 0 <= w -> s + w <= 31 -> 0 <= x < 2 ^ w ->
  wrap32 (Z.shiftl x s) = Z.shiftl x s.
Proof.
  intros Hs Hw Hsw Hx. apply wrap32_small.
  pose proof (shiftl_field_bound x s w Hs Hw Hx) as Hb.
  assert (2 ^ (s + w) <= 2 ^ 31) by (apply Z.pow_le_mono_r; lia). lia.
Qed.

Lemma land_shiftl_field (x s w : Z) :
  0 <= s -> 0 <= w -> 0 <= x < 2 ^ w ->
  Z.land (Z.shiftl x s) (Z.shiftl (Z.ones w) s) = Z.shiftl x s.
Proof.
  intros Hs Hw Hx. rewrite <- Z.shiftl_land, Z.land_ones by assumption.
  rewrite Z.mod_small by assumption. reflexivity.
Qed.

Lemma shiftr_shiftl_field (x s : Z) : 0 <= s -> Z.shiftr (Z.shiftl x s) s = x.
Proof.
  intros Hs. rewrite Z.shiftr_shiftl_l by lia. rewrite Z.sub_diag. apply Z.shiftl_0_r.
Qed.

(** Text *)

Lemma string_from_length (l : list ascii) :
  forall (s : string) (p : nat),
    string_from l = Some s -> l !! p = Some NUL -> (String.length s <= p)%nat.
Proof.
  induction l as [| c l IH]; intros s p Hs Hp; [discriminate |].
  cbn [string_from] in Hs. destruct (is_nul c) eqn:Hc.
  - injection Hs as <-. cbn. lia.
  - destruct (string_from l) as [s' |] eqn:Hs'; [| discriminate].
    injection Hs as <-. destruct p as [| p].
    + cbn in Hp. injection Hp as ->. rewrite is_nul_NUL in Hc. discriminate.
    + cbn [String.length]. specialize (IH s' p eq_refl Hp). lia.
Qed.

Lemma ring_msg_store_length (m : list ascii) (s : string) :
  match mem_store m MPIR_MAX_ERROR_LINE NUL with
  | None => None
  | Some m => c_string_at m 0
  end = Some s ->
  (String.length s <= 256)%nat.
Proof.
  unfold mem_store.
  destruct ((0 <=? MPIR_MAX_ERROR_LINE) && (MPIR_MAX_ERROR_LINE <? Z.of_nat (length m)))
    eqn:Hin; [| discriminate].
  apply andb_prop in Hin. destruct Hin as [_ Hin]. apply Z.ltb_lt in Hin.
  unfold c_string_at. cbn [Z.ltb Z.compare Z.to_nat]. rewrite drop_0. intros Hs.
  apply (string_from_length _ s 256 Hs).
  change 256%nat with (Z.to_nat MPIR_MAX_ERROR_LINE).
  apply list_lookup_insert_eq. unfold MPIR_MAX_ERROR_LINE in *. lia.
Qed.

Lemma seq_sum_bounds (l : list ascii) :
  forall acc : Z,
    Forall (fun c => 0 <= char_to_int c) l ->
    0 <= acc -> acc + 127 * Z.of_nat (length l) < 2 ^ 31 ->
    0 <= fold_left (fun acc c => wrap32 (acc + wrap_u32 (char_to_int c))) l acc.
Proof.
  induction l as [| c l IH]; intros acc Hf Hacc Hb; [exact Hacc |].
  inversion Hf as [| c' l' Hc Hl]; subst. cbn [fold_left].
  assert (Hc127 : char_to_int c <= 127).
  { unfold char_to_int in *. destruct (Z.ltb_spec (Z.of_N (N_of_ascii c)) 128); [lia |].
    pose proof (N_ascii_bounded c). lia. }
  assert (Hu : wrap_u32 (char_to_int c) = char_to_int c).
  { unfold wrap_u32. apply Z.mod_small. lia. }
  rewrite Hu. cbn [length] in Hb.
  rewrite wrap32_small by lia.
  apply IH; [exact Hl | lia | lia].
Qed.

Lemma ring_msg_strncpy_length (src s : string) :
  ring_msg_strncpy src = Some s -> (String.length s <= 256)%nat.
Proof.
  unfold ring_msg_strncpy.
  destruct (MPL_strncpy _ 0 src MPIR_MAX_ERROR_LINE) as [[m rc] |]; [| discriminate].
  apply ring_msg_store_length.
Qed.

Section CreateFacts.
Context {L : ErrLayout} {T : MsgTables} {M : MpiConsts}.

Lemma ring_msg_vsnprintf_length (fmt : string) (Argp : list va_value) (s : string) :
  ring_msg_vsnprintf fmt Argp = Some s -> (String.length s <= 256)%nat.
Proof.
  unfold ring_msg_vsnprintf.
  destruct (vsnprintf_mpi _ 0 MPIR_MAX_ERROR_LINE fmt Argp) as [[m rc] |]; [| discriminate].
  apply ring_msg_store_length.
Qed.

Lemma create_code_inv (st st' : ring_state) (lastcode fatal : Z)
    (fcname : option string) (line error_class : Z) (generic_msg : string)
    (specific_msg : option string) (Argp : list va_value) (code : Z) :
  MPIR_Err_create_code_valist st lastcode fatal fcname line error_class
    generic_msg specific_msg Argp = Some (code, st') ->
  effective_class (checked_lastcode st lastcode) error_class <> MPI_ERR_IN_STATUS ->
  exists e : MPIR_Err_msg_t,
    (String.length (msg e) <= 256)%nat
    /\ msg_id e = fst (ErrcodeCreateID
                         (effective_class (checked_lastcode st lastcode) error_class)
                         (FindGenericMsgIndex generic_msg) (msg e))
    /\ prev_error e = checked_lastcode st lastcode
    /\ code = assembled_code
                (effective_class (checked_lastcode st lastcode) error_class)
                (FindGenericMsgIndex generic_msg) (error_ring_loc st)
                (snd (ErrcodeCreateID
                        (effective_class (checked_lastcode st lastcode) error_class)
                        (FindGenericMsgIndex generic_msg) (msg e)))
                (negb (fatal =? 0) || MPIR_Err_is_fatal (checked_lastcode st lastcode))
    /\ ErrorRing st' = ring_set (ErrorRing st) (error_ring_loc st) e
    /\ error_ring_loc st' = next_loc st
    /\ max_error_ring_loc st'
       = (if max_error_ring_loc st <? next_loc st then next_loc st
          else max_error_ring_loc st)
    /\ (forall uu uc urm,
          user_error_case (FindGenericMsgIndex generic_msg) specific_msg Argp
          = Some (uu, uc, urm) ->
          uu <> 0 -> use_user_error_code e = 1 /\ user_error_code e = uc)
    /\ (forall uu uc urm j,
          user_error_case (FindGenericMsgIndex generic_msg) specific_msg Argp
          = Some (uu, uc, urm) ->
          uu = 0 -> checked_lastcode st lastcode <> MPI_SUCCESS ->
          link_of st (checked_lastcode st lastcode) = Some j ->
          0 <= error_ring_loc st -> j <> error_ring_loc st ->
          use_user_error_code (ring_get (ErrorRing st) j) <> 0 ->
          use_user_error_code e = 1
          /\ user_error_code e = user_error_code (ring_get (ErrorRing st) j)).
Proof.
  intros H Hcls. unfold MPIR_Err_create_code_valist in H.
  set (lc := checked_lastcode st lastcode) in *.
  set (cls := effective_class lc error_class) in *.
  destruct (Z.eqb_spec cls MPI_ERR_IN_STATUS) as [| _]; [contradiction |].
  set (g := FindGenericMsgIndex generic_msg) in *.
  destruct (user_error_case g specific_msg Argp) as [[[use_user user_code] user_ring_msg] |];
    [| discriminate].
  match type of H with
  | context [match ?rm with Some _ => _ | None => None end] =>
    destruct rm as [ring_msg |] eqn:Hrm; [| discriminate]
  end.
  assert (Hlen : (String.length ring_msg <= 256)%nat).
  { destruct specific_msg as [sm |].
    - destruct (specific_fmt_of sm) as [fmt |]; [| discriminate].
      destruct (use_user =? 0);
        [eapply ring_msg_vsnprintf_length | eapply ring_msg_strncpy_length]; exact Hrm.
    - destruct (0 <=? g).
      + destruct (table_get generic_err_msgs g); [| discriminate].
        eapply ring_msg_strncpy_length; exact Hrm.
      + eapply ring_msg_strncpy_length; exact Hrm. }
  destruct (ErrcodeCreateID cls g ring_msg) as [id ring_seq] eqn:Hid.
  match type of H with
  | context [let '(_, _) := ?e in _] => destruct e as [use_user' user_code'] eqn:Huser
  end.
  injection H as Hcode Hst.
  eexists {| msg_id := id; prev_error := lc; use_user_error_code := use_user';
             user_error_code := user_code'; location := _; msg := ring_msg |}.
  cbn [msg msg_id prev_error use_user_error_code user_error_code].
  rewrite Hid. cbn [fst snd].
  split; [exact Hlen |]. split; [reflexivity |]. split; [reflexivity |].
  split; [symmetry; exact Hcode |].
  subst st'. cbn [with_ring ErrorRing error_ring_loc max_error_ring_loc].
  split; [unfold ring_set; apply list_insert_insert_eq |].
  split; [reflexivity |]. split; [reflexivity |].
  split.
  { intros uu uc urm [= -> -> ->] Huu.
    destruct (Z.eqb_spec uu 0); [contradiction |]. cbn [negb] in Huser.
    injection Huser as <- <-. split; reflexivity. }
  intros uu uc urm j [= -> -> ->] -> Hlc Hlink Hloc0 Hj Huse.
  cbn [Z.eqb negb] in Huser.
  destruct (Z.eqb_spec lc MPI_SUCCESS); [contradiction |]. cbn [negb] in Huser.
  unfold link_of in Hlink.
  unfold convertErrcodeToIndexes in Hlink, Huser. cbv zeta in Hlink, Huser.
  cbn [ix_ring_idx ix_ring_id ix_generic_idx max_error_ring_loc ErrorRing] in Hlink, Huser.
  set (idx := Z.shiftr (Z.land lc ERROR_SPECIFIC_INDEX_MASK) ERROR_SPECIFIC_INDEX_SHIFT) in *.
  destruct (Z.ltb_spec idx 0) as [Hneg | Hnn];
    [cbn [orb ix_generic_idx ix_ring_idx ix_ring_id Z.eqb andb] in Hlink; discriminate |].
  destruct (Z.leb_spec MAX_ERROR_RING idx) as [Hbig | Hsmall];
    [cbn [orb ix_generic_idx ix_ring_idx ix_ring_id Z.eqb andb] in Hlink; discriminate |].
  destruct (Z.ltb_spec (max_error_ring_loc st) idx) as [Hpast | Hin];
    [cbn [orb ix_generic_idx ix_ring_idx ix_ring_id Z.eqb andb] in Hlink; discriminate |].
  cbn [orb ix_generic_idx ix_ring_idx ix_ring_id Z.eqb andb] in Hlink, Huser.
  match type of Huser with
  | context [?m <? idx] =>
    assert (Hmx : (m <? idx) = false)
  end.
  { apply Z.ltb_ge.
    match goal with |- context [if ?a <? ?b then _ else _] =>
      destruct (Z.ltb_spec a b) end; lia. }
  rewrite Hmx in Huser.
  cbn [orb ix_generic_idx ix_ring_idx ix_ring_id Z.eqb andb] in Huser.
  destruct (0 <=? Z.shiftr (Z.land lc ERROR_GENERIC_MASK) ERROR_GENERIC_SHIFT - 1);
    [| discriminate].
  cbn [andb] in Hlink, Huser.
  destruct (msg_id (ring_get (ErrorRing st) idx) =? _) eqn:Hsame; [| discriminate].
  injection Hlink as <-.
  rewrite (ring_get_set_ne (ErrorRing st) (error_ring_loc st) idx) in Huser.
  - rewrite Hsame in Huser.
    destruct (Z.eqb_spec (use_user_error_code (ring_get (ErrorRing st) idx)) 0);
      [contradiction |].
    cbn [negb andb] in Huser. injection Huser as <- <-. split; reflexivity.
  - exact Hloc0.
  - exact Hnn.
  - congruence.
Qed.

End CreateFacts.

Section Codec.
Context {L : ErrLayout} (HL : LayoutOk L) (gw iw sw : Z) (HF : FieldsOk L gw iw sw).

Lemma ones_bound (w : Z) : 0 <= w -> 0 <= Z.ones w < 2 ^ w.
Proof.
  intros Hw. rewrite Z.ones_equiv.
  assert (0 < 2 ^ w) by (apply Z.pow_pos_nonneg; lia). lia.
Qed.

Lemma shifts_nonneg :
  0 <= ERROR_GENERIC_SHIFT /\ 0 <= ERROR_SPECIFIC_INDEX_SHIFT
  /\ 0 <= ERROR_SPECIFIC_SEQ_SHIFT.
Proof.
  pose proof (lo_generic_shift L HL). pose proof (lo_index_shift L HL).
  pose proof (lo_seq_shift L HL). lia.
Qed.

Lemma fatal_off_masks :
  Z.land ERROR_FATAL_MASK ERROR_GENERIC_MASK = 0
  /\ Z.land ERROR_FATAL_MASK ERROR_SPECIFIC_INDEX_MASK = 0
  /\ Z.land ERROR_FATAL_MASK ERROR_SPECIFIC_SEQ_MASK = 0.
Proof.
  destruct shifts_nonneg as (Hg & Hi & Hs).
  destruct (fo_generic_top L gw iw sw HF) as [Hgw Hgt].
  destruct (fo_index_top L gw iw sw HF) as [Hiw Hit].
  destruct (fo_seq_top L gw iw sw HF) as [Hsw Hst].
  rewrite (fo_generic_mask L gw iw sw HF), (fo_index_mask L gw iw sw HF),
    (fo_seq_mask L gw iw sw HF).
  rewrite <- (wrap32_shiftl_field (Z.ones gw) ERROR_GENERIC_SHIFT gw)
    by (try apply ones_bound; lia).
  rewrite <- (wrap32_shiftl_field (Z.ones iw) ERROR_SPECIFIC_INDEX_SHIFT iw)
    by (try apply ones_bound; lia).
  rewrite <- (wrap32_shiftl_field (Z.ones sw) ERROR_SPECIFIC_SEQ_SHIFT sw)
    by (try apply ones_bound; lia).
  rewrite !(Z.land_comm ERROR_FATAL_MASK).
  split; [| split]; apply (shifted_off_fatal HL);
    [lia | exact (lo_index_shift L HL) | exact (lo_seq_shift L HL)].
Qed.

Lemma assembled_code_decodes (cls g idx seq : Z) (fatal : bool) :
  Z.land cls ERROR_CLASS_MASK = cls ->
  0 <= g -> g + 1 < 2 ^ gw -> 0 <= idx < 2 ^ iw -> 0 <= seq < 2 ^ sw ->
  let code := assembled_code cls g idx seq fatal in
  Z.shiftr (Z.land code ERROR_SPECIFIC_INDEX_MASK) ERROR_SPECIFIC_INDEX_SHIFT = idx
  /\ Z.land code (Z.lor (Z.lor ERROR_CLASS_MASK ERROR_GENERIC_MASK)
                        ERROR_SPECIFIC_SEQ_MASK)
     = Z.lor (Z.lor (Z.land cls ERROR_CLASS_MASK)
                    (wrap32 (Z.shiftl (g + 1) ERROR_GENERIC_SHIFT)))
             (wrap32 (Z.shiftl seq ERROR_SPECIFIC_SEQ_SHIFT))
  /\ Z.shiftr (Z.land code ERROR_GENERIC_MASK) ERROR_GENERIC_SHIFT - 1 = g.
Proof.
  intros Hcls Hg Hgb Hidx Hseq code.
  destruct shifts_nonneg as (Hgs & His & Hss).
  destruct (fo_generic_top L gw iw sw HF) as [Hgw Hgt].
  destruct (fo_index_top L gw iw sw HF) as [Hiw Hit].
  destruct (fo_seq_top L gw iw sw HF) as [Hsw Hst].
  destruct fatal_off_masks as (HFG & HFI & HFS).
  pose proof (fo_generic_index L gw iw sw HF) as HGI.
  pose proof (fo_generic_seq L gw iw sw HF) as HGS.
  pose proof (fo_index_seq L gw iw sw HF) as HIS.
  pose proof (lo_class_generic L HL) as HCG.
  pose proof (lo_class_index L HL) as HCI.
  pose proof (lo_class_seq L HL) as HCS.
  pose proof (lo_class_fatal L HL) as HCF.
  set (G := Z.shiftl (g + 1) ERROR_GENERIC_SHIFT).
  set (I := Z.shiftl idx ERROR_SPECIFIC_INDEX_SHIFT).
  set (S := Z.shiftl seq ERROR_SPECIFIC_SEQ_SHIFT).
  assert (HwG : wrap32 G = G) by (apply (wrap32_shiftl_field _ _ gw); lia).
  assert (HwI : wrap32 I = I) by (apply (wrap32_shiftl_field _ _ iw); lia).
  assert (HwS : wrap32 S = S) by (apply (wrap32_shiftl_field _ _ sw); lia).
  assert (HG : Z.land G ERROR_GENERIC_MASK = G).
  { rewrite (fo_generic_mask L gw iw sw HF). apply land_shiftl_field; lia. }
  assert (HI : Z.land I ERROR_SPECIFIC_INDEX_MASK = I).
  { rewrite (fo_index_mask L gw iw sw HF). apply land_shiftl_field; lia. }
  assert (HS : Z.land S ERROR_SPECIFIC_SEQ_MASK = S).
  { rewrite (fo_seq_mask L gw iw sw HF). apply land_shiftl_field; lia. }
  set (F := if fatal then ERROR_FATAL_MASK else 0).
  assert (Hcode : code = Z.lor (Z.lor (Z.lor (Z.lor cls G) I) S) F).
  { subst code F. unfold assembled_code.
    destruct (Z.leb_spec 0 g); [| lia]. fold G I S. rewrite HwG, HwI, HwS.
    destruct fatal; [reflexivity | rewrite Z.lor_0_r; reflexivity]. }
  assert (HFm : forall m, Z.land ERROR_FATAL_MASK m = 0 -> Z.land F m = 0).
  { intros m Hm. subst F. destruct fatal; [exact Hm | apply Z.land_0_l]. }
  assert (Hsym : forall a b, Z.land a b = 0 -> Z.land b a = 0)
    by (intros a b Hab; rewrite Z.land_comm; exact Hab).
  assert (Hland : forall m,
            Z.land code m
            = Z.lor (Z.lor (Z.lor (Z.lor (Z.land cls m) (Z.land G m)) (Z.land I m))
                           (Z.land S m)) (Z.land F m)).
  { intros m. rewrite Hcode, !Z.land_lor_distr_l. reflexivity. }
  split; [| split].
  - rewrite Hland.
    rewrite (land_disjoint cls _ _ Hcls HCI), (land_disjoint G _ _ HG HGI), HI,
      (land_disjoint S _ _ HS (Hsym _ _ HIS)), (HFm _ HFI).
    rewrite !Z.lor_0_r, Z.lor_0_l. apply shiftr_shiftl_field. exact His.
  - rewrite !Z.land_lor_distr_r, !Hland.
    rewrite Hcls.
    rewrite (land_disjoint cls _ _ Hcls HCG), (land_disjoint cls _ _ Hcls HCS).
    rewrite (land_disjoint G _ _ HG (Hsym _ _ HCG)), HG, (land_disjoint G _ _ HG HGS).
    rewrite (land_disjoint I _ _ HI (Hsym _ _ HCI)),
      (land_disjoint I _ _ HI (Hsym _ _ HGI)), (land_disjoint I _ _ HI HIS).
    rewrite (land_disjoint S _ _ HS (Hsym _ _ HCS)),
      (land_disjoint S _ _ HS (Hsym _ _ HGS)), HS.
    rewrite (HFm _ (Hsym _ _ HCF)), (HFm _ HFG), (HFm _ HFS).
    rewrite HwG, HwS, !Z.lor_0_r, !Z.lor_0_l. reflexivity.
  - rewrite Hland.
    rewrite (land_disjoint cls _ _ Hcls HCG), HG,
      (land_disjoint I _ _ HI (Hsym _ _ HGI)),
      (land_disjoint S _ _ HS (Hsym _ _ HGS)), (HFm _ HFG).
    rewrite !Z.lor_0_r, Z.lor_0_l. unfold G.
    rewrite shiftr_shiftl_field by exact Hgs. lia.
Qed.

End Codec.

Section CreateRoundTrip.
Context {L : ErrLayout} {T : MsgTables} {M : MpiConsts}.

Lemma next_loc_mod (st : ring_state) :
  MAX_ERROR_RING < 2 ^ 31 -> ring_wf st ->
  next_loc st = (error_ring_loc st + 1) mod MAX_ERROR_RING
  /\ 0 <= next_loc st < MAX_ERROR_RING.
Proof.
  intros Hmax (_ & Hloc & _). unfold next_loc.
  assert (Hw : wrap_u32 (error_ring_loc st + 1) = error_ring_loc st + 1).
  { unfold wrap_u32. apply Z.mod_small. lia. }
  rewrite Hw.
  destruct (Z.leb_spec MAX_ERROR_RING (error_ring_loc st + 1)) as [Hge | Hlt].
  - split; [reflexivity |]. apply Z.mod_pos_bound. lia.
  - rewrite Z.mod_small by lia. lia.
Qed.

(** X12.  [MPIR_Err_create_code_valist] keeps the shape of the ring: the
    array keeps its MAX_ERROR_RING slots, the cursor stays inside it and the
    high-water mark at or above the cursor; the mark never decreases; only
    the slot under the old cursor can change; and unless the class is
    MPI_ERR_IN_STATUS the cursor advances by one modulo MAX_ERROR_RING. *)
Theorem create_code_keeps_ring_shape (st st' : ring_state) (lastcode fatal : Z)
    (fcname : option string) (line error_class : Z) (generic_msg : string)
    (specific_msg : option string) (Argp : list va_value) (code : Z) :
  MAX_ERROR_RING < 2 ^ 31 -> ring_wf st ->
  MPIR_Err_create_code_valist st lastcode fatal fcname line error_class
    generic_msg specific_msg Argp = Some (code, st') ->
  ring_wf st'
  /\ max_error_ring_loc st <= max_error_ring_loc st'
  /\ (forall j, 0 <= j -> j <> error_ring_loc st ->
      ring_get (ErrorRing st') j = ring_get (ErrorRing st) j)
  /\ (effective_class (checked_lastcode st lastcode) error_class <> MPI_ERR_IN_STATUS ->
      error_ring_loc st' = (error_ring_loc st + 1) mod MAX_ERROR_RING).
Proof.
  intros Hmax Hwf Hrun.
  destruct (Z.eq_dec (effective_class (checked_lastcode st lastcode) error_class)
              MPI_ERR_IN_STATUS) as [Hin | Hcls].
  { unfold MPIR_Err_create_code_valist in Hrun. rewrite Hin, Z.eqb_refl in Hrun.
    injection Hrun as _ <-. split; [exact Hwf |]. split; [lia |].
    split; [reflexivity | contradiction]. }
  destruct (create_code_inv _ _ _ _ _ _ _ _ _ _ _ Hrun Hcls)
    as (e & _ & _ & _ & _ & Hring & Hloc & Hmx & _ & _).
  destruct (next_loc_mod st Hmax Hwf) as [Hnext Hrange].
  destruct Hwf as (Hlen & Hl & Hm).
  split; [| split; [| split]].
  - unfold ring_wf. rewrite Hring, Hloc, Hmx.
    split; [unfold ring_set; rewrite length_insert; exact Hlen |].
    split; [exact Hrange |].
    destruct (Z.ltb_spec (max_error_ring_loc st) (next_loc st)); lia.
  - rewrite Hmx. destruct (Z.ltb_spec (max_error_ring_loc st) (next_loc st)); lia.
  - intros j Hj Hne. rewrite Hring. apply ring_get_set_ne; [lia | exact Hj | congruence].
  - intros _. rewrite Hloc. exact Hnext.
Qed.


Lemma convertErrcodeToIndexes_eq (st : ring_state) (code : Z) :
  convertErrcodeToIndexes st code
  = (let idx := Z.shiftr (Z.land code ERROR_SPECIFIC_INDEX_MASK)
                         ERROR_SPECIFIC_INDEX_SHIFT in
     if (idx <? 0) || (MAX_ERROR_RING <=? idx) || (max_error_ring_loc st <? idx)
     then 1 else 0,
     {| ix_ring_idx := Z.shiftr (Z.land code ERROR_SPECIFIC_INDEX_MASK)
                                ERROR_SPECIFIC_INDEX_SHIFT;
        ix_ring_id := Z.land code (Z.lor (Z.lor ERROR_CLASS_MASK ERROR_GENERIC_MASK)
                                         ERROR_SPECIFIC_SEQ_MASK);
        ix_generic_idx := Z.shiftr (Z.land code ERROR_GENERIC_MASK)
                                   ERROR_GENERIC_SHIFT - 1 |}).
Proof.
  unfold convertErrcodeToIndexes. cbv zeta. cbn [ix_ring_idx].
  destruct (_ || _); reflexivity.
Qed.

Lemma ErrcodeCreateID_seq_range (cls g : Z) (text : string) :
  0 < ERROR_SPECIFIC_SEQ_SIZE ->
  seven_bit text -> (String.length text <= 256)%nat ->
  0 <= snd (ErrcodeCreateID cls g text) < ERROR_SPECIFIC_SEQ_SIZE.
Proof.
  intros Hsz Hs Hlen. unfold ErrcodeCreateID. cbn [snd].
  apply Z.rem_bound_pos; [| exact Hsz].
  apply seq_sum_bounds; [exact Hs | lia |].
  rewrite length_list_ascii_of_string. lia.
Qed.

Section WithLayout.
Context (HL : LayoutOk L) (gw iw sw : Z) (HF : FieldsOk L gw iw sw).

(** What a freshly created code decodes to in the ring it was created in. *)
Lemma created_code_decodes (st st' : ring_state) (lastcode fatal : Z)
    (fcname : option string) (line error_class : Z) (generic_msg : string)
    (specific_msg : option string) (Argp : list va_value) (code : Z) :
  generic_msgs_len < 2 ^ gw -> ring_wf st ->
  Z.land error_class ERROR_CLASS_MASK = error_class ->
  0 <= FindGenericMsgIndex generic_msg ->
  MPIR_Err_create_code_valist st lastcode fatal fcname line error_class
    generic_msg specific_msg Argp = Some (code, st') ->
  effective_class (checked_lastcode st lastcode) error_class <> MPI_ERR_IN_STATUS ->
  seven_bit (msg (ring_get (ErrorRing st') (error_ring_loc st))) ->
  exists e,
    ring_get (ErrorRing st') (error_ring_loc st) = e
    /\ prev_error e = checked_lastcode st lastcode
    /\ (forall uu uc urm,
          user_error_case (FindGenericMsgIndex generic_msg) specific_msg Argp
          = Some (uu, uc, urm) ->
          uu <> 0 -> use_user_error_code e = 1 /\ user_error_code e = uc)
    /\ (forall uu uc urm j,
          user_error_case (FindGenericMsgIndex generic_msg) specific_msg Argp
          = Some (uu, uc, urm) ->
          uu = 0 -> checked_lastcode st lastcode <> MPI_SUCCESS ->
          link_of st (checked_lastcode st lastcode) = Some j ->
          j <> error_ring_loc st ->
          use_user_error_code (ring_get (ErrorRing st) j) <> 0 ->
          use_user_error_code e = 1
          /\ user_error_code e = user_error_code (ring_get (ErrorRing st) j))
    /\ convertErrcodeToIndexes st' code
       = (0, {| ix_ring_idx := error_ring_loc st; ix_ring_id := msg_id e;
                ix_generic_idx := FindGenericMsgIndex generic_msg |})
    /\ max_error_ring_loc st <= max_error_ring_loc st'
    /\ (forall j, 0 <= j -> j <> error_ring_loc st ->
        ring_get (ErrorRing st') j = ring_get (ErrorRing st) j).
Proof.
  intros Hgen Hwf Hfield Hg Hrun Hcls Hplain.
  destruct (create_code_inv _ _ _ _ _ _ _ _ _ _ _ Hrun Hcls)
    as (e & Hlen & Hid & Hprev & Hcode & Hring & Hloc & Hmx & Huser & Hinherit).
  pose proof Hwf as (Hrlen & Hl & Hm).
  assert (Hmax : MAX_ERROR_RING < 2 ^ 31).
  { unfold MAX_ERROR_RING. rewrite (fo_index_size L gw iw sw HF).
    destruct (fo_index_top L gw iw sw HF) as [Hiw Hit].
    pose proof (lo_generic_shift L HL) as Hgs.
    pose proof (lo_index_shift L HL) as His.
    assert (ERROR_GENERIC_SHIFT <> 0).
    { intros H0. pose proof (lo_fatal_pos L HL). pose proof (lo_fatal_lt L HL) as Hlt.
      rewrite H0 in Hlt. change (2 ^ 0) with 1 in Hlt. lia. }
    apply Z.pow_lt_mono_r; lia. }
  assert (Hget : ring_get (ErrorRing st') (error_ring_loc st) = e).
  { rewrite Hring. apply ring_get_set_eq. rewrite Hrlen. lia. }
  rewrite Hget in Hplain.
  exists e. split; [exact Hget |]. split; [exact Hprev |]. split; [exact Huser |].
  split.
  { intros uu uc urm j Hu Huu Hlc Hlink Hj Huse.
    apply (Hinherit uu uc urm j Hu Huu Hlc Hlink); [lia | exact Hj | exact Huse]. }
  set (cls := effective_class (checked_lastcode st lastcode) error_class) in *.
  set (g := FindGenericMsgIndex generic_msg) in *.
  assert (Hseq : 0 <= snd (ErrcodeCreateID cls g (msg e)) < 2 ^ sw).
  { rewrite <- (fo_seq_size L gw iw sw HF).
    apply ErrcodeCreateID_seq_range; [| exact Hplain | exact Hlen].
    rewrite (fo_seq_size L gw iw sw HF).
    apply Z.pow_pos_nonneg; [lia | apply (fo_seq_top L gw iw sw HF)]. }
  assert (Hgb : g + 1 < 2 ^ gw).
  { subst g. unfold FindGenericMsgIndex in *.
    destruct (find_msg_from_range generic_err_msgs 0 generic_msg) as [Hm1 | Hr]; [lia |].
    unfold generic_msgs_len in Hgen. lia. }
  assert (Hidx : 0 <= error_ring_loc st < 2 ^ iw).
  { rewrite <- (fo_index_size L gw iw sw HF). exact Hl. }
  assert (Hclsf : Z.land cls ERROR_CLASS_MASK = cls)
    by (apply (effective_class_in_field HL); exact Hfield).
  destruct (assembled_code_decodes HL gw iw sw HF cls g (error_ring_loc st)
              (snd (ErrcodeCreateID cls g (msg e)))
              (negb (fatal =? 0) || MPIR_Err_is_fatal (checked_lastcode st lastcode))
              Hclsf Hg Hgb Hidx Hseq) as (D1 & D2 & D3).
  rewrite <- Hcode in D1, D2, D3.
  rewrite convertErrcodeToIndexes_eq. cbv zeta. rewrite D1, D2, D3.
  destruct (next_loc_mod st Hmax Hwf) as [_ Hrange].
  assert (Hmx' : error_ring_loc st <= max_error_ring_loc st').
  { rewrite Hmx. destruct (Z.ltb_spec (max_error_ring_loc st) (next_loc st)); lia. }
  destruct (Z.ltb_spec (error_ring_loc st) 0); [lia |].
  destruct (Z.leb_spec MAX_ERROR_RING (error_ring_loc st)); [lia |].
  destruct (Z.ltb_spec (max_error_ring_loc st') (error_ring_loc st)); [lia |].
  cbn [orb]. rewrite Hid. split; [reflexivity |].
  split.
  - rewrite Hmx. destruct (Z.ltb_spec (max_error_ring_loc st) (next_loc st)); lia.
  - intros j Hj Hne. rewrite Hring. apply ring_get_set_ne; [lia | exact Hj | congruence].
Qed.

Lemma link_of_kept (st st' : ring_state) (c i : Z) :
  link_of st c = Some i ->
  max_error_ring_loc st <= max_error_ring_loc st' ->
  ring_get (ErrorRing st') i = ring_get (ErrorRing st) i ->
  link_of st' c = Some i.
Proof.
  unfold link_of. rewrite !convertErrcodeToIndexes_eq. cbv zeta.
  cbn [ix_ring_idx ix_ring_id ix_generic_idx].
  set (idx := Z.shiftr (Z.land c ERROR_SPECIFIC_INDEX_MASK) ERROR_SPECIFIC_INDEX_SHIFT).
  intros Hl Hmax Hsame.
  destruct (Z.ltb_spec idx 0); [discriminate |].
  destruct (Z.leb_spec MAX_ERROR_RING idx); [discriminate |].
  destruct (Z.ltb_spec (max_error_ring_loc st) idx); [discriminate |].
  destruct (Z.ltb_spec (max_error_ring_loc st') idx); [lia |].
  cbn [orb Z.eqb andb] in Hl |- *.
  destruct (0 <=? _); [| discriminate]. cbn [andb] in Hl |- *.
  destruct (msg_id (ring_get (ErrorRing st) idx) =? _) eqn:Hid; [| discriminate].
  injection Hl as <-. rewrite Hsame, Hid. reflexivity.
Qed.

Lemma chain_kept (st st' : ring_state) (c : Z) (l : list Z) (f : Z) :
  chain st c l f -> f = MPI_SUCCESS ->
  max_error_ring_loc st <= max_error_ring_loc st' ->
  (forall i, i ∈ l -> ring_get (ErrorRing st') i = ring_get (ErrorRing st) i) ->
  chain st' c l f.
Proof.
  intros Hc Hf Hmax. induction Hc as [code Hn | code i rest final Hl Hc IH]; intros Hsame.
  - apply chain_stop. rewrite Hf. apply link_of_success.
  - assert (Hi : ring_get (ErrorRing st') i = ring_get (ErrorRing st) i)
      by (apply Hsame; apply list_elem_of_here).
    apply chain_link; [exact (link_of_kept st st' code i Hl Hmax Hi) |].
    rewrite Hi. apply IH; [exact Hf |].
    intros j Hj. apply Hsame. apply list_elem_of_further. exact Hj.
Qed.

(** X13.  A code decodes to the entry it was created with.  When the ring
    is well-formed, the generic message is in the table, the class argument
    lies in the class field, the class the code is created with is not
    MPI_ERR_IN_STATUS and the text stored is of 7-bit characters, the code
    returned by [MPIR_Err_create_code_valist] is not success, refers to the
    slot under the old cursor in the new ring, passes
    [checkErrcodeIsValid], and the
    previous code stored there is the checked [lastcode]; and when the walk
    from that previous code ended at success without passing the slot, the
    walk from the new code visits the slot and then the same slots. *)
Theorem created_code_is_valid_link (st st' : ring_state) (lastcode fatal : Z)
    (fcname : option string) (line error_class : Z) (generic_msg : string)
    (specific_msg : option string) (Argp : list va_value) (code : Z) :
  generic_msgs_len < 2 ^ gw -> ring_wf st ->
  Z.land error_class ERROR_CLASS_MASK = error_class ->
  0 <= FindGenericMsgIndex generic_msg ->
  MPIR_Err_create_code_valist st lastcode fatal fcname line error_class
    generic_msg specific_msg Argp = Some (code, st') ->
  effective_class (checked_lastcode st lastcode) error_class <> MPI_ERR_IN_STATUS ->
  seven_bit (msg (ring_get (ErrorRing st') (error_ring_loc st))) ->
  code <> MPI_SUCCESS
  /\ link_of st' code = Some (error_ring_loc st)
  /\ checkErrcodeIsValid st' code = 0
  /\ prev_error (ring_get (ErrorRing st') (error_ring_loc st))
     = checked_lastcode st lastcode
  /\ (forall l, chain st (checked_lastcode st lastcode) l MPI_SUCCESS ->
      error_ring_loc st ∉ l ->
      chain st' code (error_ring_loc st :: l) MPI_SUCCESS).
Proof.
  intros Hgen Hwf Hfield Hg Hrun Hcls Hplain.
  destruct (created_code_decodes st st' lastcode fatal fcname line error_class
              generic_msg specific_msg Argp code Hgen Hwf Hfield Hg Hrun Hcls Hplain)
    as (e & Hget & Hprev & _ & _ & Hconv & Hmax' & Hframe).
  assert (Hne : code <> MPI_SUCCESS).
  { intros Hz. rewrite Hz, convertErrcodeToIndexes_eq in Hconv.
    unfold MPI_SUCCESS in Hconv. cbv zeta in Hconv.
    injection Hconv as _ _ _ Hgi. rewrite Z.land_0_l, Z.shiftr_0_l in Hgi. lia. }
  assert (Hlink : link_of st' code = Some (error_ring_loc st)).
  { unfold link_of. rewrite Hconv. cbn [ix_ring_idx ix_ring_id ix_generic_idx].
    rewrite Hget, !Z.eqb_refl.
    destruct (Z.leb_spec 0 (FindGenericMsgIndex generic_msg)); [reflexivity | lia]. }
  split; [exact Hne |]. split; [| split; [| split]].
  - exact Hlink.
  - unfold checkErrcodeIsValid. destruct (is_valid_error_class code); [reflexivity |].
    rewrite Hconv. cbn [ix_ring_idx ix_ring_id ix_generic_idx].
    rewrite convertErrcodeToIndexes_eq in Hconv. cbv zeta in Hconv.
    injection Hconv as Hrc Hi _ _. rewrite Hi in Hrc.
    destruct ((error_ring_loc st <? 0) || (MAX_ERROR_RING <=? error_ring_loc st)
              || (max_error_ring_loc st' <? error_ring_loc st)); [discriminate |].
    rewrite Hget, Z.eqb_refl. cbn [negb].
    unfold FindGenericMsgIndex in *.
    destruct (find_msg_from_range generic_err_msgs 0 generic_msg) as [Hm1 | Hr]; [lia |].
    destruct (Z.ltb_spec (find_msg_from generic_err_msgs 0 generic_msg) (-1)); [lia |].
    unfold generic_msgs_len.
    destruct (Z.ltb_spec (Z.of_nat (length generic_err_msgs))
                (find_msg_from generic_err_msgs 0 generic_msg)); [lia | reflexivity].
  - rewrite Hget. exact Hprev.
  - intros l Hchain Hnotin.
    apply chain_link; [exact Hlink |].
    rewrite Hget, Hprev.
    apply (chain_kept st st' _ l MPI_SUCCESS Hchain eq_refl Hmax').
    intros i Hi. pose proof (chain_nonneg _ _ _ _ Hchain) as Hr.
    rewrite Forall_forall in Hr. specialize (Hr i Hi).
    apply Hframe; [lia |]. intros ->. contradiction.
Qed.

Lemma checkForUserErrcode_of_link (st : ring_state) (code idx id g : Z) :
  code <> MPI_SUCCESS ->
  convertErrcodeToIndexes st code
  = (0, {| ix_ring_idx := idx; ix_ring_id := id; ix_generic_idx := g |}) ->
  0 <= g -> msg_id (ring_get (ErrorRing st) idx) = id ->
  use_user_error_code (ring_get (ErrorRing st) idx) <> 0 ->
  checkForUserErrcode st code = user_error_code (ring_get (ErrorRing st) idx).
Proof.
  intros Hne Hconv Hg Hid Huse. unfold checkForUserErrcode.
  destruct (Z.eqb_spec code MPI_SUCCESS); [contradiction |]. cbn [negb].
  rewrite Hconv. cbn [Z.eqb negb ix_ring_idx ix_ring_id ix_generic_idx].
  rewrite Hid, Z.eqb_refl.
  destruct (Z.leb_spec 0 g); [| lia].
  destruct (Z.eqb_spec (use_user_error_code (ring_get (ErrorRing st) idx)) 0);
    [contradiction | reflexivity].
Qed.

Lemma created_code_nonzero (st : ring_state) (code idx id g : Z) :
  convertErrcodeToIndexes st code
  = (0, {| ix_ring_idx := idx; ix_ring_id := id; ix_generic_idx := g |}) ->
  0 <= g -> code <> MPI_SUCCESS.
Proof.
  intros Hconv Hg Hz. rewrite Hz, convertErrcodeToIndexes_eq in Hconv.
  unfold MPI_SUCCESS in Hconv. cbv zeta in Hconv.
  injection Hconv as _ _ _ Hgi. rewrite Z.land_0_l, Z.shiftr_0_l in Hgi. lia.
Qed.

(** X14.  A user error code comes back: for a code created in a
    well-formed ring with the generic message "**user" (which is in the
    table), a specific message and the user's [int] as first argument, the
    class argument lying in the class field, the class the code is created
    with not being MPI_ERR_IN_STATUS and the text stored being of 7-bit
    characters, [checkForUserErrcode] returns that [int]. *)
Theorem created_code_carries_user_code (st st' : ring_state) (lastcode fatal : Z)
    (fcname : option string) (line error_class : Z) (specific_msg : string)
    (u : Z) (rest : list va_value) (code : Z) :
  generic_msgs_len < 2 ^ gw -> ring_wf st ->
  Z.land error_class ERROR_CLASS_MASK = error_class ->
  0 <= FindGenericMsgIndex "**user" ->
  MPIR_Err_create_code_valist st lastcode fatal fcname line error_class
    "**user" (Some specific_msg) (VA_int u :: rest) = Some (code, st') ->
  effective_class (checked_lastcode st lastcode) error_class <> MPI_ERR_IN_STATUS ->
  seven_bit (msg (ring_get (ErrorRing st') (error_ring_loc st))) ->
  checkForUserErrcode st' code = u.
Proof.
  intros Hgen Hwf Hfield Hg Hrun Hcls Hplain.
  destruct (created_code_decodes st st' lastcode fatal fcname line error_class
              "**user" (Some specific_msg) (VA_int u :: rest) code
              Hgen Hwf Hfield Hg Hrun Hcls Hplain)
    as (e & Hget & _ & Huser & _ & Hconv & _).
  assert (Hcase : exists urm,
            user_error_case (FindGenericMsgIndex "**user") (Some specific_msg)
              (VA_int u :: rest) = Some (1, u, urm)).
  { unfold user_error_case.
    destruct (Z.leb_spec 0 (FindGenericMsgIndex "**user")); [| lia].
    unfold FindGenericMsgIndex in *.
    destruct (find_msg_from_range generic_err_msgs 0 "**user") as [Hm1 | Hr]; [lia |].
    destruct (find_msg_from_sound generic_err_msgs "**user" 0) as [Hm1 | (p & Hp & Hn & _)];
      [lia |].
    unfold table_get.
    destruct (Z.ltb_spec (find_msg_from generic_err_msgs 0 "**user") 0); [lia |].
    rewrite Z.sub_0_r in Hp. rewrite Hp, Hn, strcmp_refl.
    destruct (specific_fmt_of_some specific_msg) as (fmt & ->).
    eexists. reflexivity. }
  destruct Hcase as (urm & Hcase).
  destruct (Huser 1 u urm Hcase) as [Huse Hcode]; [lia |].
  rewrite (checkForUserErrcode_of_link st' code (error_ring_loc st) (msg_id e)
             (FindGenericMsgIndex "**user"));
    [rewrite Hget; exact Hcode | | exact Hconv | exact Hg | rewrite Hget; reflexivity
     | rewrite Hget, Huse; lia].
  exact (created_code_nonzero _ _ _ _ _ Hconv Hg).
Qed.

(** X15.  A user error code is inherited: when [lastcode] is valid and
    refers to a ring entry (other than the slot about to be overwritten)
    that carries a user error code, a code created on top of it in a
    well-formed ring with a generic message other than "**user" that is in
    the table (the class argument lying in the class field, the class the
    code is created with not being MPI_ERR_IN_STATUS and the text stored
    being of 7-bit characters) carries the same user error code:
    [checkForUserErrcode] gives the same value for both. *)
Theorem created_code_inherits_user_code (st st' : ring_state) (lastcode fatal : Z)
    (fcname : option string) (line error_class : Z) (generic_msg : string)
    (specific_msg : option string) (Argp : list va_value) (code j : Z) :
  generic_msgs_len < 2 ^ gw -> ring_wf st ->
  Z.land error_class ERROR_CLASS_MASK = error_class ->
  0 <= FindGenericMsgIndex generic_msg ->
  MPIR_Err_create_code_valist st lastcode fatal fcname line error_class
    generic_msg specific_msg Argp = Some (code, st') ->
  effective_class (checked_lastcode st lastcode) error_class <> MPI_ERR_IN_STATUS ->
  seven_bit (msg (ring_get (ErrorRing st') (error_ring_loc st))) ->
  generic_msg <> "**user" ->
  checkErrcodeIsValid st lastcode = 0 ->
  link_of st lastcode = Some j -> j <> error_ring_loc st ->
  use_user_error_code (ring_get (ErrorRing st) j) <> 0 ->
  checkForUserErrcode st' code = user_error_code (ring_get (ErrorRing st) j)
  /\ checkForUserErrcode st lastcode = user_error_code (ring_get (ErrorRing st) j).
Proof.
  intros Hgen Hwf Hfield Hg Hrun Hcls Hplain Hnotuser Hvalid Hlink Hj Huse.
  assert (Hlc : checked_lastcode st lastcode = lastcode).
  { unfold checked_lastcode. rewrite Hvalid. cbn [Z.eqb negb].
    destruct (negb (lastcode =? MPI_SUCCESS)); reflexivity. }
  assert (Hne : lastcode <> MPI_SUCCESS).
  { intros Hz. rewrite Hz, link_of_success in Hlink. discriminate. }
  destruct (created_code_decodes st st' lastcode fatal fcname line error_class
              generic_msg specific_msg Argp code
              Hgen Hwf Hfield Hg Hrun Hcls Hplain)
    as (e & Hget & _ & _ & Hinherit & Hconv & _).
  rewrite Hlc in Hinherit.
  assert (Hcase : user_error_case (FindGenericMsgIndex generic_msg) specific_msg Argp
                  = Some (0, -1, "")).
  { unfold user_error_case.
    destruct (Z.leb_spec 0 (FindGenericMsgIndex generic_msg)); [| lia].
    unfold FindGenericMsgIndex in *.
    destruct (find_msg_from_range generic_err_msgs 0 generic_msg) as [Hm1 | Hr]; [lia |].
    destruct (find_msg_from_sound generic_err_msgs generic_msg 0)
      as [Hm1 | (p & Hp & Hn & _)]; [lia |].
    unfold table_get.
    destruct (Z.ltb_spec (find_msg_from generic_err_msgs 0 generic_msg) 0); [lia |].
    rewrite Z.sub_0_r in Hp. rewrite Hp, Hn.
    destruct (strcmp generic_msg "**user") eqn:Hc; try reflexivity.
    exfalso. apply Hnotuser. apply String.compare_eq_iff. exact Hc. }
  destruct (Hinherit 0 (-1) "" j Hcase eq_refl Hne Hlink Hj Huse) as [Huse' Hcode'].
  split.
  - rewrite (checkForUserErrcode_of_link st' code (error_ring_loc st) (msg_id e)
               (FindGenericMsgIndex generic_msg));
      [rewrite Hget; exact Hcode' | | exact Hconv | exact Hg | rewrite Hget; reflexivity
       | rewrite Hget, Huse'; lia].
    exact (created_code_nonzero _ _ _ _ _ Hconv Hg).
  - unfold checkForUserErrcode. unfold link_of in Hlink.
    destruct (Z.eqb_spec lastcode MPI_SUCCESS); [contradiction |]. cbn [negb].
    destruct (convertErrcodeToIndexes st lastcode) as [rc ix].
    destruct (rc =? 0); cbn [negb andb] in Hlink |- *; [| discriminate].
    destruct (0 <=? ix_generic_idx ix); cbn [andb] in Hlink |- *; [| discriminate].
    destruct (msg_id (ring_get (ErrorRing st) (ix_ring_idx ix)) =? ix_ring_id ix);
      [| discriminate].
    injection Hlink as ->.
    destruct (Z.eqb_spec (use_user_error_code (ring_get (ErrorRing st) j)) 0);
      [contradiction | reflexivity].
Qed.

End WithLayout.

End CreateRoundTrip.

(** ** Rendering *)

Lemma text_prefix_all (n : Z) (s : string) :
  strlen s <= n -> text_prefix n s = list_ascii_of_string s.
Proof.
  intros H. unfold text_prefix. apply take_ge.
  rewrite length_list_ascii_of_string. unfold strlen in *. lia.
Qed.

Lemma MPL_strncpy_as_snprintf (m : list ascii) (dest n : Z) (src : string) :
  MPL_strncpy m dest src n
  = option_map (fun m' => (m', if (n =? 0) || (strlen src <? n) then 0 else 1))
               (c_snprintf m dest n src).
Proof.
  unfold MPL_strncpy, c_snprintf.
  destruct (Z.eqb_spec n 0); [reflexivity |]. cbn [orb].
  destruct (Z.ltb_spec (strlen src) n) as [Hlt | Hge]; [| reflexivity].
  rewrite text_prefix_all by lia. reflexivity.
Qed.

Lemma snprintf_content (m : list ascii) (buf n : Z) (text : string) :
  0 <= buf -> 1 <= n -> buf + n <= Z.of_nat (length m) ->
  exists m1,
    c_snprintf m buf n text = Some m1
    /\ same_outside m m1 buf (buf + n)
    /\ take (length (text_prefix (n - 1) text) + 1) (drop (Z.to_nat buf) m1)
       = (text_prefix (n - 1) text ++ [NUL])%list.
Proof.
  intros Hb Hn Hfit.
  unfold c_snprintf. destruct (Z.eqb_spec n 0); [lia |].
  set (frag := text_prefix (n - 1) text).
  pose proof (length_text_prefix (n - 1) text ltac:(lia)) as Hlen. fold frag in Hlen.
  destruct (terminated_write m buf n frag) as (m1 & Hw & Hout1 & Hnul & Hin); [lia .. |].
  exists m1. split; [exact Hw |]. split; [exact Hout1 |].
  apply list_eq. intros k.
  destruct (Nat.lt_ge_cases k (length frag + 1)) as [Hk | Hk].
  2:{ rewrite lookup_take_ge by lia. symmetry. apply lookup_ge_None.
      rewrite length_app. simpl. lia. }
  rewrite lookup_take_lt by lia. rewrite lookup_drop.
  destruct (Nat.eq_dec k (length frag)) as [-> | Hkf].
  - replace (Z.to_nat buf + length frag)%nat
      with (Z.to_nat (buf + Z.of_nat (length frag))) by lia.
    rewrite Hnul. rewrite lookup_app_r by lia. rewrite Nat.sub_diag. reflexivity.
  - rewrite Hin by lia. symmetry. apply lookup_app_l. lia.
Qed.

(** The bounded copy followed by the conditional store of the terminator, as
    the first two branches of [MPIR_Err_get_string] perform it. *)
Lemma strncpy_then_terminate (m : list ascii) (buf n : Z) (text : string) :
  0 <= buf -> 1 <= n < 2 ^ 64 -> buf + n <= Z.of_nat (length m) ->
  exists m',
    ('(m1, rc) ← MPL_strncpy m buf text (wrap_size n);
     if negb (rc =? 0) then mem_store m1 (buf + (n - 1)) NUL else Some m1) = Some m'
    /\ same_outside m m' buf (buf + n)
    /\ take (length (text_prefix (n - 1) text) + 1) (drop (Z.to_nat buf) m')
       = (text_prefix (n - 1) text ++ [NUL])%list.
Proof.
  intros Hb Hn Hfit. rewrite MPL_strncpy_as_snprintf.
  destruct (Z.eqb_spec (wrap_size n) 0) as [H0 | _];
    [rewrite wrap_size_small in H0 by lia; lia |]. cbn [orb].
  destruct (Z.ltb_spec (strlen text) (wrap_size n)) as [Hlt | Hge].
  - rewrite wrap_size_small by lia.
    destruct (snprintf_content m buf n text) as (m1 & Hw & Hout & Htake); [lia .. |].
    rewrite Hw. cbn. exists m1. split; [reflexivity |]. split; assumption.
  - destruct (snprintf_then_terminate m buf n text) as (m1 & m2 & Hw & Hs & Hout & Htake);
      [lia .. |].
    rewrite Hw. cbn. exists m2. split; [exact Hs |]. split; assumption.
Qed.

Lemma prefix_read (bs : list ascii) :
  forall l : list ascii,
    take (length bs + 1) l = (bs ++ [NUL])%list ->
    Forall (fun c => is_nul c = false) bs ->
    string_from l = Some (string_of_list_ascii bs)
    /\ strlen_from l = Some (Z.of_nat (length bs)).
Proof.
  induction bs as [| b bs IH]; intros l Ht Hn.
  - destruct l as [| c l]; [discriminate |]. cbn in Ht. injection Ht as ->.
    cbn. split; reflexivity.
  - destruct l as [| c l]; [discriminate |]. cbn in Ht. injection Ht as -> Ht.
    inversion Hn as [| b' bs' Hb Hbs]; subst.
    destruct (IH l Ht Hbs) as [Hs Hl].
    cbn [string_from strlen_from string_of_list_ascii length]. rewrite Hb, Hs, Hl.
    cbn. split; [reflexivity |]. f_equal. lia.
Qed.

Lemma string_of_list_ascii_app (a b : list ascii) :
  string_of_list_ascii (a ++ b) = string_of_list_ascii a ++ string_of_list_ascii b.
Proof.
  induction a as [| c a IH]; [reflexivity |]. cbn. rewrite IH. reflexivity.
Qed.

Section GetStringFacts.
Context {L : ErrLayout} {T : MsgTables}.

Lemma get_string_plain (cv : cvars) (fuel : nat)
    (P : MPIR_Process_t) (st : ring_state) (errorcode : Z) (m : list ascii)
    (buf length : Z) (text : string) :
  0 <= buf -> 1 <= length < 2 ^ 31 -> buf + length <= Z.of_nat (List.length m) ->
  (Z.land errorcode ERROR_DYN_MASK <> 0
   /\ text = match errcode_to_string P with
             | None => "Undefined dynamic error code"
             | Some f => f errorcode
             end)
  \/ (Z.land errorcode ERROR_DYN_MASK = 0
      /\ Z.land errorcode ERROR_CLASS_MASK = errorcode
      /\ get_class_msg errorcode = Some text) ->
  exists m',
    MPIR_Err_get_string cv fuel P st errorcode m buf length = Some m'
    /\ same_outside m m' buf (buf + length)
    /\ take (List.length (text_prefix (length - 1) text) + 1) (drop (Z.to_nat buf) m')
       = (text_prefix (length - 1) text ++ [NUL])%list.
Proof.
  intros Hb Hn Hfit Hcase.
  destruct (strncpy_then_terminate m buf length text) as (m' & Hrun & Hout & Htake);
    [lia | lia | lia |].
  exists m'. split; [| split; assumption].
  unfold MPIR_Err_get_string.
  destruct (Z.eqb_spec length 0); [lia |].
  destruct Hcase as [[Hdyn ->] | (Hdyn & Hcls & Hmsg)].
  - destruct (Z.eqb_spec (Z.land errorcode ERROR_DYN_MASK) 0); [contradiction |].
    cbn [negb]. exact Hrun.
  - rewrite Hdyn. cbn [Z.eqb negb]. rewrite Hcls, Z.eqb_refl, Hmsg. exact Hrun.
Qed.

(** X16.  For a dynamic code and for a code that is only a class,
    [MPIR_Err_get_string] stays inside the buffer: for every [length] from 1
    on it returns, leaves the memory outside the [length] bytes as it was,
    and the C string it leaves in the buffer is the text of the code (the
    text of the dynamic code, or the class message) cut to [length - 1]
    characters.  The ring and the number of iterations allowed play no
    part. *)
Theorem MPIR_Err_get_string_without_instance (cv : cvars) (fuel : nat)
    (P : MPIR_Process_t) (st : ring_state) (errorcode : Z) (m : list ascii)
    (buf length : Z) (text : string) :
  0 <= buf -> 1 <= length < 2 ^ 31 -> buf + length <= Z.of_nat (List.length m) ->
  no_nul text ->
  (Z.land errorcode ERROR_DYN_MASK <> 0
   /\ text = match errcode_to_string P with
             | None => "Undefined dynamic error code"
             | Some f => f errorcode
             end)
  \/ (Z.land errorcode ERROR_DYN_MASK = 0
      /\ Z.land errorcode ERROR_CLASS_MASK = errorcode
      /\ get_class_msg errorcode = Some text) ->
  exists m',
    MPIR_Err_get_string cv fuel P st errorcode m buf length = Some m'
    /\ same_outside m m' buf (buf + length)
    /\ c_string_at m' buf = Some (truncated length text).
Proof.
  intros Hb Hn Hfit Hnt Hcase.
  destruct (get_string_plain cv fuel P st errorcode m buf length text Hb Hn Hfit Hcase)
    as (m' & Hrun & Hout & Htake).
  exists m'. split; [exact Hrun |]. split; [exact Hout |].
  destruct (prefix_read (text_prefix (length - 1) text) (drop (Z.to_nat buf) m') Htake)
    as [Hstr _].
  { unfold text_prefix. apply Forall_take. exact Hnt. }
  unfold c_string_at, truncated.
  destruct (Z.ltb_spec buf 0); [lia | exact Hstr].
Qed.

End GetStringFacts.

Section RendererFacts.
Context {M : MpiConsts}.

(** X17.  [vsnprintf_mpi] with the byte after the bound a terminator, as in
    [MPIR_Err_create_code_valist] (bound MPIR_MAX_ERROR_LINE into a zeroed
    array one byte longer): when the arguments fit the format it returns,
    the memory outside the [maxlen] bytes is unchanged, and the terminator
    after the bound is still there. *)
Theorem vsnprintf_mpi_below_terminated_bound (fmt : string) (m : list ascii)
    (str maxlen : Z) (ap : list va_value) :
  va_list_fits fmt ap = true ->
  0 <= str -> 0 <= maxlen < 2 ^ 64 ->
  str + maxlen < Z.of_nat (length m) ->
  m !! Z.to_nat (str + maxlen) = Some NUL ->
  exists m' r,
    vsnprintf_mpi m str maxlen fmt ap = Some (m', r)
    /\ same_outside m m' str (str + maxlen)
    /\ m' !! Z.to_nat (str + maxlen) = Some NUL.
Proof.
  intros Hfits Hs Hmax Hlen HNUL. unfold vsnprintf_mpi, MPL_strdup.
  destruct (vsnprintf_mpi_from_within (String.length fmt) fmt "" m str maxlen ap
              (str + maxlen)) as (m' & r & Hrun & Hout);
    [lia | assumption | assumption | assumption | reflexivity | assumption | assumption |].
  exists m', r. split; [exact Hrun |]. split; [exact Hout |].
  destruct Hout as [_ Hsame]. rewrite Hsame by lia. exact HNUL.
Qed.

Lemma vsnprintf_mpi_from_literal (lit : string) :
  forall (rest lit0 : string) (m : list ascii) (str maxlen : Z) (ap : list va_value),
    no_percent lit ->
    vsnprintf_mpi_from (lit ++ rest) lit0 m str maxlen ap
    = vsnprintf_mpi_from rest (lit0 ++ lit) m str maxlen ap.
Proof.
  induction lit as [| c lit IH]; intros rest lit0 m str maxlen ap Hno.
  - cbn [append]. replace (lit0 ++ "") with lit0; [reflexivity |].
    clear. induction lit0 as [| a l IHl]; [reflexivity |]. cbn. rewrite <- IHl. reflexivity.
  - unfold no_percent in Hno. cbn [list_ascii_of_string] in Hno.
    inversion Hno as [| c' l' Hc Hl]; subst.
    cbn [append].
    assert (Hstep : vsnprintf_mpi_from (String c (lit ++ rest)) lit0 m str maxlen ap
                    = vsnprintf_mpi_from (lit ++ rest) (lit0 ++ String c "") m str maxlen ap).
    { cbn [vsnprintf_mpi_from].
      destruct c as [b0 b1 b2 b3 b4 b5 b6 b7].
      destruct b0, b1, b2, b3, b4, b5, b6, b7; try reflexivity.
      exfalso. apply Hc. reflexivity. }
    rewrite Hstep, (IH rest (lit0 ++ String c "") m str maxlen ap Hl).
    f_equal. clear. induction lit0 as [| a l IHl]; [reflexivity |].
    cbn. rewrite IHl. reflexivity.
Qed.

(** X18.  An unhandled directive ends [vsnprintf_mpi] early: for a format
    made of a literal text, ['%'], a character that is no directive, and
    anything after it, only the literal text is stored, cut to [maxlen]
    bytes and without a terminator; the rest of the format is dropped and 0
    is returned. *)
Theorem vsnprintf_mpi_unhandled_directive (lit rest : string) (c : ascii)
    (m : list ascii) (str maxlen : Z) (ap : list va_value) :
  no_percent lit -> directive c ap = D_unhandled ->
  let len := Z.min (strlen lit) maxlen in
  vsnprintf_mpi m str maxlen (lit ++ String "%"%char (String c rest)) ap
  = (if len =? 0 then Some (m, 0)
     else option_map (fun m1 => (m1, 0)) (mem_write m str (text_prefix len lit))).
Proof.
  intros Hno Hdir len. unfold vsnprintf_mpi, MPL_strdup.
  rewrite (vsnprintf_mpi_from_literal lit _ "" m str maxlen ap Hno).
  cbn [append vsnprintf_mpi_from]. rewrite Hdir.
  assert (Hlen : (if strlen lit <? maxlen then strlen lit else maxlen) = len).
  { subst len. destruct (Z.ltb_spec (strlen lit) maxlen); lia. }
  rewrite Hlen. destruct (len =? 0); cbn [negb]; [reflexivity |].
  destruct (mem_write m str (text_prefix len lit)); reflexivity.
Qed.

End RendererFacts.

Section RepairFacts.
Context {L : ErrLayout}.

(** X19.  The class repair normalises and is idempotent: the repaired code
    has a class at most MPICH_ERR_LAST_MPIX, a second [checkValidErrcode] on
    it changes nothing and prints nothing, and the repair leaves
    [MPIR_Err_is_fatal] and the dynamic flag of the code as they were. *)
Theorem checkValidErrcode_idempotent (fcname : string) (errcode : Z) :
  Z.land MPI_ERR_UNKNOWN ERROR_CLASS_MASK = MPI_ERR_UNKNOWN ->
  MPI_ERR_UNKNOWN <= MPICH_ERR_LAST_MPIX ->
  Z.land ERROR_CLASS_MASK ERROR_FATAL_MASK = 0 ->
  Z.land ERROR_CLASS_MASK ERROR_DYN_MASK = 0 ->
  let errcode' := repaired fcname errcode in
  ERROR_GET_CLASS errcode' <= MPICH_ERR_LAST_MPIX
  /\ checkValidErrcode (ERROR_GET_CLASS errcode') fcname errcode' = (0, errcode', [])
  /\ MPIR_Err_is_fatal errcode' = MPIR_Err_is_fatal errcode
  /\ Z.land errcode' ERROR_DYN_MASK = Z.land errcode ERROR_DYN_MASK.
Proof.
  intros Hu Hle Hf Hd errcode'.
  pose proof (repaired_class fcname errcode Hu Hle) as Hc.
  split; [exact Hc |]. split; [apply checkValidErrcode_fixed; exact Hc |].
  split; [apply repaired_is_fatal; assumption |].
  subst errcode'. unfold repaired, checkValidErrcode.
  destruct (MPICH_ERR_LAST_MPIX <? ERROR_GET_CLASS errcode); cbn [fst snd]; [| reflexivity].
  rewrite Z.land_lor_distr_l.
  rewrite (land_disjoint MPI_ERR_UNKNOWN ERROR_CLASS_MASK ERROR_DYN_MASK Hu Hd), Z.lor_0_r.
  rewrite <- Z.land_assoc, (Z.land_comm (Z.lnot ERROR_CLASS_MASK) ERROR_DYN_MASK).
  rewrite (land_lnot_disjoint ERROR_DYN_MASK ERROR_CLASS_MASK); [reflexivity |].
  rewrite Z.land_comm. exact Hd.
Qed.

End RepairFacts.

Section FatalFacts.
Context {L : ErrLayout} {T : MsgTables}.

(** X20.  The message of a fatal error.  For a dynamic code and for a code
    that is only a class, [MPIR_Handle_fatal_error] hands to MPID_Abort the
    communicator it was given, MPI_SUCCESS, the code, and the text
    ["Fatal error in " fcname ": "] followed by the text of the code, cut so
    that the whole fits the MAX_ERRMSG_STRING bytes of the local array. *)
Theorem MPIR_Handle_fatal_error_message (cv : cvars) (fuel : nat)
    (P : MPIR_Process_t) (st : ring_state) (stack : list ascii)
    (comm_ptr : option MPIR_Comm) (fcname : string) (errcode : Z) (text : string) :
  length stack = Z.to_nat MAX_ERRMSG_STRING ->
  no_nul fcname -> no_nul text ->
  strlen ("Fatal error in " ++ fcname ++ ": ") < MAX_ERRMSG_STRING ->
  (Z.land errcode ERROR_DYN_MASK <> 0
   /\ text = match errcode_to_string P with
             | None => "Undefined dynamic error code"
             | Some f => f errcode
             end)
  \/ (Z.land errcode ERROR_DYN_MASK = 0
      /\ Z.land errcode ERROR_CLASS_MASK = errcode
      /\ get_class_msg errcode = Some text) ->
  let heading := "Fatal error in " ++ fcname ++ ": " in
  MPIR_Handle_fatal_error cv fuel P st stack comm_ptr fcname errcode
  = Some (comm_ptr, MPI_SUCCESS, errcode,
          heading ++ truncated (MAX_ERRMSG_STRING - strlen heading) text).
Proof.
  intros Hstack Hnf Hnt Hshort Hcase heading.
  unfold MPIR_Handle_fatal_error. fold heading. fold heading in Hshort.
  assert (Hnh : no_nul heading).
  { unfold no_nul, heading in *.
    assert (Happ : forall a b, list_ascii_of_string (a ++ b)
                     = (list_ascii_of_string a ++ list_ascii_of_string b)%list).
    { intros a b. induction a as [| c a IH]; [reflexivity |]. cbn. rewrite IH. reflexivity. }
    rewrite !Happ. apply Forall_app. split; [repeat constructor |].
    apply Forall_app. split; [exact Hnf | repeat constructor]. }
  set (pl := strlen heading) in *.
  assert (Hpl : 0 <= pl) by (unfold pl, strlen; lia).
  unfold MAX_ERRMSG_STRING in *.
  (* the heading *)
  destruct (snprintf_content stack 0 4096 heading) as (m1 & Hw & Hout1 & Htake1);
    [lia | lia | rewrite Hstack; lia |].
  rewrite Hw. cbn [mbind option_bind].
  rewrite (text_prefix_all (4096 - 1) heading) in Htake1 by (fold pl; lia).
  rewrite length_list_ascii_of_string in Htake1.
  destruct (prefix_read (list_ascii_of_string heading) (drop (Z.to_nat 0) m1)) as [_ Hlen1].
  { rewrite length_list_ascii_of_string. exact Htake1. }
  { exact Hnh. }
  rewrite length_list_ascii_of_string in Hlen1.
  assert (Hil : int_strlen m1 0 = Some pl).
  { unfold int_strlen, c_strlen. cbn [Z.ltb Z.compare]. rewrite Hlen1. cbn.
    f_equal. apply wrap32_small. unfold pl, strlen in *. lia. }
  rewrite Hil. cbn [mbind option_bind].
  (* the message *)
  destruct Hout1 as [Hl1 Hsame1].
  destruct (get_string_plain cv fuel P st errcode m1 pl (4096 - pl) text)
    as (m2 & Hrun & [Hl2 Hsame2] & Htake2);
    [lia | lia | rewrite Hl1, Hstack; lia | exact Hcase |].
  rewrite Hrun. cbn [mbind option_bind].
  set (frag := text_prefix (4096 - pl - 1) text) in *.
  assert (Hall : take (length (list_ascii_of_string heading ++ frag) + 1) (drop (Z.to_nat 0) m2)
                 = ((list_ascii_of_string heading ++ frag) ++ [NUL])%list).
  { cbn [Z.to_nat]. rewrite drop_0, length_app, length_list_ascii_of_string.
    replace (String.length heading + length frag + 1)%nat
      with (Z.to_nat pl + (length frag + 1))%nat by (unfold pl, strlen; lia).
    rewrite <- take_take_drop, Htake2, <- app_assoc. f_equal.
    apply list_eq. intros k.
    destruct (Nat.lt_ge_cases k (Z.to_nat pl)) as [Hk | Hk].
    - rewrite lookup_take_lt by exact Hk. rewrite Hsame2 by lia.
      assert (Hk1 : take (String.length heading + 1) (drop (Z.to_nat 0) m1) !! k
                    = (list_ascii_of_string heading ++ [NUL])%list !! k)
        by (rewrite Htake1; reflexivity).
      rewrite lookup_take_lt in Hk1 by (unfold pl, strlen in Hk; lia).
      cbn [Z.to_nat] in Hk1. rewrite drop_0 in Hk1. rewrite Hk1.
      apply lookup_app_l. rewrite length_list_ascii_of_string.
      unfold pl, strlen in Hk. lia.
    - rewrite lookup_take_ge by exact Hk. symmetry. apply lookup_ge_None.
      rewrite length_list_ascii_of_string. unfold pl, strlen in Hk. lia. }
  destruct (prefix_read (list_ascii_of_string heading ++ frag) (drop (Z.to_nat 0) m2) Hall)
    as [Hstr _].
  { apply Forall_app. split; [exact Hnh |]. unfold frag, text_prefix.
    apply Forall_take. exact Hnt. }
  unfold c_string_at. cbn [Z.ltb Z.compare]. rewrite Hstr. cbn [mbind option_bind].
  rewrite string_of_list_ascii_app, string_of_list_ascii_of_string.
  unfold truncated. reflexivity.
Qed.

End FatalFacts.

(** * Examples for the further properties *)

Lemma reference_fields_ok : FieldsOk reference_layout 11 7 4.
Proof. split; vm_compute; try reflexivity; intuition congruence. Qed.

Section DispatchOthersExamples.
#[local] Existing Instance reference_layout.
#[local] Existing Instance sample_consts.

Lemma fatal_code_always_aborts_witness :
  MPIR_Err_is_fatal 0x285 = true
  /\ is_fatal_outcome
       (snd (MPIR_Err_return_win sample_process initial_ring (Some sample_win)
               "MPI_Put" 0x285)) = true
  /\ is_fatal_outcome
       (snd (MPIR_Err_return_session sample_process initial_ring (Some sample_session)
               "MPI_Session_get_info" 0x285)) = true.
Proof.
  assert (H1 : Z.land MPI_ERR_UNKNOWN ERROR_CLASS_MASK = MPI_ERR_UNKNOWN) by reflexivity.
  assert (H2 : Z.land ERROR_CLASS_MASK ERROR_FATAL_MASK = 0) by reflexivity.
  assert (H3 : Z.land ERROR_CLASS_MASK ERROR_DYN_MASK = 0) by reflexivity.
  assert (H4 : MPIR_Err_is_fatal 0x285 = true) by reflexivity.
  split; [exact H4 |].
  destruct (fatal_code_always_aborts sample_process initial_ring None (Some sample_win)
              (Some sample_session) None None "MPI_Put" 0x285 H1 H2 H3 H4)
    as (_ & Hw & _).
  destruct (fatal_code_always_aborts sample_process initial_ring None None
              (Some sample_session) None None "MPI_Session_get_info" 0x285 H1 H2 H3 H4)
    as (_ & _ & Hs & _).
  split; [exact Hw | exact Hs].
Defined.

Lemma session_init_errors_return_first_witness :
  MPIR_Err_is_fatal 0x285 = true
  /\ MPIR_Errutil_is_initialized uninitialized_process = false
  /\ snd (MPIR_Err_return_session_init uninitialized_process initial_ring
            (Some errors_return) "MPI_Session_init" 0x285)
     = Returned 0x285 [].
Proof.
  split; [reflexivity |]. split; [reflexivity |].
  exact (session_init_errors_return_first uninitialized_process initial_ring
           errors_return "MPI_Session_init" 0x285 (or_introl eq_refl)).
Defined.

Lemma uninitialized_dispatch_aborts_witness :
  MPIR_Errutil_is_initialized uninitialized_process = false
  /\ snd (MPIR_Err_return_comm uninitialized_process initial_ring (Some sample_user_comm)
            "MPI_Send" 0x205)
     = Fatal_error None "MPI_Send" 0x205
  /\ snd (MPIR_Err_return_session uninitialized_process initial_ring (Some sample_session)
            "MPI_Send" 0x205)
     = Fatal_error None "MPI_Send" 0x205.
Proof.
  assert (H : MPIR_Errutil_is_initialized uninitialized_process = false) by reflexivity.
  split; [exact H |].
  destruct (uninitialized_dispatch_aborts uninitialized_process initial_ring
              (Some sample_user_comm) (Some sample_session) sample_session None
              "MPI_Send" 0x205 H) as (Hc & Hs & _).
  split; [exact Hc | exact Hs].
Defined.

Lemma user_handler_turns_error_into_success_witness :
  MPIR_Err_is_fatal 0x205 = false
  /\ snd (MPIR_Err_return_comm sample_process initial_ring (Some sample_user_comm)
            "MPI_Send" 0x205)
     = Returned MPI_SUCCESS [C_Comm_Handler_function 7 0x84000001 0x205 0]
  /\ snd (MPIR_Err_return_win uninitialized_process initial_ring (Some sample_win)
            "MPI_Put" 0x205)
     = Returned MPI_SUCCESS [C_Comm_Handler_function 7 0xa0000000 0x205 0]
  /\ snd (MPIR_Err_return_session sample_process initial_ring (Some sample_session)
            "MPI_Session_get_info" 0x205)
     = Returned MPI_SUCCESS [C_Comm_Handler_function 7 0xb8000000 0x205 0].
Proof.
  assert (Hr : handle user_handler <> MPI_ERRORS_RETURN) by discriminate.
  assert (Ht : handle user_handler <> MPIR_ERRORS_THROW_EXCEPTIONS) by discriminate.
  assert (Hf : handle user_handler <> MPI_ERRORS_ARE_FATAL) by discriminate.
  assert (Ha : handle user_handler <> MPI_ERRORS_ABORT) by discriminate.
  assert (Hl : language user_handler = MPIR_LANG__C) by reflexivity.
  assert (Hi : MPIR_Errutil_is_initialized sample_process = true) by reflexivity.
  assert (Href : 0 < session_ref_count sample_session) by reflexivity.
  assert (Hn : forall f, MPIR_Err_is_fatal (repaired f 0x205) = false) by reflexivity.
  assert (Hec : errhandler sample_user_comm = Some user_handler) by reflexivity.
  assert (Hew : win_errhandler sample_win = Some user_handler) by reflexivity.
  assert (Hes : session_errhandler sample_session = Some user_handler) by reflexivity.
  split; [reflexivity |].
  destruct (user_handler_turns_error_into_success sample_process initial_ring
              user_handler sample_user_comm sample_win sample_session "MPI_Send" 0x205
              Hr Ht Hf Ha Hl (Hn _) Hec Hew Hes Href) as (Hc & _ & _).
  destruct (user_handler_turns_error_into_success uninitialized_process initial_ring
              user_handler sample_user_comm sample_win sample_session "MPI_Put" 0x205
              Hr Ht Hf Ha Hl (Hn _) Hec Hew Hes Href) as (_ & Hw & _).
  destruct (user_handler_turns_error_into_success sample_process initial_ring
              user_handler sample_user_comm sample_win sample_session
              "MPI_Session_get_info" 0x205
              Hr Ht Hf Ha Hl (Hn _) Hec Hew Hes Href) as (_ & _ & Hs).
  split; [exact (Hc Hi) |]. split; [exact Hw | exact (Hs Hi)].
Defined.

Lemma dispatch_fallback_is_default_comm_witness :
  MPIR_Errutil_is_initialized sample_process = true
  /\ session_ref_count released_session <= 0
  /\ MPIR_Err_return_session sample_process initial_ring (Some released_session)
       "MPI_Session_get_info" 0x27f
     = MPIR_Err_return_comm sample_process initial_ring None "MPI_Session_get_info" 0x27f
  /\ MPIR_Err_return_group sample_process initial_ring
       (Some {| session_ptr := Some released_session |}) "MPI_Group_rank" 0x27f
     = MPIR_Err_return_comm sample_process initial_ring None "MPI_Group_rank" 0x27f.
Proof.
  assert (Hu : Z.land MPI_ERR_UNKNOWN ERROR_CLASS_MASK = MPI_ERR_UNKNOWN) by reflexivity.
  assert (Hle : MPI_ERR_UNKNOWN <= MPICH_ERR_LAST_MPIX) by (vm_compute; discriminate).
  assert (Hi : MPIR_Errutil_is_initialized sample_process = true) by reflexivity.
  assert (Hr : session_ref_count released_session <= 0) by (vm_compute; discriminate).
  split; [exact Hi |]. split; [exact Hr |].
  destruct (dispatch_fallback_is_default_comm sample_process initial_ring
              (Some released_session) {| session_ptr := Some released_session |}
              "MPI_Session_get_info" 0x27f Hu Hle Hi (or_introl Hr) eq_refl)
    as (Hs & _).
  destruct (dispatch_fallback_is_default_comm sample_process initial_ring
              (Some released_session) {| session_ptr := Some released_session |}
              "MPI_Group_rank" 0x27f Hu Hle Hi (or_introl Hr) eq_refl)
    as (_ & Hg & _).
  split; [exact Hs | exact Hg].
Defined.

Lemma checkValidErrcode_idempotent_witness :
  MPICH_ERR_LAST_MPIX < ERROR_GET_CLASS 0x27f
  /\ repaired "MPI_Send" 0x27f = 0x20d
  /\ checkValidErrcode (ERROR_GET_CLASS 0x20d) "MPI_Send" 0x20d = (0, 0x20d, []).
Proof.
  split; [reflexivity |]. split; [reflexivity |].
  assert (Hu : Z.land MPI_ERR_UNKNOWN ERROR_CLASS_MASK = MPI_ERR_UNKNOWN) by reflexivity.
  assert (Hle : MPI_ERR_UNKNOWN <= MPICH_ERR_LAST_MPIX) by (vm_compute; discriminate).
  assert (Hf : Z.land ERROR_CLASS_MASK ERROR_FATAL_MASK = 0) by reflexivity.
  assert (Hd : Z.land ERROR_CLASS_MASK ERROR_DYN_MASK = 0) by reflexivity.
  destruct (checkValidErrcode_idempotent "MPI_Send" 0x27f Hu Hle Hf Hd)
    as (_ & H & _).
  exact H.
Defined.

End DispatchOthersExamples.

Section TableExamples.
#[local] Existing Instance reference_layout.
#[local] Existing Instance sample_tables.

Lemma sample_tables_sorted :
  table_sorted generic_err_msgs /\ table_sorted specific_err_msgs.
Proof.
  split; intros i j a b Hij Ha Hb.
  - do 5 (destruct i as [| i]; [do 6 (destruct j as [| j]; [try lia; try discriminate;
        injection Ha as <-; injection Hb as <-; reflexivity |]); discriminate |]).
    discriminate.
  - do 2 (destruct i as [| i]; [do 3 (destruct j as [| j]; [try lia; try discriminate;
        injection Ha as <-; injection Hb as <-; reflexivity |]); discriminate |]).
    discriminate.
Qed.

Lemma sample_tables_sentinels :
  Forall sentinels_ok generic_err_msgs /\ Forall sentinels_ok specific_err_msgs.
Proof. split; repeat constructor. Qed.

Lemma find_msg_index_of_entry_witness :
  table_sorted generic_err_msgs
  /\ FindGenericMsgIndex "**unknown" = 3
  /\ FindSpecificMsgIndex "**user %d" = 1.
Proof.
  destruct sample_tables_sorted as [Hg Hs].
  destruct sample_tables_sentinels as [Sg Ss].
  split; [exact Hg |].
  destruct (find_msg_index_of_entry 3 (sample_pair "**unknown"
              "Unknown error.  Please file a bug report.") Sg Hg Ss Hs) as [H3 _].
  destruct (find_msg_index_of_entry 1 (sample_pair "**user %d"
              "user defined function returned an error code (%d)") Sg Hg Ss Hs) as [_ H1].
  split; [exact (H3 eq_refl) | exact (H1 eq_refl)].
Defined.

End TableExamples.

Section CombineMoreExamples.
#[local] Existing Instance reference_layout.
#[local] Existing Instance sample_tables.

Lemma one_link_chain : chain one_link_ring 0x205 [0] MPI_SUCCESS.
Proof.
  apply (chain_link one_link_ring 0x205 0 [] 0); [vm_compute; reflexivity |].
  apply chain_stop. vm_compute. reflexivity.
Qed.


Lemma MPIR_Err_combine_codes_only_relinks_witness :
  exists ret st',
    MPIR_Err_combine_codes 3 two_link_ring 0x30080205 0x307 = Some (ret, st')
    /\ length (ErrorRing st') = length (ErrorRing two_link_ring)
    /\ msg (ring_get (ErrorRing st') 0) = "old 1"
    /\ link_of st' 0x205 = Some 0.
Proof.
  destruct (MPIR_Err_combine_codes 3 two_link_ring 0x30080205 0x307)
    as [[ret st'] |] eqn:Hrun; [| vm_compute in Hrun; discriminate].
  exists ret, st'. split; [reflexivity |].
  destruct (MPIR_Err_combine_codes_only_relinks 3 two_link_ring st' 0x30080205 0x307 ret
              Hrun) as (_ & _ & Hlen & Hsame & Hlink).
  split; [exact Hlen |]. split.
  - destruct (Hsame 0) as (_ & _ & _ & _ & Hm). exact Hm.
  - rewrite Hlink. vm_compute. reflexivity.
Defined.



Lemma self_combination_never_returns_witness :
  chain one_link_ring 0x205 [0] MPI_SUCCESS
  /\ exists st',
       MPIR_Err_combine_codes 2 one_link_ring 0x205 0x205 = Some (0x205, st')
       /\ (forall fuel, MPIR_Err_combine_codes fuel st' 0x205 0x307 = None)
       /\ (forall fuel m, MPIR_Err_print_stack_string full_cvars fuel st' 0x205 m 0 100
                          = None).
Proof.
  split; [exact one_link_chain |].
  destruct (self_combination_never_returns full_cvars one_link_ring 0x205 [0] 2)
    as (st' & Hrun & Hcomb & Hprint).
  - discriminate.
  - reflexivity.
  - reflexivity.
  - exact one_link_chain.
  - vm_compute. discriminate.
  - intros i Hi. apply list_elem_of_singleton in Hi. subst i. vm_compute. discriminate.
  - simpl. lia.
  - exists st'. split; [exact Hrun |]. split.
    + intros fuel. apply Hcomb; [discriminate | reflexivity].
    + intros fuel m. apply Hprint.
Defined.

End CombineMoreExamples.

Section CreateMoreExamples.
#[local] Existing Instance reference_layout.
#[local] Existing Instance sample_tables.
#[local] Existing Instance sample_consts.

Lemma initial_ring_wf : ring_wf initial_ring.
Proof.
  split; [reflexivity |].
  split; split; vm_compute; first [reflexivity | discriminate].
Qed.

Lemma seven_bit_old_1 : seven_bit "old 1".
Proof. repeat (constructor; [vm_compute; discriminate |]). constructor. Qed.

Lemma create_code_keeps_ring_shape_witness :
  ring_wf initial_ring
  /\ ring_wf one_link_ring
  /\ error_ring_loc one_link_ring = 1
  /\ ring_get (ErrorRing one_link_ring) 5 = ring_get (ErrorRing initial_ring) 5.
Proof.
  assert (Hmax : MAX_ERROR_RING < 2 ^ 31) by reflexivity.
  split; [exact initial_ring_wf |].
  destruct (create_code_keeps_ring_shape initial_ring one_link_ring 0 0 (Some "f") 10 5
              "**fail" (Some "old %d") [VA_int 1] 0x205 Hmax initial_ring_wf
              one_link_ring_created) as (Hwf & _ & Hframe & Hloc).
  split; [exact Hwf |]. split.
  - apply Hloc. vm_compute. discriminate.
  - apply Hframe; [lia | discriminate].
Defined.

Lemma created_code_is_valid_link_witness :
  FieldsOk reference_layout 11 7 4
  /\ ring_wf initial_ring
  /\ link_of one_link_ring 0x205 = Some 0
  /\ checkErrcodeIsValid one_link_ring 0x205 = 0
  /\ chain one_link_ring 0x205 [0] MPI_SUCCESS.
Proof.
  split; [exact reference_fields_ok |]. split; [exact initial_ring_wf |].
  assert (Hgen : generic_msgs_len < 2 ^ 11) by reflexivity.
  assert (Hfield : Z.land 5 ERROR_CLASS_MASK = 5) by reflexivity.
  assert (Hg : 0 <= FindGenericMsgIndex "**fail") by (vm_compute; discriminate).
  assert (Hcls : effective_class (checked_lastcode initial_ring 0) 5 <> MPI_ERR_IN_STATUS)
    by (vm_compute; discriminate).
  assert (Hplain : seven_bit (msg (ring_get (ErrorRing one_link_ring)
                                     (error_ring_loc initial_ring))))
    by exact seven_bit_old_1.
  destruct (created_code_is_valid_link reference_layout_ok 11 7 4 reference_fields_ok
              initial_ring one_link_ring 0 0 (Some "f") 10 5 "**fail" (Some "old %d")
              [VA_int 1] 0x205 Hgen initial_ring_wf Hfield Hg one_link_ring_created
              Hcls Hplain) as (_ & Hlink & Hvalid & _ & Hchain).
  split; [exact Hlink |]. split; [exact Hvalid |].
  apply (Hchain []).
  - apply chain_stop. reflexivity.
  - intros Hin. inversion Hin.
Defined.

Lemma seven_bit_ring_msg (st : ring_state) (i : Z) (text : string) :
  msg (ring_get (ErrorRing st) i) = text -> seven_bit text ->
  seven_bit (msg (ring_get (ErrorRing st) i)).
Proof. intros -> H. exact H. Qed.

Lemma user_ring_created :
  MPIR_Err_create_code_valist initial_ring 0 0 (Some "del_fn") 7 MPI_ERR_OTHER
    "**user" (Some "**user %d") [VA_int 42] = Some (0x0400050f, user_ring).
Proof. vm_compute. reflexivity. Qed.

Lemma user_ring_wf : ring_wf user_ring.
Proof.
  split; [reflexivity |].
  split; split; vm_compute; first [reflexivity | discriminate].
Qed.

Lemma created_code_carries_user_code_witness :
  MPIR_Err_create_code_valist initial_ring 0 0 (Some "del_fn") 7 MPI_ERR_OTHER
    "**user" (Some "**user %d") [VA_int 42] = Some (0x0400050f, user_ring)
  /\ checkForUserErrcode user_ring 0x0400050f = 42.
Proof.
  split; [exact user_ring_created |].
  assert (Hgen : generic_msgs_len < 2 ^ 11) by reflexivity.
  assert (Hfield : Z.land MPI_ERR_OTHER ERROR_CLASS_MASK = MPI_ERR_OTHER) by reflexivity.
  assert (Hg : 0 <= FindGenericMsgIndex "**user") by (vm_compute; discriminate).
  assert (Hcls : effective_class (checked_lastcode initial_ring 0) MPI_ERR_OTHER
                 <> MPI_ERR_IN_STATUS) by (vm_compute; discriminate).
  assert (Hplain : seven_bit (msg (ring_get (ErrorRing user_ring)
                                     (error_ring_loc initial_ring)))).
  { apply (seven_bit_ring_msg user_ring _
             "user defined function returned an error code (%d)42"); [reflexivity |].
    repeat (constructor; [vm_compute; discriminate |]). constructor. }
  exact (created_code_carries_user_code reference_layout_ok 11 7 4 reference_fields_ok
           initial_ring user_ring 0 0 (Some "del_fn") 7 MPI_ERR_OTHER "**user %d" 42 []
           0x0400050f Hgen initial_ring_wf Hfield Hg user_ring_created Hcls Hplain).
Defined.

Lemma created_code_inherits_user_code_witness :
  link_of user_ring 0x0400050f = Some 0
  /\ exists code st',
       MPIR_Err_create_code_valist user_ring 0x0400050f 0 (Some "MPI_Comm_free") 30
         MPI_ERR_OTHER "**fail" None [] = Some (code, st')
       /\ checkForUserErrcode st' code = 42.
Proof.
  assert (Hlink : link_of user_ring 0x0400050f = Some 0) by (vm_compute; reflexivity).
  split; [exact Hlink |].
  destruct (MPIR_Err_create_code_valist user_ring 0x0400050f 0 (Some "MPI_Comm_free") 30
              MPI_ERR_OTHER "**fail" None [])
    as [[code st'] |] eqn:Hrun; [| vm_compute in Hrun; discriminate].
  exists code, st'. split; [reflexivity |].
  assert (Hgen : generic_msgs_len < 2 ^ 11) by reflexivity.
  assert (Hfield : Z.land MPI_ERR_OTHER ERROR_CLASS_MASK = MPI_ERR_OTHER) by reflexivity.
  assert (Hg : 0 <= FindGenericMsgIndex "**fail") by (vm_compute; discriminate).
  assert (Hcls : effective_class (checked_lastcode user_ring 0x0400050f) MPI_ERR_OTHER
                 <> MPI_ERR_IN_STATUS) by (vm_compute; discriminate).
  assert (Hplain : seven_bit (msg (ring_get (ErrorRing st') (error_ring_loc user_ring)))).
  { apply (seven_bit_ring_msg st' _ "failure").
    - pose proof Hrun as Hc. vm_compute in Hc. injection Hc as _ <-. reflexivity.
    - repeat (constructor; [vm_compute; discriminate |]). constructor. }
  assert (Hnu : "**fail" <> "**user") by discriminate.
  assert (Hvalid : checkErrcodeIsValid user_ring 0x0400050f = 0) by (vm_compute; reflexivity).
  assert (Hj : 0 <> error_ring_loc user_ring) by discriminate.
  assert (Huse : use_user_error_code (ring_get (ErrorRing user_ring) 0) <> 0)
    by discriminate.
  destruct (created_code_inherits_user_code reference_layout_ok 11 7 4 reference_fields_ok
              user_ring st' 0x0400050f 0 (Some "MPI_Comm_free") 30 MPI_ERR_OTHER "**fail"
              None [] code 0 Hgen user_ring_wf Hfield Hg Hrun Hcls Hplain Hnu Hvalid Hlink
              Hj Huse) as [Hnew _].
  exact Hnew.
Defined.

End CreateMoreExamples.

Section RenderMoreExamples.
#[local] Existing Instance reference_layout.
#[local] Existing Instance sample_tables.
#[local] Existing Instance sample_consts.

Lemma MPIR_Err_get_string_without_instance_witness :
  get_class_msg 5 = Some "Invalid communicator"
  /\ exists m',
       MPIR_Err_get_string compact_cvars 0 sample_process initial_ring 5
         (replicate 12 "X"%char) 0 10 = Some m'
       /\ same_outside (replicate 12 "X"%char) m' 0 10
       /\ c_string_at m' 0 = Some "Invalid c".
Proof.
  assert (Hmsg : get_class_msg 5 = Some "Invalid communicator") by reflexivity.
  split; [exact Hmsg |].
  assert (Hnt : no_nul "Invalid communicator").
  { repeat (constructor; [reflexivity |]). constructor. }
  destruct (MPIR_Err_get_string_without_instance compact_cvars 0 sample_process
              initial_ring 5 (replicate 12 "X"%char) 0 10 "Invalid communicator")
    as (m' & Hrun & Hout & Hstr).
  - lia.
  - lia.
  - vm_compute. discriminate.
  - exact Hnt.
  - right. split; [reflexivity |]. split; [reflexivity | exact Hmsg].
  - exists m'. split; [exact Hrun |]. split; [exact Hout | exact Hstr].
Defined.

Lemma vsnprintf_mpi_below_terminated_bound_witness :
  va_list_fits "%s, %d" [VA_char_ptr (Some long_text); VA_int 1] = true
  /\ exists m' r,
       vsnprintf_mpi (replicate 257 NUL) 0 256 "%s, %d"
         [VA_char_ptr (Some long_text); VA_int 1] = Some (m', r)
       /\ m' !! 256%nat = Some NUL.
Proof.
  assert (Hfits : va_list_fits "%s, %d" [VA_char_ptr (Some long_text); VA_int 1] = true)
    by reflexivity.
  split; [exact Hfits |].
  destruct (vsnprintf_mpi_below_terminated_bound "%s, %d" (replicate 257 NUL) 0 256
              [VA_char_ptr (Some long_text); VA_int 1] Hfits)
    as (m' & r & Hrun & _ & Hnul).
  - lia.
  - lia.
  - vm_compute. reflexivity.
  - reflexivity.
  - exists m', r. split; [exact Hrun | exact Hnul].
Defined.

Lemma vsnprintf_mpi_unhandled_directive_witness :
  directive "q"%char [VA_int 5] = D_unhandled
  /\ vsnprintf_mpi (replicate 12 "X"%char) 0 10 "count=%q, %d" [VA_int 5]
     = Some ((list_ascii_of_string "count=" ++ replicate 6 "X"%char)%list, 0).
Proof.
  assert (Hd : directive "q"%char [VA_int 5] = D_unhandled) by reflexivity.
  split; [exact Hd |].
  assert (Hno : no_percent "count=").
  { repeat (constructor; [discriminate |]). constructor. }
  refine (eq_trans (vsnprintf_mpi_unhandled_directive "count=" ", %d" "q"%char
                      (replicate 12 "X"%char) 0 10 [VA_int 5] Hno Hd) _).
  vm_compute. reflexivity.
Defined.

Lemma MPIR_Handle_fatal_error_message_witness :
  get_class_msg 5 = Some "Invalid communicator"
  /\ MPIR_Handle_fatal_error compact_cvars 0 sample_process initial_ring
       (replicate 4096 "X"%char) None "MPI_Send" 5
     = Some (None, MPI_SUCCESS, 5, "Fatal error in MPI_Send: Invalid communicator").
Proof.
  assert (Hmsg : get_class_msg 5 = Some "Invalid communicator") by reflexivity.
  split; [exact Hmsg |].
  assert (Hnf : no_nul "MPI_Send").
  { repeat (constructor; [reflexivity |]). constructor. }
  assert (Hnt : no_nul "Invalid communicator").
  { repeat (constructor; [reflexivity |]). constructor. }
  rewrite (MPIR_Handle_fatal_error_message compact_cvars 0 sample_process initial_ring
             (replicate 4096 "X"%char) None "MPI_Send" 5 "Invalid communicator").
  - vm_compute. reflexivity.
  - vm_compute. reflexivity.
  - exact Hnf.
  - exact Hnt.
  - vm_compute. reflexivity.
  - right. split; [reflexivity |]. split; [reflexivity | exact Hmsg].
Defined.

End RenderMoreExamples.

(** ** Codes without a ring entry *)

Section StaleFacts.
Context {L : ErrLayout} {T : MsgTables}.

(** X21.  A code whose ring entry is gone renders as its class message.
    With MPIR_CVAR_PRINT_ERROR_STACK off, for a code that is neither dynamic
    nor only a class and that refers to no ring entry (the slot is out of
    range or has been taken by another code, or the code has no generic
    message), [MPIR_Err_get_string] with [length] from 1 on returns, leaves
    the memory outside the [length] bytes as it was, and the C string it
    leaves in the buffer is the class message of the code cut to
    [length - 1] characters. *)
Theorem MPIR_Err_get_string_stale_code (cv : cvars) (fuel : nat)
    (P : MPIR_Process_t) (st : ring_state) (errorcode : Z) (m : list ascii)
    (buf length : Z) (text : string) :
  MPIR_CVAR_PRINT_ERROR_STACK cv = false ->
  0 <= buf -> 1 <= length < 2 ^ 31 -> buf + length <= Z.of_nat (List.length m) ->
  no_nul text ->
  Z.land errorcode ERROR_DYN_MASK = 0 ->
  Z.land errorcode ERROR_CLASS_MASK <> errorcode ->
  get_class_msg (MPIR_ERR_GET_CLASS errorcode) = Some text ->
  link_of st errorcode = None ->
  exists m',
    MPIR_Err_get_string cv (S fuel) P st errorcode m buf length = Some m'
    /\ same_outside m m' buf (buf + length)
    /\ c_string_at m' buf = Some (truncated length text).
Proof.
  intros Hcv Hb Hn Hfit Hnt Hdyn Hcls Hmsg Hlink.
  assert (Hne : errorcode <> MPI_SUCCESS).
  { intros Hz. apply Hcls. rewrite Hz. apply Z.land_0_l. }
  destruct (snprintf_then_terminate m buf length text) as (m1 & m2 & Hw & Hs & Hout & Htake);
    [lia | lia | lia |].
  set (frag := text_prefix (length - 1) text) in *.
  destruct (prefix_read frag (drop (Z.to_nat buf) m2) Htake) as [Hstr Hlen].
  { unfold frag, text_prefix. apply Forall_take. exact Hnt. }
  pose proof (length_text_prefix (length - 1) text ltac:(lia)) as Hfl. fold frag in Hfl.
  exists m2. split; [| split; [exact Hout |]].
  - unfold MPIR_Err_get_string.
    destruct (Z.eqb_spec length 0); [lia |].
    rewrite Hdyn. cbn [Z.eqb negb].
    destruct (Z.eqb_spec (Z.land errorcode ERROR_CLASS_MASK) errorcode); [contradiction |].
    rewrite Hmsg. cbn [mbind option_bind].
    rewrite MPL_strncpy_as_snprintf, Hw. cbn [option_map mbind option_bind].
    rewrite Hs. cbn [mbind option_bind].
    assert (Hil : int_strlen m2 buf = Some (Z.of_nat (List.length frag))).
    { unfold int_strlen, c_strlen. destruct (Z.ltb_spec buf 0); [lia |].
      rewrite Hlen. cbn. f_equal. apply wrap32_small. lia. }
    rewrite Hil. cbn [mbind option_bind].
    unfold ErrGetInstanceString. rewrite Hcv, instance_loop_step.
    destruct (Z.eqb_spec errorcode MPI_SUCCESS); [contradiction |].
    rewrite Hlink. cbn [mbind option_bind].
    destruct (Z.eqb_spec errorcode MPI_SUCCESS); [contradiction |]. reflexivity.
  - unfold c_string_at, truncated. destruct (Z.ltb_spec buf 0); [lia | exact Hstr].
Qed.

End StaleFacts.

Section StaleExamples.
#[local] Existing Instance reference_layout.
#[local] Existing Instance sample_tables.

Lemma MPIR_Err_get_string_stale_code_witness :
  link_of stale_ring 0x205 = None
  /\ exists m',
       MPIR_Err_get_string compact_cvars 1 sample_process stale_ring 0x205
         (replicate 64 "X"%char) 0 64 = Some m'
       /\ c_string_at m' 0 = Some "Invalid communicator".
Proof.
  assert (Hlink : link_of stale_ring 0x205 = None) by (vm_compute; reflexivity).
  split; [exact Hlink |].
  assert (Hnt : no_nul "Invalid communicator").
  { repeat (constructor; [reflexivity |]). constructor. }
  destruct (MPIR_Err_get_string_stale_code compact_cvars 0 sample_process stale_ring
              0x205 (replicate 64 "X"%char) 0 64 "Invalid communicator")
    as (m' & Hrun & _ & Hstr).
  - reflexivity.
  - lia.
  - lia.
  - vm_compute. discriminate.
  - exact Hnt.
  - reflexivity.
  - vm_compute. discriminate.
  - reflexivity.
  - exact Hlink.
  - exists m'. split; [exact Hrun | exact Hstr].
Defined.

End StaleExamples.
